(** * StarkHive API: credential and session lifecycle (auth.service.ts)

    A shallow embedding of [AuthService] (registration, login, refresh-token
    rotation, password reset, promotion to admin) together with the
    properties of its decision logic.

    The service talks to four collaborators: two TypeORM repositories, the
    mail service, and the bcrypt / JWT libraries.  Repositories are modelled
    as in-memory tables inside a [World]; whatever the service reads from its
    surroundings during one call (the clock, the generated primary key, the
    random bytes, the bcrypt salt, and which collaborator calls are rejected)
    is gathered in an [Env].  Service methods are computations in a small
    reader / state / exception monad. *)

From Stdlib Require Import String Ascii List ZArith Bool Lia.
From Stdlib Require Import DecimalString.
Import ListNotations.

Local Open Scope string_scope.
Local Open Scope list_scope.
Local Open Scope Z_scope.

Set Implicit Arguments.

(* ================================================================== *)
(** ** Data model *)

(** Modelled from the spec: the enum of './enums/userRole.enum' is not part
    of the sources; the data model lists its three values. *)
Inductive UserRole : Type := USER | ADMIN | SUPER_ADMIN.

Definition UserRole_eqb (a b : UserRole) : bool :=
  match a, b with
  | USER, USER | ADMIN, ADMIN | SUPER_ADMIN, SUPER_ADMIN => true
  | _, _ => false
  end.

(** The ordering of privileges used to speak about upward and downward
    transitions. *)
Definition role_rank (r : UserRole) : nat :=
  match r with USER => 0%nat | ADMIN => 1%nat | SUPER_ADMIN => 2%nat end.

Definition role_le (a b : UserRole) : Prop := (role_rank a <= role_rank b)%nat.

(** Modelled from the spec: the entity of './entities/user.entity' is not
    part of the sources.  Fields are the ones the service touches: [id],
    [email], [password] (a digest), [role], and the optional digest of the
    current refresh token. *)
Module User.
Record t : Type := mk {
    id : string;
    email : string;
    password : string;
    role : UserRole;
    refreshToken : option string
  }.
End User.

(** [Omit<User, 'password'>]: what [register] and [validateUser] return. *)
Module SafeUser.
Record t : Type := mk {
    id : string;
    email : string;
    role : UserRole;
    refreshToken : option string
  }.

  (** [const { password, ...result } = user]. *)
Definition of_user (u : User.t) : t :=
    {| id := User.id u; email := User.email u; role := User.role u;
       refreshToken := User.refreshToken u |}.
End SafeUser.

(** Modelled from the spec: the entity of './entities/password-reset.entity'
    is not part of the sources.  The relation [user] is stored as the owner's
    primary key; [expiresAt] is a [Date], kept as milliseconds since the
    epoch. *)
Module PasswordReset.
Record t : Type := mk {
    id : string;
    user : string;
    token : string;
    expiresAt : Z
  }.
End PasswordReset.

(** Modelled from the spec: './dto/register-user.dto' is not part of the
    sources; [register] destructures [email], [password] and [role] from it. *)
Module RegisterDto.
Record t : Type := mk { email : string; password : string; role : UserRole }.
End RegisterDto.

(** Modelled from the spec: './dto/loginDto' is not part of the sources;
    [login] destructures [email] and [password] from it. *)
Module LogInDto.
Record t : Type := mk { email : string; password : string }.
End LogInDto.

(** The object returned by [getTokens]. *)
Module Tokens.
Record t : Type := mk { accessToken : string; refreshToken : string }.
End Tokens.

(** The argument of [mailService.sendEmail]. *)
Module Mail.
Record t : Type := mk { to : string; subject : string; body : string }.
End Mail.

(** The claims carried by a signed token: the payload [{ sub, email }] given
    to [signAsync] plus the issued-at and expiry claims (in seconds) that the
    JWT library adds. *)
Module Claims.
Record t : Type := mk { sub : string; email : string; iat : Z; exp : Z }.
End Claims.

(** The two secrets read through [configService.get]. *)
Record Config : Type := {
  JWT_SECRET : string;
  JWT_REFRESH_SECRET : string
}.

(* ================================================================== *)
(** ** Collaborators *)

(** [bcrypt.hash(data, rounds)] draws a random salt; the salt is made an
    explicit argument.  [bcrypt.compare(data, digest)]. *)
Class Bcrypt : Type := {
  bcrypt_hash : string -> string -> nat -> string;
  bcrypt_compare : string -> string -> bool
}.

(** The signing primitive behind [JwtService]: [jwt_encode secret claims]
    serialises and signs, [jwt_decode secret token] checks the signature and
    parses ([None] on a bad signature or a malformed token). *)
Class Jwt : Type := {
  jwt_encode : string -> Claims.t -> string;
  jwt_decode : string -> string -> option Claims.t
}.

(** The awaited collaborator calls that may be rejected. *)
Inductive Call : Type :=
| UserFindOne | UserSave | UserUpdate
| ResetFindOne | ResetSave | ResetDelete
| MailSend.

(** What one service call reads from its surroundings.  A service call
    inserts at most one row and draws at most one salt; a kind of collaborator
    call that is rejected is rejected whenever the service call performs it. *)
Record Env : Type := {
  now : Z;                 (* [new Date()], milliseconds since the epoch *)
  uuid : string;           (* primary key generated for an inserted row *)
  randomBytes : string;    (* [crypto.randomBytes(32).toString('hex')] *)
  salt : string;           (* salt drawn by [bcrypt.hash] *)
  fails : Call -> bool     (* collaborator calls that are rejected *)
}.

(** No collaborator call is rejected. *)
Definition reliable (e : Env) : Prop := forall c, fails e c = false.

(** The persisted tables and the mails handed to the mail service. *)
Record World : Type := {
  users : list User.t;
  passwordResets : list PasswordReset.t;
  outbox : list Mail.t
}.

Definition emptyWorld : World :=
  {| users := []; passwordResets := []; outbox := [] |}.

(* ================================================================== *)
(** ** Exceptions and the service monad *)

Inductive Exception : Type :=
| UnauthorizedException (message : string)
| BadRequestException (message : string)
| Error (message : string)
| TypeError (message : string)
| JsonWebTokenError
| TokenExpiredError
| QueryFailedError (c : Call)
| DeliveryError.

Inductive Result (A : Type) : Type :=
| Ok (a : A)
| Throw (x : Exception).
Arguments Ok {A} a.
Arguments Throw {A} x.

(** An [async] method: reads the environment, threads the world, and either
    resolves or rejects.  Effects performed before a rejection stay. *)
Definition M (A : Type) : Type := Env -> World -> Result A * World.

Definition ret {A} (a : A) : M A := fun _ w => (Ok a, w).

Definition throw {A} (x : Exception) : M A := fun _ w => (Throw x, w).

Definition bind {A B} (m : M A) (k : A -> M B) : M B :=
  fun e w =>
    match m e w with
    | (Ok a, w') => k a e w'
    | (Throw x, w') => (Throw x, w')
    end.

(** [try { m } catch (error) { h error }]. *)
Definition try_catch {A} (m : M A) (h : Exception -> M A) : M A :=
  fun e w =>
    match m e w with
    | (Ok a, w') => (Ok a, w')
    | (Throw x, w') => h x e w'
    end.

Definition ask : M Env := fun e w => (Ok e, w).

(** An awaited collaborator call [c] whose effect on the world is [f]. *)
Definition await {A} (c : Call) (x : Exception) (f : World -> A * World) : M A :=
  fun e w =>
    if fails e c then (Throw x, w)
    else let (a, w') := f w in (Ok a, w').

Declare Scope service_scope.
Delimit Scope service_scope with service.
Notation "x <- m ;; k" := (bind m (fun x => k))
  (at level 61, m at next level, right associativity) : service_scope.
Notation "m ;;; k" := (bind m (fun _ => k))
  (at level 61, right associativity) : service_scope.
Local Open Scope service_scope.

(* ================================================================== *)
(** ** Repositories *)

Definition set_users (us : list User.t) (w : World) : World :=
  {| users := us; passwordResets := passwordResets w; outbox := outbox w |}.

Definition set_passwordResets (rs : list PasswordReset.t) (w : World) : World :=
  {| users := users w; passwordResets := rs; outbox := outbox w |}.

Definition set_outbox (ms : list Mail.t) (w : World) : World :=
  {| users := users w; passwordResets := passwordResets w; outbox := ms |}.

(** The [where] clauses the service uses. *)
Definition has_id (i : string) (u : User.t) : bool := String.eqb (User.id u) i.

Definition has_email (m : string) (u : User.t) : bool := String.eqb (User.email u) m.

Definition has_token (t : string) (r : PasswordReset.t) : bool :=
  String.eqb (PasswordReset.token r) t.

Definition has_reset_id (i : string) (r : PasswordReset.t) : bool :=
  String.eqb (PasswordReset.id r) i.

(** Overwriting the row [v] by [u] when it has the primary key of [u]. *)
Definition overwrite (u : User.t) (v : User.t) : User.t :=
  if has_id (User.id u) v then u else v.

(** Storing the digest [h] on the row [v] when its primary key is [userId]. *)
Definition bind_refreshToken (userId h : string) (v : User.t) : User.t :=
  if has_id userId v
  then {| User.id := User.id v; User.email := User.email v;
          User.password := User.password v; User.role := User.role v;
          User.refreshToken := Some h |}
  else v.

Module userRepository.

(** [findOne({ where })]: the first matching row, or [null]. *)
Definition findOne (where_ : User.t -> bool) : M (option User.t) :=
  await UserFindOne (QueryFailedError UserFindOne)
    (fun w => (find where_ (users w), w)).

(** [save] of an entity built by [create], which has no primary key yet: the
    row is inserted under the generated key, with no refresh token.  A key
    that is already taken violates the primary-key constraint. *)
Definition save_created (email password : string) (role : UserRole) : M User.t :=
  e <- ask ;;
  let saved := {| User.id := uuid e; User.email := email;
                  User.password := password; User.role := role;
                  User.refreshToken := None |} in
  inserted <- await UserSave (QueryFailedError UserSave)
                (fun w => if existsb (has_id (uuid e)) (users w)
                          then (false, w)
                          else (true, set_users (users w ++ [saved]) w)) ;;
  if inserted : bool then ret saved else throw (QueryFailedError UserSave).

(** [save] of an entity loaded from the table: the row with the entity's
    primary key is overwritten (and inserted when there is none). *)
Definition save (u : User.t) : M User.t :=
  await UserSave (QueryFailedError UserSave)
    (fun w =>
       let us :=
         if existsb (has_id (User.id u)) (users w)
         then map (overwrite u) (users w)
         else users w ++ [u] in
       (u, set_users us w)).

(** [update(userId, { refreshToken })]. *)
Definition update_refreshToken (userId : string) (h : string) : M unit :=
  await UserUpdate (QueryFailedError UserUpdate)
    (fun w => (tt, set_users (map (bind_refreshToken userId h) (users w)) w)).

End userRepository.

Module passwordResetRepository.

(** [findOne({ where: { token }, relations: ['user'] })]: the first row with
    that token, joined with its owner. *)
Definition findOne (token : string) : M (option (PasswordReset.t * option User.t)) :=
  await ResetFindOne (QueryFailedError ResetFindOne)
    (fun w =>
       (match find (has_token token) (passwordResets w) with
        | Some r => Some (r, find (has_id (PasswordReset.user r)) (users w))
        | None => None
        end, w)).

(** [save(create({ user, token, expiresAt }))]. *)
Definition save_created (user : User.t) (token : string) (expiresAt : Z)
  : M PasswordReset.t :=
  e <- ask ;;
  let saved := {| PasswordReset.id := uuid e;
                  PasswordReset.user := User.id user;
                  PasswordReset.token := token;
                  PasswordReset.expiresAt := expiresAt |} in
  inserted <- await ResetSave (QueryFailedError ResetSave)
                (fun w =>
                   if existsb (has_reset_id (uuid e)) (passwordResets w)
                   then (false, w)
                   else (true, set_passwordResets (passwordResets w ++ [saved]) w)) ;;
  if inserted : bool then ret saved else throw (QueryFailedError ResetSave).

(** [delete({ id })]. *)
Definition delete (i : string) : M unit :=
  await ResetDelete (QueryFailedError ResetDelete)
    (fun w =>
       (tt, set_passwordResets
              (filter (fun r => negb (has_reset_id i r)) (passwordResets w)) w)).

End passwordResetRepository.

Module mailService.

(** Modelled from the spec: '../mail/mail.service' is not part of the
    sources; its interface is [sendEmail(to, subject, body)], which either
    hands the mail over or fails with [DeliveryError]. *)
Definition sendEmail (m : Mail.t) : M unit :=
  await MailSend DeliveryError
    (fun w => (tt, set_outbox (outbox w ++ [m]) w)).

End mailService.

Module jwtService.

(** [signAsync({ sub, email }, { secret, expiresIn })]: the library stamps
    the token with the current time in whole seconds and with the expiry
    [expiresIn] seconds later. *)
Definition signAsync `{Jwt} (sub email secret : string) (expiresIn : Z) : M string :=
  e <- ask ;;
  ret (jwt_encode secret
         {| Claims.sub := sub; Claims.email := email;
            Claims.iat := now e / 1000;
            Claims.exp := now e / 1000 + expiresIn |}).

(** [verifyAsync(token, { secret })]: rejects on a bad signature or a
    malformed token, and once the clock has reached the expiry claim. *)
Definition verifyAsync `{Jwt} (token secret : string) : M Claims.t :=
  e <- ask ;;
  match jwt_decode secret token with
  | None => throw JsonWebTokenError
  | Some payload =>
      if Claims.exp payload <=? now e / 1000
      then throw TokenExpiredError
      else ret payload
  end.

End jwtService.

Module bcrypt.

(** [bcrypt.hash(data, rounds)] with the salt of this call. *)
Definition hash `{Bcrypt} (data : string) (rounds : nat) : M string :=
  e <- ask ;; ret (bcrypt_hash (salt e) data rounds).

(** [bcrypt.compare(data, digest)]. *)
Definition compare `{Bcrypt} (data digest : string) : M bool :=
  ret (bcrypt_compare data digest).

End bcrypt.

(* ================================================================== *)
(** ** AuthService *)

(** [targetUser.role = ...]. *)
Definition with_role (r : UserRole) (u : User.t) : User.t :=
  {| User.id := User.id u; User.email := User.email u;
     User.password := User.password u; User.role := r;
     User.refreshToken := User.refreshToken u |}.

(** [reset.user.password = ...]. *)
Definition with_password (p : string) (u : User.t) : User.t :=
  {| User.id := User.id u; User.email := User.email u;
     User.password := p; User.role := User.role u;
     User.refreshToken := User.refreshToken u |}.

(** JavaScript truthiness of an optional string: [null], [undefined] and the
    empty string are falsy; a truthy one is returned as it is. *)
Definition truthy (s : option string) : option string :=
  match s with
  | None => None
  | Some v => if String.eqb v "" then None else Some v
  end.

(** [addMinutes(_, 15)], in milliseconds. *)
Definition minutes_15 : Z := 15 * 60 * 1000.

(** [expiresIn: '15m'], in seconds. *)
Definition expires_15m : Z := 15 * 60.

(** [expiresIn: '7d'], in seconds. *)
Definition expires_7d : Z := 7 * 24 * 60 * 60.

Module AuthService.
Section Service.

Context `{Bcrypt} `{Jwt} (config : Config).

Definition promoteToAdmin (requesterId targetUserId : string) : M User.t :=
  requester <- userRepository.findOne (has_id requesterId) ;;
  if match requester with
     | None => true
     | Some r => negb (UserRole_eqb (User.role r) SUPER_ADMIN)
     end
  then throw (UnauthorizedException "Only super admins can promote users to admin")
  else
    targetUser <- userRepository.findOne (has_id targetUserId) ;;
    match targetUser with
    | None => throw (BadRequestException "Target user does not exist")
    | Some t =>
        let targetUser := with_role ADMIN t in
        userRepository.save targetUser ;;;
        ret targetUser
    end.

Definition register (registerDto : RegisterDto.t) : M SafeUser.t :=
  let email := RegisterDto.email registerDto in
  let password := RegisterDto.password registerDto in
  let role := RegisterDto.role registerDto in
  existing <- userRepository.findOne (has_email email) ;;
  match existing with
  | Some _ => throw (Error "Email already exists")
  | None =>
      hashed <- bcrypt.hash password 10 ;;
      saved <- userRepository.save_created email hashed role ;;
      ret (SafeUser.of_user saved)
  end.

Definition getOneByEmail (email : string) : M (option User.t) :=
  userRepository.findOne (has_email email).

Definition validateUser (email password : string) : M (option SafeUser.t) :=
  user <- userRepository.findOne (has_email email) ;;
  match user with
  | Some u =>
      matches <- bcrypt.compare password (User.password u) ;;
      if matches : bool then ret (Some (SafeUser.of_user u)) else ret None
  | None => ret None
  end.

Definition getTokens (userId email : string) : M Tokens.t :=
  accessToken <- jwtService.signAsync userId email (JWT_SECRET config) expires_15m ;;
  refreshToken <- jwtService.signAsync userId email (JWT_REFRESH_SECRET config) expires_7d ;;
  ret {| Tokens.accessToken := accessToken; Tokens.refreshToken := refreshToken |}.

Definition updateRefreshToken (userId refreshToken : string) : M unit :=
  hashedRefreshToken <- bcrypt.hash refreshToken 10 ;;
  userRepository.update_refreshToken userId hashedRefreshToken.

Definition refreshTokens (refreshToken : string) : M Tokens.t :=
  try_catch
    (payload <- jwtService.verifyAsync refreshToken (JWT_REFRESH_SECRET config) ;;
     user <- userRepository.findOne (has_id (Claims.sub payload)) ;;
     match user with
     | None => throw (Error "Invalid refresh token")
     | Some u =>
         match truthy (User.refreshToken u) with
         | None => throw (Error "Invalid refresh token")
         | Some stored =>
             isRefreshTokenValid <- bcrypt.compare refreshToken stored ;;
             if negb isRefreshTokenValid
             then throw (Error "Refresh token is not valid")
             else
               tokens <- getTokens (User.id u) (User.email u) ;;
               updateRefreshToken (User.id u) (Tokens.refreshToken tokens) ;;;
               ret tokens
         end
     end)
    (fun _error => throw (Error "Invalid refresh token")).

Definition validateUserById (userId : string) : M (option User.t) :=
  userRepository.findOne (has_id userId).

Definition login (loginDto : LogInDto.t) : M Tokens.t :=
  let email := LogInDto.email loginDto in
  let password := LogInDto.password loginDto in
  user <- validateUser email password ;;
  match user with
  | None => throw (UnauthorizedException "Invalid email or password")
  | Some u =>
      tokens <- getTokens (SafeUser.id u) (SafeUser.email u) ;;
      updateRefreshToken (SafeUser.id u) (Tokens.refreshToken tokens) ;;;
      ret tokens
  end.

Definition sendPasswordResetEmail (email : string) : M unit :=
  user <- userRepository.findOne (has_email email) ;;
  match user with
  | None => ret tt
  | Some u =>
      e <- ask ;;
      let token := randomBytes e in
      let expiresAt := now e + minutes_15 in
      passwordResetRepository.save_created u token expiresAt ;;;
      let resetLink := ("https://your-app.com/reset-password?token=" ++ token)%string in
      mailService.sendEmail
        {| Mail.to := User.email u;
           Mail.subject := "Password Reset Request";
           Mail.body := ("Click the link to reset your password: " ++ resetLink)%string |}
  end.

Definition resetPassword (token newPassword : string) : M unit :=
  reset <- passwordResetRepository.findOne token ;;
  e <- ask ;;
  match reset with
  | None => throw (BadRequestException "Invalid or expired reset token")
  | Some (r, owner) =>
      if PasswordReset.expiresAt r <? now e
      then throw (BadRequestException "Invalid or expired reset token")
      else
        hashedPassword <- bcrypt.hash newPassword 10 ;;
        match owner with
        | None => throw (TypeError "Cannot set properties of null (setting 'password')")
        | Some u =>
            userRepository.save (with_password hashedPassword u) ;;;
            passwordResetRepository.delete (PasswordReset.id r)
        end
  end.

Definition findByEmail (email : string) : M (option User.t) :=
  userRepository.findOne (has_email email).

End Service.
End AuthService.

(** The error kinds of the specification, as the exceptions the service
    throws for them. *)
Definition EmailAlreadyExists : Exception := Error "Email already exists".
Definition InvalidCredentials : Exception :=
  UnauthorizedException "Invalid email or password".
Definition InvalidRefreshToken : Exception := Error "Invalid refresh token".
Definition InvalidOrExpiredResetToken : Exception :=
  BadRequestException "Invalid or expired reset token".
Definition Unauthorized : Exception :=
  UnauthorizedException "Only super admins can promote users to admin".
Definition TargetNotFound : Exception :=
  BadRequestException "Target user does not exist".

(* ================================================================== *)
(** ** Sequences of service calls *)

Inductive Op : Type :=
| Register (registerDto : RegisterDto.t)
| Login (loginDto : LogInDto.t)
| RefreshTokens (refreshToken : string)
| SendPasswordResetEmail (email : string)
| ResetPassword (token newPassword : string)
| PromoteToAdmin (requesterId targetUserId : string).

Section Traces.

Context `{Bcrypt} `{Jwt} (config : Config).

(** The world left behind by one call, whether it resolved or rejected. *)
Definition run (o : Op) (e : Env) (w : World) : World :=
  match o with
  | Register d => snd (AuthService.register d e w)
  | Login d => snd (AuthService.login config d e w)
  | RefreshTokens t => snd (AuthService.refreshTokens config t e w)
  | SendPasswordResetEmail m => snd (AuthService.sendPasswordResetEmail m e w)
  | ResetPassword t p => snd (AuthService.resetPassword t p e w)
  | PromoteToAdmin r t => snd (AuthService.promoteToAdmin r t e w)
  end.

(** Calls served one after the other, each in its own environment. *)
Fixpoint exec (tr : list (Env * Op)) (w : World) : World :=
  match tr with
  | [] => w
  | (e, o) :: tr' => exec tr' (run o e w)
  end.

End Traces.

(** The user with primary key [i] is an administrator in [w]. *)
Definition is_admin_in (w : World) (i : string) : Prop :=
  exists u, In u (users w) /\ User.id u = i /\ User.role u = ADMIN.

(** The call [o], served in world [w], is a promotion of [i] requested by a
    user who is a super admin in [w]. *)
Definition promoted_by_super_admin (o : Op) (w : World) (i : string) : Prop :=
  match o with
  | PromoteToAdmin requesterId targetUserId =>
      targetUserId = i /\
      exists r, find (has_id requesterId) (users w) = Some r /\
                User.role r = SUPER_ADMIN
  | _ => False
  end.

(** The call [o] is a registration that asks for the role [ADMIN] and whose
    row receives the primary key [i]. *)
Definition registered_as_admin (o : Op) (e : Env) (i : string) : Prop :=
  match o with
  | Register d => RegisterDto.role d = ADMIN /\ uuid e = i
  | _ => False
  end.

(* ================================================================== *)
(** ** What the calls leave behind *)

(** The token pair issued for a user in environment [e]. *)
Definition issued `{Jwt} (config : Config) (e : Env) (userId email : string) : Tokens.t :=
  {| Tokens.accessToken :=
       jwt_encode (JWT_SECRET config)
         {| Claims.sub := userId; Claims.email := email;
            Claims.iat := now e / 1000;
            Claims.exp := now e / 1000 + expires_15m |};
     Tokens.refreshToken :=
       jwt_encode (JWT_REFRESH_SECRET config)
         {| Claims.sub := userId; Claims.email := email;
            Claims.iat := now e / 1000;
            Claims.exp := now e / 1000 + expires_7d |} |}.

(** The table after the digest of the refresh token of [tokens] has been
    bound to [userId]. *)
Definition rotated `{Bcrypt} (e : Env) (userId : string) (tokens : Tokens.t)
  (w : World) : World :=
  set_users
    (map (bind_refreshToken userId
            (bcrypt_hash (salt e) (Tokens.refreshToken tokens) 10))
         (users w)) w.

(** The row inserted by [register]. *)
Definition registered `{Bcrypt} (e : Env) (d : RegisterDto.t) : User.t :=
  {| User.id := uuid e; User.email := RegisterDto.email d;
     User.password := bcrypt_hash (salt e) (RegisterDto.password d) 10;
     User.role := RegisterDto.role d; User.refreshToken := None |}.

(** The row inserted by [sendPasswordResetEmail] for the user [u]. *)
Definition requested (e : Env) (u : User.t) : PasswordReset.t :=
  {| PasswordReset.id := uuid e; PasswordReset.user := User.id u;
     PasswordReset.token := randomBytes e;
     PasswordReset.expiresAt := now e + minutes_15 |}.

(** The mail handed over by [sendPasswordResetEmail] for the user [u]. *)
Definition reset_mail (e : Env) (u : User.t) : Mail.t :=
  {| Mail.to := User.email u;
     Mail.subject := "Password Reset Request";
     Mail.body :=
       ("Click the link to reset your password: "
        ++ ("https://your-app.com/reset-password?token=" ++ randomBytes e))%string |}.

(** A row of the table after a call has the primary key and role of a row
    before the call. *)
Definition role_kept (w : World) (u' : User.t) : Prop :=
  exists u, In u (users w) /\ User.id u = User.id u' /\ User.role u = User.role u'.

(** The relation between a row before and after a promotion of [tid]. *)
Definition promotion_step (tid : string) (u u' : User.t) : Prop :=
  User.id u' = User.id u
  /\ (User.id u <> tid -> u' = u)
  /\ (User.role u <> SUPER_ADMIN -> role_le (User.role u) (User.role u')).

(* ================================================================== *)
(** ** Executable stand-ins for the libraries

    Small implementations of the two library interfaces, used to run the
    service on concrete inputs.  Tokens are deterministic in the claims and
    the secret, as signed tokens are; digests are salted and, like those of
    bcrypt, depend on the first 72 bytes of the input only. *)

Fixpoint split_on (sep : ascii) (s : string) : list string :=
  match s with
  | EmptyString => [EmptyString]
  | String c rest =>
      if Ascii.eqb c sep then EmptyString :: split_on sep rest
      else match split_on sep rest with
           | [] => [String c EmptyString]
           | x :: xs => String c x :: xs
           end
  end.

Fixpoint string_rev (s : string) : string :=
  match s with
  | EmptyString => EmptyString
  | String c rest => (string_rev rest ++ String c EmptyString)%string
  end.

Definition dec (z : Z) : string := NilZero.string_of_int (Z.to_int z).

Definition undec (s : string) : option Z :=
  option_map Z.of_int (NilZero.int_of_string s).

(** bcrypt reads the first 72 bytes of its input and no more. *)
Definition bcrypt_input (data : string) : string := substring 0 72 data.

Module Demo.

#[export] Instance bcrypt : Bcrypt := {|
  bcrypt_hash := fun salt data rounds =>
    ("$" ++ dec (Z.of_nat rounds) ++ "$" ++ salt ++ "$"
      ++ string_rev (bcrypt_input data))%string;
  bcrypt_compare := fun data digest =>
    match split_on "$" digest with
    | [_; _; _; h] => String.eqb h (string_rev (bcrypt_input data))
    | _ => false
    end
|}.

#[export] Instance jwt : Jwt := {|
  jwt_encode := fun secret c =>
    (Claims.sub c ++ "|" ++ Claims.email c ++ "|" ++ dec (Claims.iat c) ++ "|"
      ++ dec (Claims.exp c) ++ "|" ++ string_rev secret)%string;
  jwt_decode := fun secret token =>
    match split_on "|" token with
    | [s; m; i; x; sig] =>
        if String.eqb sig (string_rev secret) then
          match undec i, undec x with
          | Some i', Some x' =>
              Some {| Claims.sub := s; Claims.email := m;
                      Claims.iat := i'; Claims.exp := x' |}
          | _, _ => None
          end
        else None
    | _ => None
    end
|}.

Definition config : Config :=
  {| JWT_SECRET := "access-secret"; JWT_REFRESH_SECRET := "refresh-secret" |}.

(** An environment in which every collaborator call goes through. *)
Definition env (t : Z) (key random : string) : Env :=
  {| now := t; uuid := key; randomBytes := random; salt := "salt";
     fails := fun _ => false |}.

(** The same, with the mail service rejecting. *)
Definition env_mail_down (t : Z) (key random : string) : Env :=
  {| now := t; uuid := key; randomBytes := random; salt := "salt";
     fails := fun c => match c with MailSend => true | _ => false end |}.

(** The same, with the [update] of the user table rejecting. *)
Definition env_update_down (t : Z) : Env :=
  {| now := t; uuid := "k"; randomBytes := "r"; salt := "salt";
     fails := fun c => match c with UserUpdate => true | _ => false end |}.

Definition alice : User.t :=
  {| User.id := "u-alice"; User.email := "alice@x.com";
     User.password := "$10$salt$1wp"; User.role := USER;
     User.refreshToken := None |}.

Definition root : User.t :=
  {| User.id := "u-root"; User.email := "root@x.com";
     User.password := "$10$salt$toor"; User.role := SUPER_ADMIN;
     User.refreshToken := None |}.

Definition chief : User.t :=
  {| User.id := "u-chief"; User.email := "chief@x.com";
     User.password := "$10$salt$feihc"; User.role := SUPER_ADMIN;
     User.refreshToken := None |}.

Definition world : World :=
  {| users := [alice; root; chief]; passwordResets := []; outbox := [] |}.

Definition eve_admin : RegisterDto.t :=
  {| RegisterDto.email := "eve@x.com"; RegisterDto.password := "pw";
     RegisterDto.role := ADMIN |}.

Definition eve_super_admin : RegisterDto.t :=
  {| RegisterDto.email := "eve@x.com"; RegisterDto.password := "pw";
     RegisterDto.role := SUPER_ADMIN |}.

Definition alice_login : LogInDto.t :=
  {| LogInDto.email := "alice@x.com"; LogInDto.password := "pw1" |}.

(** The refresh token [login] hands to alice at 1000 ms. *)
Definition alice_refresh_token : string :=
  "u-alice|alice@x.com|1|604801|terces-hserfer".

(** The world after alice has logged in at 1000 ms. *)
Definition world_logged_in : World :=
  snd (AuthService.login config alice_login (env 1000 "k" "r") world).

(** The world after alice has asked for a password reset at 1000 ms. *)
Definition world_reset_requested : World :=
  snd (AuthService.sendPasswordResetEmail "alice@x.com" (env 1000 "pr-1" "c0ffee") world).

Definition bob_user : RegisterDto.t :=
  {| RegisterDto.email := "bob@x.com"; RegisterDto.password := "hunter2";
     RegisterDto.role := USER |}.

Definition alice_again : RegisterDto.t :=
  {| RegisterDto.email := "alice@x.com"; RegisterDto.password := "hunter2";
     RegisterDto.role := USER |}.

Definition nobody_login : LogInDto.t :=
  {| LogInDto.email := "nobody@x.com"; LogInDto.password := "pw1" |}.

Definition alice_wrong_password : LogInDto.t :=
  {| LogInDto.email := "alice@x.com"; LogInDto.password := "pw2" |}.

(** The request stored for alice at 1000 ms. *)
Definition alice_request : PasswordReset.t :=
  requested (env 1000 "pr-1" "c0ffee") alice.

(** A user whose key and email fill the first 72 bytes of her tokens, as
    the header and the subject do in a signed token. *)
Definition carol : User.t :=
  {| User.id := "3f2b8c1e-9d4a-4e7b-8a6f-1c2d3e4f5a6b";
     User.email := "carol.of.the.long.address@example.com";
     User.password := "$10$salt$3wp"; User.role := USER;
     User.refreshToken := None |}.

Definition world_carol : World :=
  {| users := [carol]; passwordResets := []; outbox := [] |}.

Definition carol_login : LogInDto.t :=
  {| LogInDto.email := "carol.of.the.long.address@example.com";
     LogInDto.password := "pw3" |}.

(** The refresh token [login] hands to carol at 1000 ms. *)
Definition carol_refresh_token : string :=
  "3f2b8c1e-9d4a-4e7b-8a6f-1c2d3e4f5a6b|carol.of.the.long.address@example.com|1|604801|terces-hserfer".

(** The world after carol has logged in at 1000 ms. *)
Definition world_carol_logged_in : World :=
  snd (AuthService.login config carol_login (env 1000 "k" "r") world_carol).

(** A refresh token signed with another secret. *)
Definition forged_refresh_token : string :=
  "u-alice|alice@x.com|1|604801|terces-rehto".

End Demo.

From Stdlib Require Import Permutation Sorted.

(* ================================================================== *)
(** ** Consistency of the tables *)

(** Primary keys and emails name one row each, and every reset request
    belongs to a stored user. *)
Definition consistent (w : World) : Prop :=
  NoDup (map User.id (users w))
  /\ NoDup (map User.email (users w))
  /\ NoDup (map PasswordReset.id (passwordResets w))
  /\ (forall r, In r (passwordResets w) ->
        exists u, In u (users w) /\ User.id u = PasswordReset.user r).

(** Two rows that agree on everything but the stored refresh-token digest. *)
Definition same_account (u u' : User.t) : Prop :=
  User.id u' = User.id u
  /\ User.email u' = User.email u
  /\ User.password u' = User.password u
  /\ User.role u' = User.role u.

(** The ways in which one service call changes the tables and the outbox. *)
Inductive Effect (w : World) : World -> Prop :=
| effect_none : Effect w w
| effect_insert_user (new : User.t) :
    existsb (has_id (User.id new)) (users w) = false ->
    find (has_email (User.email new)) (users w) = None ->
    Effect w (set_users (users w ++ [new]) w)
| effect_bind_refreshToken (userId h : string) :
    Effect w (set_users (map (bind_refreshToken userId h) (users w)) w)
| effect_insert_request (u : User.t) (r : PasswordReset.t) (ms : list Mail.t) :
    In u (users w) ->
    PasswordReset.user r = User.id u ->
    existsb (has_reset_id (PasswordReset.id r)) (passwordResets w) = false ->
    Effect w (set_outbox (outbox w ++ ms)
                (set_passwordResets (passwordResets w ++ [r]) w))
| effect_overwrite (u u' : User.t) (keep : PasswordReset.t -> bool) :
    find (has_id (User.id u')) (users w) = Some u ->
    User.email u' = User.email u ->
    Effect w (set_passwordResets (filter keep (passwordResets w))
                (set_users (map (overwrite u') (users w)) w)).

(* ================================================================== *)
(** ** Portfolios *)

(** The entity of './entities/portfolio.entity' is not part of the sources;
    the fields are the ones the service reads and writes.  The relation
    [user] is stored as the owner's primary key, [createdAt] as milliseconds
    since the epoch. *)
Module Portfolio.
Record t : Type := mk {
  id : string;
  title : string;
  description : string;
  fileUrl : string;
  user : string;
  createdAt : Z
}.
End Portfolio.

(** './dto/create-portfolio.dto' is not part of the sources; the service
    reads [title] and [description] from it. *)
Module CreatePortfolioDto.
Record t : Type := mk { title : string; description : string }.
End CreatePortfolioDto.

(** [Partial<CreatePortfolioDto>]. *)
Module PartialPortfolioDto.
Record t : Type := mk { title : option string; description : option string }.
End PartialPortfolioDto.

(** The uploaded file, as far as the service looks at it. *)
Module UploadedFile.
Record t : Type := mk { mimetype : string; size : Z; filename : string }.
End UploadedFile.

(** The two fields the constructor reads through
    [configService.get(key, default)]. *)
Record PortfolioSettings : Type := {
  allowedMimeTypes : list string;
  maxFileSize : Z
}.

(** The constructor: a value that is not configured falls back on the
    default given in the code. *)
Definition portfolioSettings (mimeTypes : option (list string)) (size : option Z)
  : PortfolioSettings :=
  {| allowedMimeTypes :=
       match mimeTypes with
       | Some l => l
       | None => ["image/jpeg"; "image/png"; "application/pdf"]
       end;
     maxFileSize :=
       match size with
       | Some n => n
       | None => 5 * 1024 * 1024
       end |}.

(** The awaited calls of the portfolio repository that may be rejected. *)
Inductive PortfolioCall : Type :=
| PortfolioFindOne | PortfolioFind | PortfolioSave | PortfolioRemove.

(** The tables of the authentication core together with the portfolio
    table. *)
Record Storage : Type := {
  world : World;
  portfolios : list Portfolio.t
}.

(** The surroundings of a portfolio call: those of a call of the core, and
    which portfolio-repository calls are rejected. *)
Record Surroundings : Type := {
  env : Env;
  rejects : PortfolioCall -> bool
}.

Inductive Outcome (A : Type) : Type :=
| Resolved (a : A)
| Rejected (x : Exception)
| RejectedByPortfolios (c : PortfolioCall).
Arguments Resolved {A} a.
Arguments Rejected {A} x.
Arguments RejectedByPortfolios {A} c.

(** An [async] method that also uses the portfolio repository. *)
Definition P (A : Type) : Type := Surroundings -> Storage -> Outcome A * Storage.

Definition resolve {A} (a : A) : P A := fun _ st => (Resolved a, st).

Definition reject {A} (x : Exception) : P A := fun _ st => (Rejected x, st).

Definition bindP {A B} (m : P A) (k : A -> P B) : P B :=
  fun s st =>
    match m s st with
    | (Resolved a, st') => k a s st'
    | (Rejected x, st') => (Rejected x, st')
    | (RejectedByPortfolios c, st') => (RejectedByPortfolios c, st')
    end.

(** A method of the core, run on the tables of the core. *)
Definition lift {A} (m : M A) : P A :=
  fun s st =>
    match m (env s) (world st) with
    | (Ok a, w') => (Resolved a, {| world := w'; portfolios := portfolios st |})
    | (Throw x, w') => (Rejected x, {| world := w'; portfolios := portfolios st |})
    end.

(** An awaited call [c] of the portfolio repository whose effect on the
    table is [f]. *)
Definition awaitP {A} (c : PortfolioCall)
  (f : list Portfolio.t -> A * list Portfolio.t) : P A :=
  fun s st =>
    if rejects s c then (RejectedByPortfolios c, st)
    else let (a, ps) := f (portfolios st) in
         (Resolved a, {| world := world st; portfolios := ps |}).

Definition askP : P Surroundings := fun s st => (Resolved s, st).

Declare Scope portfolio_scope.
Delimit Scope portfolio_scope with portfolio.
Notation "x <- m ;; k" := (bindP m (fun x => k))
  (at level 61, m at next level, right associativity) : portfolio_scope.

Definition has_portfolio_id (i : string) (p : Portfolio.t) : bool :=
  String.eqb (Portfolio.id p) i.

Definition owned_by (userId : string) (p : Portfolio.t) : bool :=
  String.eqb (Portfolio.user p) userId.

(** Overwriting the row [q] by [p] when it has the primary key of [p]. *)
Definition overwrite_portfolio (p q : Portfolio.t) : Portfolio.t :=
  if has_portfolio_id (Portfolio.id p) q then p else q.

(** [order: { createdAt: 'DESC' }]: newest first.  Rows with the same
    [createdAt] come in an order the database does not fix; they are kept in
    table order here. *)
Fixpoint insert_newest_first (p : Portfolio.t) (l : list Portfolio.t)
  : list Portfolio.t :=
  match l with
  | [] => [p]
  | q :: rest =>
      if Portfolio.createdAt q <=? Portfolio.createdAt p
      then p :: q :: rest
      else q :: insert_newest_first p rest
  end.

Definition newest_first (l : list Portfolio.t) : list Portfolio.t :=
  fold_right insert_newest_first [] l.

Module portfolioRepository.

(** [findOne({ where: { id }, relations: ['user'] })]: the first row with
    that key, joined with its owner. *)
Definition findOne (portfolioId : string) : P (option (Portfolio.t * option User.t)) :=
  fun s st =>
    awaitP PortfolioFindOne
      (fun ps =>
         (match find (has_portfolio_id portfolioId) ps with
          | Some p => Some (p, find (has_id (Portfolio.user p)) (users (world st)))
          | None => None
          end, ps)) s st.

(** [find({ where: { user: { id } }, order: { createdAt: 'DESC' } })]. *)
Definition find_by_user (userId : string) : P (list Portfolio.t) :=
  awaitP PortfolioFind
    (fun ps => (newest_first (filter (owned_by userId) ps), ps)).

(** [save(create({ title, description, fileUrl, user }))]: the row is
    inserted under the generated key, stamped with the time of insertion.  A
    key that is already taken violates the primary-key constraint. *)
Definition save_created (title description fileUrl : string) (user : User.t)
  : P Portfolio.t :=
  (s <- askP ;;
   let saved := {| Portfolio.id := uuid (env s); Portfolio.title := title;
                   Portfolio.description := description;
                   Portfolio.fileUrl := fileUrl;
                   Portfolio.user := User.id user;
                   Portfolio.createdAt := now (env s) |} in
   inserted <- awaitP PortfolioSave
                 (fun ps => if existsb (has_portfolio_id (uuid (env s))) ps
                            then (false, ps)
                            else (true, ps ++ [saved])) ;;
   if inserted : bool then resolve saved
   else fun _ st => (RejectedByPortfolios PortfolioSave, st))%portfolio.

(** [save] of a row loaded from the table: the row with its primary key is
    overwritten (and inserted when there is none). *)
Definition save (p : Portfolio.t) : P Portfolio.t :=
  awaitP PortfolioSave
    (fun ps =>
       (p, if existsb (has_portfolio_id (Portfolio.id p)) ps
           then map (overwrite_portfolio p) ps
           else ps ++ [p])).

(** [remove(portfolio)]. *)
Definition remove (p : Portfolio.t) : P unit :=
  awaitP PortfolioRemove
    (fun ps => (tt, filter (fun q => negb (has_portfolio_id (Portfolio.id p) q)) ps)).

End portfolioRepository.

(** [encodeURIComponent], on the UTF-8 bytes of the string: the letters, the
    digits and [- _ . ! ~ * ' ( )] stand for themselves, every other byte
    becomes [%] followed by its two upper-case hexadecimal digits. *)
Definition unreserved (c : ascii) : bool :=
  let n := nat_of_ascii c in
  ((65 <=? n) && (n <=? 90))%nat || ((97 <=? n) && (n <=? 122))%nat
  || ((48 <=? n) && (n <=? 57))%nat
  || existsb (Nat.eqb n) [45; 95; 46; 33; 126; 42; 39; 40; 41]%nat.

Definition hex_digit (n : nat) : ascii :=
  if (n <? 10)%nat then ascii_of_nat (48 + n) else ascii_of_nat (55 + n).

Fixpoint encodeURIComponent (s : string) : string :=
  match s with
  | EmptyString => EmptyString
  | String c rest =>
      if unreserved c then String c (encodeURIComponent rest)
      else String "%"
             (String (hex_digit (nat_of_ascii c / 16))
                (String (hex_digit (nat_of_ascii c mod 16))
                   (encodeURIComponent rest)))
  end.



Definition with_title (t : string) (p : Portfolio.t) : Portfolio.t :=
  {| Portfolio.id := Portfolio.id p; Portfolio.title := t;
     Portfolio.description := Portfolio.description p;
     Portfolio.fileUrl := Portfolio.fileUrl p; Portfolio.user := Portfolio.user p;
     Portfolio.createdAt := Portfolio.createdAt p |}.

Definition with_description (d : string) (p : Portfolio.t) : Portfolio.t :=
  {| Portfolio.id := Portfolio.id p; Portfolio.title := Portfolio.title p;
     Portfolio.description := d;
     Portfolio.fileUrl := Portfolio.fileUrl p; Portfolio.user := Portfolio.user p;
     Portfolio.createdAt := Portfolio.createdAt p |}.

Definition with_fileUrl (f : string) (p : Portfolio.t) : Portfolio.t :=
  {| Portfolio.id := Portfolio.id p; Portfolio.title := Portfolio.title p;
     Portfolio.description := Portfolio.description p;
     Portfolio.fileUrl := f; Portfolio.user := Portfolio.user p;
     Portfolio.createdAt := Portfolio.createdAt p |}.

(** [if (dto.field) portfolio.field = dto.field]: a missing or empty value
    leaves the field alone. *)
Definition assign_if_truthy (v : option string)
  (set : string -> Portfolio.t -> Portfolio.t) (p : Portfolio.t) : Portfolio.t :=
  match truthy v with
  | Some x => set x p
  | None => p
  end.

Definition InvalidFileType : Exception :=
  BadRequestException "Invalid file type. Only JPEG, PNG, and PDF are allowed.".

Definition FileTooLarge : Exception :=
  BadRequestException "File size exceeds the 5MB limit.".

Definition AccessDenied : Exception :=
  UnauthorizedException "Portfolio not found or access denied".

(** The portfolio methods of [AuthService]. *)
Module AuthServicePortfolios.
Section Service.

Variable settings : PortfolioSettings.

Definition createPortfolio (userId : string) (dto : CreatePortfolioDto.t)
  (file : option UploadedFile.t) : P Portfolio.t :=
  match file with
  | None => reject (BadRequestException "File is required")
  | Some f =>
      if negb (existsb (String.eqb (UploadedFile.mimetype f)) (allowedMimeTypes settings))
      then reject InvalidFileType
      else if maxFileSize settings <? UploadedFile.size f
      then reject FileTooLarge
      else
        (user <- lift (userRepository.findOne (has_id userId)) ;;
         match user with
         | None => reject (UnauthorizedException "User not found")
         | Some u =>
             let fileUrl :=
               ("/uploads/portfolio/" ++ encodeURIComponent (UploadedFile.filename f))%string in
             portfolioRepository.save_created
               (CreatePortfolioDto.title dto) (CreatePortfolioDto.description dto)
               fileUrl u
         end)%portfolio
  end.

Definition updatePortfolio (userId portfolioId : string)
  (dto : PartialPortfolioDto.t) (file : option UploadedFile.t) : P Portfolio.t :=
  (found <- portfolioRepository.findOne portfolioId ;;
   match found with
   | None => reject AccessDenied
   | Some (portfolio, owner) =>
       match owner with
       | None => reject (TypeError "Cannot read properties of null (reading 'id')")
       | Some o =>
           if negb (String.eqb (User.id o) userId) then reject AccessDenied
           else
             let portfolio :=
               assign_if_truthy (PartialPortfolioDto.title dto) with_title portfolio in
             let portfolio :=
               assign_if_truthy (PartialPortfolioDto.description dto)
                 with_description portfolio in
             match file with
             | None => portfolioRepository.save portfolio
             | Some f =>
                 if negb (existsb (String.eqb (UploadedFile.mimetype f))
                            (allowedMimeTypes settings))
                 then reject InvalidFileType
                 else if maxFileSize settings <? UploadedFile.size f
                 then reject FileTooLarge
                 else
                   portfolioRepository.save
                     (with_fileUrl
                        ("/uploads/portfolio/" ++ UploadedFile.filename f)%string
                        portfolio)
             end
       end
   end)%portfolio.

Definition deletePortfolio (userId portfolioId : string) : P unit :=
  (found <- portfolioRepository.findOne portfolioId ;;
   match found with
   | None => reject AccessDenied
   | Some (portfolio, owner) =>
       match owner with
       | None => reject (TypeError "Cannot read properties of null (reading 'id')")
       | Some o =>
           if negb (String.eqb (User.id o) userId) then reject AccessDenied
           else portfolioRepository.remove portfolio
       end
   end)%portfolio.

Definition getUserPortfolios (userId : string) : P (list Portfolio.t) :=
  portfolioRepository.find_by_user userId.

End Service.
End AuthServicePortfolios.

(** The row inserted by [createPortfolio]. *)
Definition created (s : Surroundings) (userId : string) (dto : CreatePortfolioDto.t)
  (f : UploadedFile.t) : Portfolio.t :=
  {| Portfolio.id := uuid (env s);
     Portfolio.title := CreatePortfolioDto.title dto;
     Portfolio.description := CreatePortfolioDto.description dto;
     Portfolio.fileUrl :=
       ("/uploads/portfolio/" ++ encodeURIComponent (UploadedFile.filename f))%string;
     Portfolio.user := userId;
     Portfolio.createdAt := now (env s) |}.

(** The row [updatePortfolio] writes over [p]. *)
Definition updated (dto : PartialPortfolioDto.t) (file : option UploadedFile.t)
  (p : Portfolio.t) : Portfolio.t :=
  let p := assign_if_truthy (PartialPortfolioDto.title dto) with_title p in
  let p := assign_if_truthy (PartialPortfolioDto.description dto) with_description p in
  match file with
  | None => p
  | Some f => with_fileUrl ("/uploads/portfolio/" ++ UploadedFile.filename f)%string p
  end.

(** [a] is not older than [b]. *)
Definition not_older (a b : Portfolio.t) : Prop :=
  Portfolio.createdAt b <= Portfolio.createdAt a.

(** Portfolio keys name one row each. *)
Definition portfolio_keys_unique (st : Storage) : Prop :=
  NoDup (map Portfolio.id (portfolios st)).

(* ================================================================== *)
(** ** Module wiring (auth.module.ts) *)

(** The options the factory of [JwtModule.registerAsync] returns:
    [{ secret, signOptions: { expiresIn } }]. *)
Module JwtModuleOptions.
Record t : Type := mk { secret : string; expiresIn : string }.
End JwtModuleOptions.

Module AuthModule.

(** [useFactory], given [configService.get]. *)
Definition useFactory (get : string -> option string) : Result JwtModuleOptions.t :=
  let secret := get "JWT_SECRET" in
  let refreshSecret := get "JWT_REFRESH_SECRET" in
  match truthy secret with
  | None => Throw (Error "JWT_SECRET environment variable is required")
  | Some secret =>
      match truthy refreshSecret with
      | None => Throw (Error "JWT_REFRESH_SECRET environment variable is required")
      | Some _ =>
          Ok {| JwtModuleOptions.secret := secret;
                JwtModuleOptions.expiresIn := "15m" |}
      end
  end.

End AuthModule.

(** A configuration read from a list of [KEY=value] settings: the first
    setting of a key counts. *)
Fixpoint lookup (settings : list (string * string)) (key : string) : option string :=
  match settings with
  | [] => None
  | (k, v) :: rest => if String.eqb k key then Some v else lookup rest key
  end.

(** The settings of [.env.example]. *)
Definition env_example : list (string * string) :=
  [ ("NODE_ENV", "production"); ("PORT", "3000");
    ("FRONTEND_URL", "https://yourdomain.com");
    ("DB_HOST", "your-production-db-host"); ("DB_PORT", "5432");
    ("DB_USERNAME", "your_production_db_user");
    ("DB_PASSWORD", "your_secure_db_password");
    ("DB_NAME", "starkhive_production");
    ("JWT_SECRET", "generate_a_strong_secret_using_openssl_rand_base64_32");
    ("JWT_EXPIRES_IN", "1h");
    ("SMTP_HOST", "smtp.sendgrid.net"); ("SMTP_PORT", "587");
    ("SMTP_SECURE", "false"); ("SMTP_USER", "apikey");
    ("SMTP_PASSWORD", "your_sendgrid_api_key_here");
    ("SMTP_FROM", "no-reply@yourdomain.com");
    ("TRUST_PROXY", "true");
    ("RATE_LIMIT_WINDOW_MS", "900000"); ("RATE_LIMIT_MAX", "100");
    ("ENABLE_CSP", "true"); ("ENABLE_HSTS", "true"); ("HSTS_MAX_AGE", "31536000");
    ("LOG_LEVEL", "info"); ("ENABLE_REQUEST_LOGGING", "true");
    ("ENABLE_QUERY_LOGGING", "false") ].

(* ================================================================== *)
(** ** Scheduled backups (backup.task.ts) *)

Module BackupTask.

(** What a [catch] receives: an [Error] thrown by the task itself, or the
    rejection of a call of the backup service. *)
Inductive Failure : Type :=
| JsError (message : string)
| ServiceRejection (reason : string).

(** The result of [backupService.getBackupHealth()], as far as the task
    looks at it. *)
Record Health : Type := { status : string }.

Inductive Level : Type := LOG | WARN | ERROR.

(** The second argument of a logger call. *)
Inductive Detail : Type :=
| Caught (x : Failure)
| Report (h : Health).

Record Entry : Type := {
  level : Level;
  message : string;
  detail : option Detail
}.

Section Task.

(** The enum of '../dto/backup-config.dto' is not part of the sources; the
    task uses its member [FULL]. *)
Variable BackupType : Type.
Variable FULL : BackupType.

(** The argument of [backupService.createBackup]. *)
Record BackupConfig : Type := {
  type : BackupType;
  database : string;
  retentionDays : Z;
  compression : bool;
  crossRegion : bool
}.

(** What one run of a task finds around it: the configuration, and how the
    calls of the backup service end ([None]: the call resolves). *)
Record Around : Type := {
  get : string -> option string;
  createBackup_ends : option Failure;
  cleanupOldBackups_ends : option Failure;
  getBackupHealth_ends : Failure + Health
}.

(** What the tasks leave behind: the log, the backups asked of the service
    and the number of clean-ups asked of it. *)
Record Trace : Type := {
  logs : list Entry;
  requested : list BackupConfig;
  cleanups : nat
}.

Definition T (A : Type) : Type := Around -> Trace -> (Failure + A) * Trace.

Definition retT {A} (a : A) : T A := fun _ t => (inr a, t).

Definition throwT {A} (x : Failure) : T A := fun _ t => (inl x, t).

Definition bindT {A B} (m : T A) (k : A -> T B) : T B :=
  fun a t =>
    match m a t with
    | (inr x, t') => k x a t'
    | (inl x, t') => (inl x, t')
    end.

Definition try_catchT {A} (m : T A) (h : Failure -> T A) : T A :=
  fun a t =>
    match m a t with
    | (inr x, t') => (inr x, t')
    | (inl x, t') => h x a t'
    end.

Definition write (l : Level) (m : string) (d : option Detail) : T unit :=
  fun _ t =>
    (inr tt,
     {| logs := logs t ++ [{| level := l; message := m; detail := d |}];
        requested := requested t; cleanups := cleanups t |}).

(** [configService.get<string>(key)]. *)
Definition configService_get (key : string) : T (option string) :=
  fun a t => (inr (get a key), t).

(** [backupService.createBackup(config)]: the request reaches the service,
    which resolves or rejects. *)
Definition createBackup (c : BackupConfig) : T unit :=
  fun a t =>
    (match createBackup_ends a with None => inr tt | Some x => inl x end,
     {| logs := logs t; requested := requested t ++ [c]; cleanups := cleanups t |}).

Definition cleanupOldBackups : T unit :=
  fun a t =>
    (match cleanupOldBackups_ends a with None => inr tt | Some x => inl x end,
     {| logs := logs t; requested := requested t; cleanups := S (cleanups t) |}).

Definition getBackupHealth : T Health :=
  fun a t => (getBackupHealth_ends a, t).

Definition executeBackup (retentionDays : Z) (backupType : string) : T unit :=
  bindT (write LOG ("Starting " ++ backupType ++ " backup...")%string None) (fun _ =>
  try_catchT
    (bindT (configService_get "DB_NAME") (fun database =>
     match truthy database with
     | None => throwT (JsError "DB_NAME environment variable is not set")
     | Some database =>
         bindT (configService_get "AWS_ACCESS_KEY_ID") (fun awsAccessKey =>
         bindT (configService_get "AWS_SECRET_ACCESS_KEY") (fun awsSecretKey =>
         bindT (configService_get "AWS_BACKUP_BUCKET") (fun awsBucket =>
         bindT (match truthy awsAccessKey, truthy awsSecretKey, truthy awsBucket with
                | Some _, Some _, Some _ => retT tt
                | _, _, _ =>
                    write WARN
                      "AWS credentials not configured, cross-region backup may fail"
                      None
                end) (fun _ =>
         bindT (createBackup
                  {| type := FULL; database := database;
                     retentionDays := retentionDays;
                     compression := true; crossRegion := true |}) (fun _ =>
         write LOG (backupType ++ " backup initiated successfully")%string None)))))
     end))
    (fun error =>
       write ERROR (backupType ++ " backup failed:")%string (Some (Caught error)))).

Definition handleDailyBackup : T unit := executeBackup 7 "Daily".

Definition handleWeeklyBackup : T unit := executeBackup 30 "Weekly".

Definition handleBackupCleanup : T unit :=
  bindT (write LOG "Starting backup cleanup..." None) (fun _ =>
  try_catchT
    (bindT cleanupOldBackups (fun _ => write LOG "Backup cleanup completed" None))
    (fun error => write ERROR "Backup cleanup failed:" (Some (Caught error)))).

Definition handleHealthCheck : T unit :=
  try_catchT
    (bindT getBackupHealth (fun health =>
     if String.eqb (status health) "warning"
     then write WARN "Backup system health warning:" (Some (Report health))
     else retT tt))
    (fun error => write ERROR "Backup health check failed:" (Some (Caught error))).

(** The backup asked of the service by a run for the database [db]. *)
Definition full_backup (db : string) (days : Z) : BackupConfig :=
  {| type := FULL; database := db; retentionDays := days;
     compression := true; crossRegion := true |}.

(** All three AWS settings are present and non-empty. *)
Definition aws_configured (a : Around) : bool :=
  match truthy (get a "AWS_ACCESS_KEY_ID"), truthy (get a "AWS_SECRET_ACCESS_KEY"),
        truthy (get a "AWS_BACKUP_BUCKET") with
  | Some _, Some _, Some _ => true
  | _, _, _ => false
  end.

End Task.
End BackupTask.

(* ================================================================== *)
(** ** Further concrete inputs *)

Module Scenario.

(** A day of calls on the demo tables. *)
Definition day : list (Env * Op) :=
  [ (Demo.env 1000 "u-bob" "r", Register Demo.bob_user);
    (Demo.env 2000 "k" "r", Login Demo.alice_login);
    (Demo.env 3000 "pr-1" "c0ffee", SendPasswordResetEmail "alice@x.com");
    (Demo.env 4000 "k" "r", ResetPassword "c0ffee" "pw2");
    (Demo.env 5000 "k" "r", PromoteToAdmin "u-root" "u-alice");
    (Demo.env_mail_down 6000 "pr-2" "decaf", SendPasswordResetEmail "root@x.com") ].

(** The demo tables after alice has asked for a password reset twice. *)
Definition world_two_requests : World :=
  snd (AuthService.sendPasswordResetEmail "alice@x.com" (Demo.env 2000 "pr-2" "decaf")
         Demo.world_reset_requested).

Definition alice_second_request : PasswordReset.t :=
  requested (Demo.env 2000 "pr-2" "decaf") Demo.alice.

Definition settings : PortfolioSettings := portfolioSettings None None.

Definition around (t : Z) (key : string) : Surroundings :=
  {| env := Demo.env t key "r"; rejects := fun _ => false |}.

Definition storage : Storage := {| world := Demo.world; portfolios := [] |}.

Definition cv : CreatePortfolioDto.t :=
  {| CreatePortfolioDto.title := "CV"; CreatePortfolioDto.description := "My CV" |}.

(** A PDF of exactly five megabytes. *)
Definition cv_file : UploadedFile.t :=
  {| UploadedFile.mimetype := "application/pdf"; UploadedFile.size := 5242880;
     UploadedFile.filename := "my cv/2024.pdf" |}.

(** The same, one byte larger. *)
Definition cv_file_too_large : UploadedFile.t :=
  {| UploadedFile.mimetype := "application/pdf"; UploadedFile.size := 5242881;
     UploadedFile.filename := "my cv/2024.pdf" |}.


Definition page : UploadedFile.t :=
  {| UploadedFile.mimetype := "text/html"; UploadedFile.size := 5242881;
     UploadedFile.filename := "index.html" |}.

(** The portfolio alice creates at 1000 ms. *)
Definition alice_cv : Portfolio.t := created (around 1000 "p-1") "u-alice" cv cv_file.

Definition storage_with_cv : Storage :=
  {| world := Demo.world; portfolios := [alice_cv] |}.

Definition logo : CreatePortfolioDto.t :=
  {| CreatePortfolioDto.title := "Logo"; CreatePortfolioDto.description := "" |}.

Definition logo_file : UploadedFile.t :=
  {| UploadedFile.mimetype := "image/png"; UploadedFile.size := 2048;
     UploadedFile.filename := "logo.png" |}.

(** The portfolio alice creates at 2000 ms. *)
Definition alice_logo : Portfolio.t := created (around 2000 "p-2") "u-alice" logo logo_file.

Definition storage_with_two : Storage :=
  {| world := Demo.world; portfolios := [alice_cv; alice_logo] |}.

Definition storage_with_logo : Storage :=
  {| world := Demo.world; portfolios := [alice_logo] |}.

Definition storage_renamed : Storage :=
  {| world := Demo.world; portfolios := [with_title "Curriculum" alice_cv] |}.

(** A request that renames the portfolio and sends an empty description. *)
Definition rename : PartialPortfolioDto.t :=
  {| PartialPortfolioDto.title := Some "Curriculum";
     PartialPortfolioDto.description := Some "" |}.

(** The surroundings of a backup run configured by [.env.example], which
    names the database and no AWS setting. *)
Definition backup_around (created : option BackupTask.Failure)
  (health : BackupTask.Failure + BackupTask.Health) : BackupTask.Around :=
  {| BackupTask.get := lookup env_example;
     BackupTask.createBackup_ends := created;
     BackupTask.cleanupOldBackups_ends := None;
     BackupTask.getBackupHealth_ends := health |}.

(** The same without any setting. *)
Definition backup_around_unconfigured : BackupTask.Around :=
  {| BackupTask.get := fun _ => None;
     BackupTask.createBackup_ends := None;
     BackupTask.cleanupOldBackups_ends := None;
     BackupTask.getBackupHealth_ends := inl (BackupTask.ServiceRejection "down") |}.

Definition no_trace : BackupTask.Trace unit :=
  {| BackupTask.logs := []; BackupTask.requested := []; BackupTask.cleanups := 0 |}.

End Scenario.

(* ================================================================== *)
(** * Properties *)

(** ** Tables *)

Lemma has_id_eq (i : string) (u : User.t) : has_id i u = true <-> User.id u = i.
Proof. unfold has_id. apply String.eqb_eq. Qed.

Lemma find_has_id (i : string) (l : list User.t) (u : User.t) :
  find (has_id i) l = Some u -> User.id u = i /\ In u l.
Proof.
  intros Hf. apply find_some in Hf. destruct Hf as [Hin Hid].
  split; [now apply has_id_eq | exact Hin].
Qed.

Lemma find_existsb {A} (p : A -> bool) (l : list A) (x : A) :
  find p l = Some x -> existsb p l = true.
Proof.
  intros Hf. apply find_some in Hf. apply existsb_exists.
  exists x. exact Hf.
Qed.

Lemma find_app_none {A} (p : A -> bool) (l l' : list A) :
  find p l = None -> find p (l ++ l') = find p l'.
Proof.
  induction l as [| a l IH]; simpl; [reflexivity |].
  destruct (p a); [discriminate | exact IH].
Qed.

Lemma find_app_found {A} (p : A -> bool) (l l' : list A) (x : A) :
  find p l = Some x -> find p (l ++ l') = Some x.
Proof.
  induction l as [| a l IH]; simpl; [discriminate |].
  destruct (p a); [auto | exact IH].
Qed.

(** Rewriting every row selected by [p] keeps the first selected row first,
    as long as the rewriting does not change which rows [p] selects. *)
Lemma find_map_stable {A} (p : A -> bool) (f : A -> A) (l : list A) :
  (forall v, p (f v) = p v) ->
  find p (map f l) = option_map f (find p l).
Proof.
  intros Hp. induction l as [| a l IH]; simpl; [reflexivity |].
  rewrite Hp. destruct (p a); [reflexivity | exact IH].
Qed.

Lemma find_overwrite (p : User.t -> bool) (u t : User.t) (l : list User.t) :
  find p l = Some t ->
  User.id t = User.id u ->
  p u = true ->
  find p (map (overwrite u) l) = Some u.
Proof.
  intros Hf Hid Hu. induction l as [| a l IH]; simpl in *; [discriminate |].
  destruct (p a) eqn:Ea.
  - injection Hf as ->.
    assert (overwrite u t = u) as ->.
    { unfold overwrite. now rewrite (proj2 (has_id_eq (User.id u) t) Hid). }
    now rewrite Hu.
  - destruct (has_id (User.id u) a) eqn:Eid.
    + assert (overwrite u a = u) as -> by (unfold overwrite; now rewrite Eid).
      now rewrite Hu.
    + assert (overwrite u a = a) as -> by (unfold overwrite; now rewrite Eid).
      rewrite Ea. now apply IH.
Qed.

Lemma has_id_after_overwrite (x v : User.t) (j : string) :
  has_id j (overwrite x v) = has_id j v.
Proof.
  unfold overwrite. destruct (has_id (User.id x) v) eqn:E; [| reflexivity].
  apply has_id_eq in E. unfold has_id. now rewrite E.
Qed.

Lemma overwrite_Forall2 (u : User.t) (l : list User.t) (R : User.t -> User.t -> Prop) :
  (forall v, In v l -> R v (overwrite u v)) ->
  Forall2 R l (map (overwrite u) l).
Proof.
  induction l as [| a l IH]; intros HR; simpl; constructor.
  - apply HR. now left.
  - apply IH. intros v Hv. apply HR. now right.
Qed.

Lemma role_le_refl (r : UserRole) : role_le r r.
Proof. unfold role_le. lia. Qed.

Lemma UserRole_eqb_eq (a b : UserRole) : UserRole_eqb a b = true <-> a = b.
Proof. destruct a, b; simpl; split; congruence. Qed.

Lemma UserRole_eqb_neq (a b : UserRole) : UserRole_eqb a b = false <-> a <> b.
Proof. destruct a, b; simpl; split; congruence. Qed.

(** ** Promotion *)

(** What [promoteToAdmin] computes, case by case on the two look-ups. *)
Lemma promoteToAdmin_unfold (e : Env) (w : World) (rid tid : string) :
  AuthService.promoteToAdmin rid tid e w =
  if fails e UserFindOne then (Throw (QueryFailedError UserFindOne), w) else
  match find (has_id rid) (users w) with
  | None => (Throw Unauthorized, w)
  | Some r =>
      if UserRole_eqb (User.role r) SUPER_ADMIN then
        match find (has_id tid) (users w) with
        | None => (Throw TargetNotFound, w)
        | Some t =>
            if fails e UserSave then (Throw (QueryFailedError UserSave), w)
            else (Ok (with_role ADMIN t),
                  set_users (map (overwrite (with_role ADMIN t)) (users w)) w)
        end
      else (Throw Unauthorized, w)
  end.
Proof.
  unfold AuthService.promoteToAdmin, bind, userRepository.findOne,
    userRepository.save, await, throw, ret.
  destruct (fails e UserFindOne) eqn:Hf; [reflexivity |].
  destruct (find (has_id rid) (users w)) as [r |]; [| reflexivity].
  destruct (UserRole_eqb (User.role r) SUPER_ADMIN); simpl; [| reflexivity].
  rewrite Hf.
  destruct (find (has_id tid) (users w)) as [t |] eqn:Et; [| reflexivity].
  destruct (fails e UserSave); [reflexivity |].
  destruct (find_has_id _ _ Et) as [Hid _].
  assert (existsb (has_id (User.id t)) (users w) = true) as ->.
  { rewrite Hid. eapply find_existsb; eauto. }
  reflexivity.
Qed.

(** C9. [promoteToAdmin] fails with [Unauthorized] when the requester is
    absent or is not a [SUPER_ADMIN] (a [USER] requester in particular);
    fails with [TargetNotFound], a different error, when the requester is a
    [SUPER_ADMIN] and the target does not exist; and otherwise succeeds,
    after which the persisted target has role [ADMIN]. *)
Theorem promoteToAdmin_outcomes (e : Env) (w : World) (rid tid : string) :
  reliable e ->
  (find (has_id rid) (users w) = None ->
     AuthService.promoteToAdmin rid tid e w = (Throw Unauthorized, w))
  /\ (forall r, find (has_id rid) (users w) = Some r ->
        User.role r <> SUPER_ADMIN ->
        AuthService.promoteToAdmin rid tid e w = (Throw Unauthorized, w))
  /\ (forall r, find (has_id rid) (users w) = Some r ->
        User.role r = SUPER_ADMIN ->
        find (has_id tid) (users w) = None ->
        AuthService.promoteToAdmin rid tid e w = (Throw TargetNotFound, w))
  /\ TargetNotFound <> Unauthorized
  /\ (forall r t, find (has_id rid) (users w) = Some r ->
        User.role r = SUPER_ADMIN ->
        find (has_id tid) (users w) = Some t ->
        exists w',
          AuthService.promoteToAdmin rid tid e w = (Ok (with_role ADMIN t), w')
          /\ find (has_id tid) (users w') = Some (with_role ADMIN t)
          /\ User.role (with_role ADMIN t) = ADMIN).
Proof.
  intros He.
  rewrite promoteToAdmin_unfold.
  rewrite (He UserFindOne), (He UserSave).
  split; [| split; [| split; [| split]]].
  - intros ->. reflexivity.
  - intros r -> Hr. apply UserRole_eqb_neq in Hr. now rewrite Hr.
  - intros r -> Hr ->. apply UserRole_eqb_eq in Hr. now rewrite Hr.
  - discriminate.
  - intros r t -> Hr Ht. rewrite Ht. apply UserRole_eqb_eq in Hr. rewrite Hr.
    eexists. split; [reflexivity |]. split; [| reflexivity].
    simpl. destruct (find_has_id _ _ Ht) as [Hid _].
    apply find_overwrite with (t := t); auto.
    now apply has_id_eq.
Qed.

(** C2, as the code has it.  A successful [promoteToAdmin] finds the target
    row [t0], stores it with its role field set to [ADMIN] and every other
    field as it was, and returns that stored row: the row found under the
    target's key afterwards is the returned one, and so is every row of the
    table that carries the target's key.  Row by row, primary keys are
    kept, every row other than the target's is untouched, and a row whose
    role was [USER] or [ADMIN] never moves downward; a requester different
    from the target is found again unchanged.  A failed call changes
    nothing. *)
Theorem promoteToAdmin_role_changes (e : Env) (w : World) (rid tid : string) :
  match AuthService.promoteToAdmin rid tid e w with
  | (Ok t, w') =>
      User.id t = tid /\ User.role t = ADMIN
      /\ (exists t0,
            find (has_id tid) (users w) = Some t0
            /\ t = {| User.id := User.id t0; User.email := User.email t0;
                      User.password := User.password t0; User.role := ADMIN;
                      User.refreshToken := User.refreshToken t0 |})
      /\ find (has_id tid) (users w') = Some t
      /\ Forall2 (fun u u' => User.id u = tid -> u' = t) (users w) (users w')
      /\ Forall2 (promotion_step tid) (users w) (users w')
      /\ (rid <> tid ->
          find (has_id rid) (users w') = find (has_id rid) (users w))
      /\ passwordResets w' = passwordResets w /\ outbox w' = outbox w
  | (Throw _, w') => w' = w
  end.
Proof.
  rewrite promoteToAdmin_unfold.
  destruct (fails e UserFindOne); [reflexivity |].
  destruct (find (has_id rid) (users w)) as [r |] eqn:Er; [| reflexivity].
  destruct (UserRole_eqb (User.role r) SUPER_ADMIN); [| reflexivity].
  destruct (find (has_id tid) (users w)) as [t |] eqn:Et; [| reflexivity].
  destruct (fails e UserSave); [reflexivity |].
  destruct (find_has_id _ _ Et) as [Hid _].
  split; [exact Hid |]. split; [reflexivity |].
  split; [exists t; split; reflexivity |]. simpl.
  split.
  { rewrite find_map_stable by (intros v; apply has_id_after_overwrite).
    rewrite Et. simpl. f_equal. unfold overwrite. simpl.
    now rewrite (proj2 (has_id_eq (User.id t) t) eq_refl). }
  split.
  { apply overwrite_Forall2. intros v _ Hv. unfold overwrite. simpl.
    rewrite Hid. now rewrite (proj2 (has_id_eq tid v) Hv). }
  split; [| split; [| split; reflexivity]].
  - apply overwrite_Forall2. intros v _. unfold overwrite, promotion_step. simpl.
    rewrite Hid. destruct (has_id tid v) eqn:Ev.
    + apply has_id_eq in Ev. simpl. repeat split.
      * congruence.
      * intros Hne. contradiction.
      * intros Hrole. unfold role_le. destruct (User.role v); simpl; try lia.
        contradiction.
    + repeat split. intros _. apply role_le_refl.
  - intros Hne. rewrite find_map_stable.
    + rewrite Er. simpl. f_equal. unfold overwrite. simpl. rewrite Hid.
      destruct (has_id tid r) eqn:Ev; [| reflexivity].
      apply has_id_eq in Ev. destruct (find_has_id _ _ Er) as [Hr _]. congruence.
    + intros v. unfold overwrite. simpl. rewrite Hid.
      destruct (has_id tid v) eqn:Ev; [| reflexivity].
      apply has_id_eq in Ev. unfold has_id. simpl. rewrite Hid, Ev. reflexivity.
Qed.

(** ** Roles along sequences of calls *)

Ltac unfold_service :=
  unfold AuthService.register, AuthService.login, AuthService.validateUser,
    AuthService.refreshTokens, AuthService.getTokens,
    AuthService.updateRefreshToken, AuthService.sendPasswordResetEmail,
    AuthService.resetPassword,
    jwtService.signAsync, jwtService.verifyAsync, bcrypt.hash, bcrypt.compare,
    userRepository.findOne, userRepository.save, userRepository.save_created,
    userRepository.update_refreshToken,
    passwordResetRepository.findOne, passwordResetRepository.save_created,
    passwordResetRepository.delete, mailService.sendEmail,
    try_catch, bind, await, ask, throw, ret.

Lemma register_unfold `{Bcrypt} (d : RegisterDto.t) (e : Env) (w : World) :
  AuthService.register d e w =
  if fails e UserFindOne then (Throw (QueryFailedError UserFindOne), w) else
  match find (has_email (RegisterDto.email d)) (users w) with
  | Some _ => (Throw EmailAlreadyExists, w)
  | None =>
      if fails e UserSave then (Throw (QueryFailedError UserSave), w)
      else if existsb (has_id (uuid e)) (users w)
      then (Throw (QueryFailedError UserSave), w)
      else (Ok (SafeUser.of_user (registered e d)),
            set_users (users w ++ [registered e d]) w)
  end.
Proof.
  unfold_service.
  destruct (fails e UserFindOne); [reflexivity |].
  destruct (find _ (users w)); [reflexivity |]. simpl.
  destruct (fails e UserSave); [reflexivity |].
  destruct (existsb _ (users w)); reflexivity.
Qed.

Lemma login_unfold `{Bcrypt} `{Jwt} (config : Config)
  (d : LogInDto.t) (e : Env) (w : World) :
  AuthService.login config d e w =
  if fails e UserFindOne then (Throw (QueryFailedError UserFindOne), w) else
  match find (has_email (LogInDto.email d)) (users w) with
  | None => (Throw InvalidCredentials, w)
  | Some u =>
      if bcrypt_compare (LogInDto.password d) (User.password u) then
        if fails e UserUpdate then (Throw (QueryFailedError UserUpdate), w)
        else (Ok (issued config e (User.id u) (User.email u)),
              rotated e (User.id u) (issued config e (User.id u) (User.email u)) w)
      else (Throw InvalidCredentials, w)
  end.
Proof.
  unfold_service.
  destruct (fails e UserFindOne); [reflexivity |].
  destruct (find _ (users w)) as [u |]; [| reflexivity]. simpl.
  destruct (bcrypt_compare _ _); [| reflexivity]. simpl.
  destruct (fails e UserUpdate); reflexivity.
Qed.

Lemma refreshTokens_unfold `{Bcrypt} `{Jwt} (config : Config)
  (refreshToken : string) (e : Env) (w : World) :
  AuthService.refreshTokens config refreshToken e w =
  match jwt_decode (JWT_REFRESH_SECRET config) refreshToken with
  | None => (Throw InvalidRefreshToken, w)
  | Some payload =>
      if Claims.exp payload <=? now e / 1000 then (Throw InvalidRefreshToken, w)
      else if fails e UserFindOne then (Throw InvalidRefreshToken, w)
      else
        match find (has_id (Claims.sub payload)) (users w) with
        | None => (Throw InvalidRefreshToken, w)
        | Some u =>
            match truthy (User.refreshToken u) with
            | None => (Throw InvalidRefreshToken, w)
            | Some stored =>
                if bcrypt_compare refreshToken stored then
                  if fails e UserUpdate then (Throw InvalidRefreshToken, w)
                  else (Ok (issued config e (User.id u) (User.email u)),
                        rotated e (User.id u)
                          (issued config e (User.id u) (User.email u)) w)
                else (Throw InvalidRefreshToken, w)
            end
        end
  end.
Proof.
  unfold_service.
  destruct (jwt_decode _ refreshToken) as [payload |]; [| reflexivity].
  destruct (Claims.exp payload <=? now e / 1000); [reflexivity |]. simpl.
  destruct (fails e UserFindOne); [reflexivity |].
  destruct (find _ (users w)) as [u |]; [| reflexivity]. simpl.
  destruct (truthy (User.refreshToken u)); [| reflexivity]. simpl.
  destruct (bcrypt_compare _ _); [| reflexivity]. simpl.
  destruct (fails e UserUpdate); reflexivity.
Qed.

Lemma sendPasswordResetEmail_unfold (email : string) (e : Env) (w : World) :
  AuthService.sendPasswordResetEmail email e w =
  if fails e UserFindOne then (Throw (QueryFailedError UserFindOne), w) else
  match find (has_email email) (users w) with
  | None => (Ok tt, w)
  | Some u =>
      if fails e ResetSave then (Throw (QueryFailedError ResetSave), w)
      else if existsb (has_reset_id (uuid e)) (passwordResets w)
      then (Throw (QueryFailedError ResetSave), w)
      else
        let w1 := set_passwordResets (passwordResets w ++ [requested e u]) w in
        if fails e MailSend then (Throw DeliveryError, w1)
        else (Ok tt, set_outbox (outbox w ++ [reset_mail e u]) w1)
  end.
Proof.
  unfold_service.
  destruct (fails e UserFindOne); [reflexivity |].
  destruct (find _ (users w)) as [u |]; [| reflexivity]. simpl.
  destruct (fails e ResetSave); [reflexivity |].
  destruct (existsb _ (passwordResets w)); [reflexivity |]. simpl.
  destruct (fails e MailSend); reflexivity.
Qed.

Lemma resetPassword_unfold `{Bcrypt} (token newPassword : string) (e : Env) (w : World) :
  AuthService.resetPassword token newPassword e w =
  if fails e ResetFindOne then (Throw (QueryFailedError ResetFindOne), w) else
  match find (has_token token) (passwordResets w) with
  | None => (Throw InvalidOrExpiredResetToken, w)
  | Some r =>
      if PasswordReset.expiresAt r <? now e
      then (Throw InvalidOrExpiredResetToken, w)
      else
        match find (has_id (PasswordReset.user r)) (users w) with
        | None =>
            (Throw (TypeError "Cannot set properties of null (setting 'password')"), w)
        | Some u =>
            if fails e UserSave then (Throw (QueryFailedError UserSave), w)
            else
              let u' := with_password (bcrypt_hash (salt e) newPassword 10) u in
              let w1 := set_users (map (overwrite u') (users w)) w in
              if fails e ResetDelete then (Throw (QueryFailedError ResetDelete), w1)
              else (Ok tt,
                    set_passwordResets
                      (filter (fun x => negb (has_reset_id (PasswordReset.id r) x))
                              (passwordResets w)) w1)
        end
  end.
Proof.
  unfold_service.
  destruct (fails e ResetFindOne); [reflexivity |].
  destruct (find _ (passwordResets w)) as [r |]; [| reflexivity]. simpl.
  destruct (PasswordReset.expiresAt r <? now e); [reflexivity |]. simpl.
  destruct (find _ (users w)) as [u |] eqn:Eu; [| reflexivity]. simpl.
  destruct (fails e UserSave); [reflexivity |].
  destruct (find_has_id _ _ Eu) as [Hid _].
  assert (existsb (has_id (User.id u)) (users w) = true) as ->.
  { rewrite Hid. eapply find_existsb; eauto. }
  simpl. destruct (fails e ResetDelete); reflexivity.
Qed.

Lemma role_kept_same (w : World) (u : User.t) : In u (users w) -> role_kept w u.
Proof. intros Hin. exists u. auto. Qed.

Lemma role_kept_rotated `{Bcrypt} (e : Env) (i : string) (t : Tokens.t)
  (w : World) (u' : User.t) :
  In u' (users (rotated e i t w)) -> role_kept w u'.
Proof.
  simpl. intros Hin. apply in_map_iff in Hin. destruct Hin as [u [<- Hin]].
  exists u. split; [exact Hin |]. unfold bind_refreshToken.
  destruct (has_id i u); auto.
Qed.

Lemma in_overwrite (x : User.t) (l : list User.t) (u' : User.t) :
  In u' (map (overwrite x) l) -> In u' l \/ u' = x.
Proof.
  intros Hin. apply in_map_iff in Hin. destruct Hin as [u [<- Hin]].
  unfold overwrite. destruct (has_id (User.id x) u); auto.
Qed.

Ltac kept := intros Hin; left; now apply role_kept_same.

(** Roles change only through [promoteToAdmin]; rows appear only through
    [register], with the role the request asks for. *)
Lemma run_roles `{Bcrypt} `{Jwt} (config : Config)
  (o : Op) (e : Env) (w : World) (u' : User.t) :
  In u' (users (run config o e w)) ->
  role_kept w u'
  \/ (User.role u' = ADMIN /\ promoted_by_super_admin o w (User.id u'))
  \/ (exists d, o = Register d /\ User.role u' = RegisterDto.role d
                /\ User.id u' = uuid e).
Proof.
  destruct o as [d | d | t | m | t p | rid tid]; simpl.
  - rewrite register_unfold.
    destruct (fails e UserFindOne); [kept |].
    destruct (find _ (users w)); [kept |].
    destruct (fails e UserSave); [kept |].
    destruct (existsb _ (users w)); [kept |].
    simpl. intros Hin. apply in_app_or in Hin. destruct Hin as [Hin | [<- | []]].
    + left. now apply role_kept_same.
    + right. right. exists d. auto.
  - rewrite login_unfold.
    destruct (fails e UserFindOne); [kept |].
    destruct (find _ (users w)) as [u |]; [| kept].
    destruct (bcrypt_compare _ _); [| kept].
    destruct (fails e UserUpdate); [kept |].
    intros Hin. left. eapply role_kept_rotated; eauto.
  - rewrite refreshTokens_unfold.
    destruct (jwt_decode _ t) as [c |]; [| kept].
    destruct (Claims.exp c <=? now e / 1000); [kept |].
    destruct (fails e UserFindOne); [kept |].
    destruct (find _ (users w)) as [u |]; [| kept].
    destruct (truthy _); [| kept].
    destruct (bcrypt_compare _ _); [| kept].
    destruct (fails e UserUpdate); [kept |].
    intros Hin. left. eapply role_kept_rotated; eauto.
  - rewrite sendPasswordResetEmail_unfold.
    destruct (fails e UserFindOne); [kept |].
    destruct (find _ (users w)) as [u |]; [| kept].
    destruct (fails e ResetSave); [kept |].
    destruct (existsb _ (passwordResets w)); [kept |].
    simpl. destruct (fails e MailSend); kept.
  - rewrite resetPassword_unfold.
    destruct (fails e ResetFindOne); [kept |].
    destruct (find _ (passwordResets w)) as [r |]; [| kept].
    destruct (PasswordReset.expiresAt r <? now e); [kept |].
    destruct (find _ (users w)) as [u |] eqn:Eu; [| kept].
    destruct (fails e UserSave); [kept |].
    assert (forall x, In x (map (overwrite
              (with_password (bcrypt_hash (salt e) p 10) u)) (users w)) ->
            role_kept w x) as Hk.
    { intros x Hin. apply in_overwrite in Hin. destruct Hin as [Hin | ->].
      - now apply role_kept_same.
      - destruct (find_has_id _ _ Eu) as [_ Hu]. exists u. auto. }
    simpl. destruct (fails e ResetDelete); simpl; intros Hin; left; now apply Hk.
  - rewrite promoteToAdmin_unfold.
    destruct (fails e UserFindOne); [kept |].
    destruct (find (has_id rid) (users w)) as [r |] eqn:Er; [| kept].
    destruct (UserRole_eqb (User.role r) SUPER_ADMIN) eqn:Hr; [| kept].
    destruct (find (has_id tid) (users w)) as [t |] eqn:Et; [| kept].
    destruct (fails e UserSave); [kept |].
    simpl. intros Hin. apply in_overwrite in Hin. destruct Hin as [Hin | ->].
    + left. now apply role_kept_same.
    + right. left. split; [reflexivity |]. simpl.
      destruct (find_has_id _ _ Et) as [Hid _]. split; [auto |].
      exists r. split; [reflexivity |]. now apply UserRole_eqb_eq.
Qed.

Lemma has_id_after_bind_refreshToken (i h j : string) (v : User.t) :
  has_id j (bind_refreshToken i h v) = has_id j v.
Proof. unfold bind_refreshToken. destruct (has_id i v); reflexivity. Qed.

Lemma role_after_bind_refreshToken (i h : string) (v : User.t) :
  User.role (bind_refreshToken i h v) = User.role v.
Proof. unfold bind_refreshToken. destruct (has_id i v); reflexivity. Qed.

(** Whoever is found under a key before a call is found under it after the
    call, with the same role unless the call promoted that very key. *)
Lemma run_keeps_roles `{Bcrypt} `{Jwt} (config : Config)
  (o : Op) (e : Env) (w : World) (i : string) (u : User.t) :
  find (has_id i) (users w) = Some u ->
  exists u',
    find (has_id i) (users (run config o e w)) = Some u'
    /\ (User.role u' = User.role u
        \/ (User.role u' = ADMIN /\ promoted_by_super_admin o w i)).
Proof.
  intros Hu.
  assert (Hsame : exists u', find (has_id i) (users w) = Some u'
                             /\ (User.role u' = User.role u
                                 \/ (User.role u' = ADMIN
                                     /\ promoted_by_super_admin o w i)))
    by (exists u; auto).
  assert (Hrot : forall j t,
            exists u', find (has_id i) (users (rotated e j t w)) = Some u'
                       /\ (User.role u' = User.role u
                           \/ (User.role u' = ADMIN
                               /\ promoted_by_super_admin o w i))).
  { intros j t. simpl.
    rewrite find_map_stable by (intros v; apply has_id_after_bind_refreshToken).
    rewrite Hu. eexists. split; [reflexivity |]. left.
    apply role_after_bind_refreshToken. }
  destruct o as [d | d | t | m | t p | rid tid]; cbn [run].
  - rewrite register_unfold.
    destruct (fails e UserFindOne); [exact Hsame |].
    destruct (find (has_email _) (users w)); [exact Hsame |].
    destruct (fails e UserSave); [exact Hsame |].
    destruct (existsb (has_id (uuid e)) (users w)); [exact Hsame |].
    simpl. exists u. split; [now apply find_app_found | now left].
  - rewrite login_unfold.
    destruct (fails e UserFindOne); [exact Hsame |].
    destruct (find (has_email _) (users w)) as [v |]; [| exact Hsame].
    destruct (bcrypt_compare _ _); [| exact Hsame].
    destruct (fails e UserUpdate); [exact Hsame | apply Hrot].
  - rewrite refreshTokens_unfold.
    destruct (jwt_decode _ t) as [c |]; [| exact Hsame].
    destruct (Claims.exp c <=? now e / 1000); [exact Hsame |].
    destruct (fails e UserFindOne); [exact Hsame |].
    destruct (find (has_id (Claims.sub c)) (users w)) as [v |] eqn:Ev; [| exact Hsame].
    destruct (truthy _); [| exact Hsame].
    destruct (bcrypt_compare _ _); [| exact Hsame].
    destruct (fails e UserUpdate); [exact Hsame | apply Hrot].
  - rewrite sendPasswordResetEmail_unfold.
    destruct (fails e UserFindOne); [exact Hsame |].
    destruct (find (has_email _) (users w)) as [v |]; [| exact Hsame].
    destruct (fails e ResetSave); [exact Hsame |].
    destruct (existsb _ (passwordResets w)); [exact Hsame |].
    simpl. destruct (fails e MailSend); exact Hsame.
  - rewrite resetPassword_unfold.
    destruct (fails e ResetFindOne); [exact Hsame |].
    destruct (find _ (passwordResets w)) as [r |]; [| exact Hsame].
    destruct (PasswordReset.expiresAt r <? now e); [exact Hsame |].
    destruct (find (has_id (PasswordReset.user r)) (users w)) as [o |] eqn:Eo;
      [| exact Hsame].
    destruct (fails e UserSave); [exact Hsame |].
    assert (exists u',
              find (has_id i)
                (map (overwrite (with_password (bcrypt_hash (salt e) p 10) o)) (users w))
              = Some u'
              /\ (User.role u' = User.role u \/ (User.role u' = ADMIN /\ False)))
      as Hover.
    { rewrite find_map_stable by (intros v; apply has_id_after_overwrite).
      rewrite Hu. eexists. split; [reflexivity |]. left.
      unfold overwrite. simpl.
      destruct (has_id (User.id o) u) eqn:E; [| reflexivity].
      apply has_id_eq in E. destruct (find_has_id _ _ Hu) as [Hi _].
      destruct (find_has_id _ _ Eo) as [Ho _].
      assert (Some u = Some o) as [= ->] by (rewrite <- Hu, <- Eo; congruence).
      reflexivity. }
    simpl. destruct (fails e ResetDelete); exact Hover.
  - rewrite promoteToAdmin_unfold.
    destruct (fails e UserFindOne); [exact Hsame |].
    destruct (find (has_id rid) (users w)) as [r |] eqn:Er; [| exact Hsame].
    destruct (UserRole_eqb (User.role r) SUPER_ADMIN) eqn:Hr; [| exact Hsame].
    destruct (find (has_id tid) (users w)) as [t |] eqn:Et; [| exact Hsame].
    destruct (fails e UserSave); [exact Hsame |].
    simpl. rewrite find_map_stable by (intros v; apply has_id_after_overwrite).
    rewrite Hu. eexists. split; [reflexivity |].
    unfold overwrite. simpl.
    destruct (has_id (User.id t) u) eqn:E; [| now left].
    right. split; [reflexivity |].
    apply has_id_eq in E. destruct (find_has_id _ _ Hu) as [Hi _].
    destruct (find_has_id _ _ Et) as [Ht _].
    split; [congruence |]. exists r. split; [exact Er |].
    now apply UserRole_eqb_eq.
Qed.

Lemma exec_app `{Bcrypt} `{Jwt} (config : Config)
  (tr1 tr2 : list (Env * Op)) (w : World) :
  exec config (tr1 ++ tr2) w = exec config tr2 (exec config tr1 w).
Proof.
  revert w. induction tr1 as [| [e o] tr1 IH]; intros w; simpl; auto.
Qed.

(** C1, as the code has it.  Along every sequence of calls that starts with
    no [ADMIN] user, whoever is [ADMIN] at the end was promoted by a call of
    [promoteToAdmin] whose requester was a [SUPER_ADMIN] at that moment, or
    was registered by a call of [register] that asked for the role [ADMIN];
    [register] stores and returns the role its request carries.  No other
    call changes a role: every row left by a call has the key and role of a
    row it found, unless the call promoted that key or registered the row,
    and every user found under a key before a call is found under it after
    the call with the same role, unless the call promoted that key. *)
Theorem admin_only_by_promotion_or_registration `{Bcrypt} `{Jwt} (config : Config)
  (tr : list (Env * Op)) (w0 : World) (i : string) :
  (forall u, In u (users w0) -> User.role u <> ADMIN) ->
  (is_admin_in (exec config tr w0) i ->
   exists pre e o post,
     tr = pre ++ (e, o) :: post
     /\ (promoted_by_super_admin o (exec config pre w0) i
         \/ registered_as_admin o e i))
  /\ (forall d e w s w',
        AuthService.register d e w = (Ok s, w') ->
        SafeUser.role s = RegisterDto.role d
        /\ find (has_id (SafeUser.id s)) (users w') = Some (registered e d)
        /\ User.role (registered e d) = RegisterDto.role d)
  /\ (forall o e w u',
        In u' (users (run config o e w)) ->
        (exists u, In u (users w) /\ User.id u = User.id u'
                   /\ User.role u = User.role u')
        \/ (User.role u' = ADMIN /\ promoted_by_super_admin o w (User.id u'))
        \/ (exists d, o = Register d /\ User.role u' = RegisterDto.role d
                      /\ User.id u' = uuid e))
  /\ (forall o e w k u,
        find (has_id k) (users w) = Some u ->
        exists u',
          find (has_id k) (users (run config o e w)) = Some u'
          /\ (User.role u' = User.role u
              \/ (User.role u' = ADMIN /\ promoted_by_super_admin o w k))).
Proof.
  intros Hnone. split; [| split; [| split]].
  3: { intros o e w u'. apply run_roles. }
  3: { intros o e w k u. apply run_keeps_roles. }
  - induction tr as [| [e o] tr IH] using rev_ind.
    + simpl. intros [u [Hin [_ Hrole]]]. exfalso. eapply Hnone; eauto.
    + rewrite exec_app. simpl. intros [u [Hin [Hid Hrole]]].
      apply run_roles in Hin. destruct Hin as [Hk | [[_ Hp] | [d [-> [Hr Hu]]]]].
      * destruct Hk as [v [Hv [Hvid Hvrole]]].
        destruct IH as [pre [e1 [o1 [post [-> Hg]]]]].
        { exists v. repeat split; congruence. }
        exists pre, e1, o1, (post ++ [(e, o)]).
        split; [now rewrite <- app_assoc |]. exact Hg.
      * exists tr, e, o, []. split; [reflexivity |]. left. now rewrite <- Hid.
      * exists tr, e, (Register d), []. split; [reflexivity |]. right.
        simpl. split; congruence.
  - intros d e w s w'. rewrite register_unfold.
    destruct (fails e UserFindOne); [discriminate |].
    destruct (find _ (users w)); [discriminate |].
    destruct (fails e UserSave); [discriminate |].
    destruct (existsb (has_id (uuid e)) (users w)) eqn:Ex; [discriminate |].
    intros [= <- <-]. simpl. split; [reflexivity |]. split; [| reflexivity].
    rewrite find_app_none.
    2:{ destruct (find (has_id (uuid e)) (users w)) eqn:Ef; [| reflexivity].
        apply find_existsb in Ef. congruence. }
    simpl. unfold has_id. simpl. now rewrite String.eqb_refl.
Qed.

(** ** Registration *)

(** C8. [register] fails with [EmailAlreadyExists] when the email is taken
    and leaves the state as it was; otherwise it inserts one row, whose
    password field is the digest of the supplied password, and returns that
    row without its password field. *)
Theorem register_outcomes `{Bcrypt} (d : RegisterDto.t) (e : Env) (w : World) :
  reliable e ->
  (forall u, find (has_email (RegisterDto.email d)) (users w) = Some u ->
     AuthService.register d e w = (Throw EmailAlreadyExists, w))
  /\ (find (has_email (RegisterDto.email d)) (users w) = None ->
      existsb (has_id (uuid e)) (users w) = false ->
      AuthService.register d e w
      = (Ok {| SafeUser.id := uuid e; SafeUser.email := RegisterDto.email d;
               SafeUser.role := RegisterDto.role d; SafeUser.refreshToken := None |},
         set_users (users w ++ [registered e d]) w)
      /\ User.password (registered e d)
         = bcrypt_hash (salt e) (RegisterDto.password d) 10).
Proof.
  intros He. rewrite register_unfold, (He UserFindOne), (He UserSave). split.
  - intros u ->. reflexivity.
  - intros -> ->. split; reflexivity.
Qed.

(** ** Login *)

Lemma bind_refreshToken_email (i h m : string) (v : User.t) :
  has_email m (bind_refreshToken i h v) = has_email m v.
Proof. unfold bind_refreshToken. destruct (has_id i v); reflexivity. Qed.

Lemma bind_refreshToken_id (i h j : string) (v : User.t) :
  has_id j (bind_refreshToken i h v) = has_id j v.
Proof. unfold bind_refreshToken. destruct (has_id i v); reflexivity. Qed.

Lemma bind_refreshToken_own (h : string) (u : User.t) :
  bind_refreshToken (User.id u) h u
  = {| User.id := User.id u; User.email := User.email u;
       User.password := User.password u; User.role := User.role u;
       User.refreshToken := Some h |}.
Proof.
  unfold bind_refreshToken.
  now rewrite (proj2 (has_id_eq (User.id u) u) eq_refl).
Qed.

(** C7. [login] fails with the one error [InvalidCredentials] both when no
    user has the email and when the password does not verify against the
    stored digest; on success it returns the pair issued at that moment and
    the user's row carries the digest of the new refresh token. *)
Theorem login_outcomes `{Bcrypt} `{Jwt} (config : Config)
  (d : LogInDto.t) (e : Env) (w : World) :
  reliable e ->
  (find (has_email (LogInDto.email d)) (users w) = None ->
     AuthService.login config d e w = (Throw InvalidCredentials, w))
  /\ (forall u, find (has_email (LogInDto.email d)) (users w) = Some u ->
        bcrypt_compare (LogInDto.password d) (User.password u) = false ->
        AuthService.login config d e w = (Throw InvalidCredentials, w))
  /\ (forall u, find (has_email (LogInDto.email d)) (users w) = Some u ->
        bcrypt_compare (LogInDto.password d) (User.password u) = true ->
        exists w',
          AuthService.login config d e w
          = (Ok (issued config e (User.id u) (User.email u)), w')
          /\ find (has_email (LogInDto.email d)) (users w')
             = Some {| User.id := User.id u; User.email := User.email u;
                       User.password := User.password u; User.role := User.role u;
                       User.refreshToken :=
                         Some (bcrypt_hash (salt e)
                                 (Tokens.refreshToken
                                    (issued config e (User.id u) (User.email u))) 10) |}
          /\ passwordResets w' = passwordResets w).
Proof.
  intros He. rewrite login_unfold, (He UserFindOne), (He UserUpdate).
  split; [| split].
  - intros ->. reflexivity.
  - intros u -> ->. reflexivity.
  - intros u Hu Hc. rewrite Hu, Hc. eexists. split; [reflexivity |].
    split; [| reflexivity]. simpl.
    rewrite find_map_stable by (intros v; apply bind_refreshToken_email).
    rewrite Hu. simpl. now rewrite bind_refreshToken_own.
Qed.

(** ** Password reset *)

Lemma In_find {A} (p : A -> bool) (l : list A) (x : A) :
  In x l -> p x = true -> exists y, find p l = Some y.
Proof.
  intros Hin Hp. destruct (find p l) as [y |] eqn:E; [now exists y |].
  rewrite (find_none _ _ E x Hin) in Hp. discriminate.
Qed.

Lemma has_token_eq (t : string) (r : PasswordReset.t) :
  has_token t r = true <-> PasswordReset.token r = t.
Proof. unfold has_token. apply String.eqb_eq. Qed.

Lemma has_reset_id_eq (i : string) (r : PasswordReset.t) :
  has_reset_id i r = true <-> PasswordReset.id r = i.
Proof. unfold has_reset_id. apply String.eqb_eq. Qed.


(** What a successful [resetPassword] leaves behind. *)
Lemma resetPassword_success `{Bcrypt} (token newPassword : string)
  (e : Env) (w : World) (r : PasswordReset.t) (u : User.t) :
  reliable e ->
  find (has_token token) (passwordResets w) = Some r ->
  now e <= PasswordReset.expiresAt r ->
  find (has_id (PasswordReset.user r)) (users w) = Some u ->
  AuthService.resetPassword token newPassword e w
  = (Ok tt,
     set_passwordResets
       (filter (fun x => negb (has_reset_id (PasswordReset.id r) x))
               (passwordResets w))
       (set_users
          (map (overwrite (with_password (bcrypt_hash (salt e) newPassword 10) u))
               (users w)) w)).
Proof.
  intros He Hr Ht Hu.
  rewrite resetPassword_unfold, (He ResetFindOne), Hr, Hu, (He UserSave).
  assert ((PasswordReset.expiresAt r <? now e) = false) as -> by (apply Z.ltb_ge; lia).
  simpl. now rewrite (He ResetDelete).
Qed.


(** C3, as the code has it.  When the mail service rejects, the request
    inserted just before stays in the table, unexpired for fifteen minutes
    and consumable by [resetPassword]; the rejection itself reaches the
    caller of [sendPasswordResetEmail] as [DeliveryError]. *)
Theorem sendPasswordResetEmail_mail_failure `{Bcrypt}
  (email : string) (e : Env) (w : World) (u : User.t) :
  find (has_email email) (users w) = Some u ->
  fails e UserFindOne = false ->
  fails e ResetSave = false ->
  fails e MailSend = true ->
  existsb (has_reset_id (uuid e)) (passwordResets w) = false ->
  find (has_token (randomBytes e)) (passwordResets w) = None ->
  AuthService.sendPasswordResetEmail email e w
  = (Throw DeliveryError,
     set_passwordResets (passwordResets w ++ [requested e u]) w)
  /\ PasswordReset.expiresAt (requested e u) = now e + 900000
  /\ (forall e2 newPassword,
        reliable e2 -> now e2 <= now e + 900000 ->
        fst (AuthService.resetPassword (randomBytes e) newPassword e2
               (set_passwordResets (passwordResets w ++ [requested e u]) w))
        = Ok tt).
Proof.
  intros Hu Hf Hs Hm Hfresh Htok.
  rewrite sendPasswordResetEmail_unfold, Hf, Hu, Hs, Hfresh. simpl. rewrite Hm.
  split; [reflexivity |]. split; [reflexivity |].
  intros e2 newPassword He2 Ht.
  apply find_some in Hu. destruct Hu as [Hin _].
  destruct (In_find (has_id (User.id u)) _ _ Hin (proj2 (has_id_eq _ _) eq_refl))
    as [owner Ho].
  rewrite resetPassword_success with (r := requested e u) (u := owner); auto.
  simpl. rewrite find_app_none by exact Htok. simpl.
  unfold has_token. simpl. now rewrite String.eqb_refl.
Qed.

(** ** Refresh *)

(** C10. Whatever it is given, [refreshTokens] either returns the pair
    issued at that moment or throws the one error [InvalidRefreshToken]: a
    bad signature, an expired token, a missing user, an absent stored
    digest, a digest mismatch, and a rejected look-up or a rejected update
    of the stored digest after a successful validation all end in it. *)
Theorem refreshTokens_single_error `{Bcrypt} `{Jwt} (config : Config)
  (refreshToken : string) (e : Env) (w : World) :
  ((exists u w', AuthService.refreshTokens config refreshToken e w
                 = (Ok (issued config e (User.id u) (User.email u)), w'))
   \/ AuthService.refreshTokens config refreshToken e w
      = (Throw InvalidRefreshToken, w))
  /\ (jwt_decode (JWT_REFRESH_SECRET config) refreshToken = None ->
      AuthService.refreshTokens config refreshToken e w
      = (Throw InvalidRefreshToken, w))
  /\ (forall payload,
        jwt_decode (JWT_REFRESH_SECRET config) refreshToken = Some payload ->
        (Claims.exp payload <= now e / 1000
         \/ fails e UserFindOne = true
         \/ find (has_id (Claims.sub payload)) (users w) = None
         \/ (exists u, find (has_id (Claims.sub payload)) (users w) = Some u
                       /\ User.refreshToken u = None)
         \/ (exists u stored,
               find (has_id (Claims.sub payload)) (users w) = Some u
               /\ User.refreshToken u = Some stored
               /\ bcrypt_compare refreshToken stored = false)
         \/ fails e UserUpdate = true) ->
        AuthService.refreshTokens config refreshToken e w
        = (Throw InvalidRefreshToken, w)).
Proof.
  rewrite refreshTokens_unfold.
  destruct (jwt_decode (JWT_REFRESH_SECRET config) refreshToken) as [c |] eqn:Ed;
    [| split; [now right | split; [reflexivity | discriminate]]].
  destruct (Claims.exp c <=? now e / 1000) eqn:Ex.
  { split; [now right | split; [discriminate | reflexivity]]. }
  apply Z.leb_gt in Ex.
  destruct (fails e UserFindOne) eqn:Ef.
  { split; [now right | split; [discriminate | reflexivity]]. }
  destruct (find (has_id (Claims.sub c)) (users w)) as [u |] eqn:Eu.
  2:{ split; [now right | split; [discriminate | reflexivity]]. }
  destruct (User.refreshToken u) as [stored |] eqn:Es; simpl.
  2:{ split; [now right | split; [discriminate | reflexivity]]. }
  destruct (String.eqb stored "") eqn:Ee.
  { split; [now right | split; [discriminate | reflexivity]]. }
  destruct (bcrypt_compare refreshToken stored) eqn:Ec.
  2:{ split; [now right | split; [discriminate | reflexivity]]. }
  destruct (fails e UserUpdate) eqn:Eup.
  { split; [now right | split; [discriminate | reflexivity]]. }
  split; [left; eauto | split; [discriminate |]].
  intros payload Hp Hcause. injection Hp as <-. exfalso.
  destruct Hcause as [Hx | [Hf | [Hn | [[v [Hv Hs]] | [[v [s [Hv [Hs Hc]]]] | Hu]]]]];
    try solve [lia | discriminate | congruence].
Qed.

(* ================================================================== *)
(** * Further properties of the service *)

Unset Implicit Arguments.

(** ** Lists and keys *)

Lemma NoDup_snoc {A} (l : list A) (a : A) :
  NoDup l -> ~ In a l -> NoDup (l ++ [a]).
Proof.
  intros Hl Ha. induction Hl as [| x l Hx Hl IH]; simpl.
  - constructor; [intros [] | constructor].
  - constructor.
    + intros Hin. apply in_app_or in Hin. destruct Hin as [Hin | [<- | []]].
      * contradiction.
      * apply Ha. now left.
    + apply IH. intros Hin. apply Ha. now right.
Qed.

(** Dropping rows keeps keys unique. *)
Lemma filter_keeps_keys_unique {K R} (key : R -> K) (keep : R -> bool) (rows : list R) :
  NoDup (map key rows) -> NoDup (map key (filter keep rows)).
Proof.
  induction rows as [| r rows IH]; simpl; intros Hrows; [constructor |].
  inversion Hrows as [| k ks Hk Hks]; subst.
  destruct (keep r); simpl; [constructor |]; auto.
  intros Hin. apply Hk. apply in_map_iff in Hin. destruct Hin as [y [Hy Hin]].
  apply filter_In in Hin. apply in_map_iff. exists y. tauto.
Qed.

(** A key that names one row names the same row wherever it is found. *)
Lemma unique_key_same_row {K R} (key : R -> K) (rows : list R) (r1 r2 : R) :
  NoDup (map key rows) -> In r1 rows -> In r2 rows -> key r1 = key r2 -> r1 = r2.
Proof.
  induction rows as [| x rows IH]; simpl; intros Hrows H1 H2 Hk; [contradiction |].
  inversion Hrows as [| y ys Hy Hys]; subst.
  destruct H1 as [-> | H1], H2 as [-> | H2]; auto.
  - exfalso. apply Hy. rewrite Hk. now apply in_map.
  - exfalso. apply Hy. rewrite <- Hk. now apply in_map.
Qed.

Lemma filter_all {A} (l : list A) : filter (fun _ => true) l = l.
Proof. induction l as [| a l IH]; simpl; congruence. Qed.

Lemma find_filter {A} (p q : A -> bool) (l : list A) (x : A) :
  find p l = Some x -> q x = true -> find p (filter q l) = Some x.
Proof.
  induction l as [| a l IH]; simpl; [discriminate |].
  destruct (p a) eqn:Ep.
  - intros [= ->] Hq. rewrite Hq. simpl. now rewrite Ep.
  - intros Hf Hq. destruct (q a); simpl; [rewrite Ep |]; auto.
Qed.

Lemma existsb_has_id (i : string) (l : list User.t) :
  existsb (has_id i) l = false -> ~ In i (map User.id l).
Proof.
  intros Hex Hin. apply in_map_iff in Hin. destruct Hin as [u [Hu Hin]].
  assert (existsb (has_id i) l = true) as Ht.
  { apply existsb_exists. exists u. split; [exact Hin | now apply has_id_eq]. }
  congruence.
Qed.

Lemma existsb_has_reset_id (i : string) (l : list PasswordReset.t) :
  existsb (has_reset_id i) l = false -> ~ In i (map PasswordReset.id l).
Proof.
  intros Hex Hin. apply in_map_iff in Hin. destruct Hin as [r [Hr Hin]].
  assert (existsb (has_reset_id i) l = true) as Ht.
  { apply existsb_exists. exists r. split; [exact Hin | now apply has_reset_id_eq]. }
  congruence.
Qed.

Lemma find_has_email_none (m : string) (l : list User.t) :
  find (has_email m) l = None -> ~ In m (map User.email l).
Proof.
  intros Hf Hin. apply in_map_iff in Hin. destruct Hin as [u [Hu Hin]].
  pose proof (find_none _ _ Hf u Hin) as Hn. unfold has_email in Hn.
  rewrite Hu, String.eqb_refl in Hn. discriminate.
Qed.

Lemma find_has_email (m : string) (l : list User.t) (u : User.t) :
  find (has_email m) l = Some u -> User.email u = m /\ In u l.
Proof.
  intros Hf. apply find_some in Hf. destruct Hf as [Hin Hm].
  split; [now apply String.eqb_eq | exact Hin].
Qed.

Lemma overwrite_id (x v : User.t) : User.id (overwrite x v) = User.id v.
Proof.
  unfold overwrite. destruct (has_id (User.id x) v) eqn:E; [| reflexivity].
  apply has_id_eq in E. congruence.
Qed.

Lemma bind_refreshToken_same_account (i h : string) (v : User.t) :
  same_account v (bind_refreshToken i h v).
Proof. unfold bind_refreshToken, same_account. destruct (has_id i v); simpl; auto. Qed.

Lemma map_id_overwrite (x : User.t) (l : list User.t) :
  map User.id (map (overwrite x) l) = map User.id l.
Proof. rewrite map_map. apply map_ext. intros v. apply overwrite_id. Qed.

Lemma map_id_bind_refreshToken (i h : string) (l : list User.t) :
  map User.id (map (bind_refreshToken i h) l) = map User.id l.
Proof.
  rewrite map_map. apply map_ext. intros v.
  apply (bind_refreshToken_same_account i h v).
Qed.

Lemma map_email_bind_refreshToken (i h : string) (l : list User.t) :
  map User.email (map (bind_refreshToken i h) l) = map User.email l.
Proof.
  rewrite map_map. apply map_ext. intros v.
  apply (bind_refreshToken_same_account i h v).
Qed.

(** With primary keys naming one row each, overwriting the row found under a
    key by a row with the same email leaves the column of emails alone. *)
Lemma map_email_overwrite (u u' : User.t) (l : list User.t) :
  NoDup (map User.id l) ->
  find (has_id (User.id u')) l = Some u ->
  User.email u' = User.email u ->
  map User.email (map (overwrite u') l) = map User.email l.
Proof.
  intros Hnd Hf He. rewrite map_map. apply map_ext_in. intros v Hv.
  unfold overwrite. destruct (has_id (User.id u') v) eqn:E; [| reflexivity].
  destruct (find_has_id _ _ Hf) as [Hid Hu]. apply has_id_eq in E.
  assert (v = u) as -> by (eapply unique_key_same_row; eauto; congruence).
  exact He.
Qed.

(** In a consistent world a stored row is the one found under its key and
    under its email. *)
Lemma consistent_find_id (w : World) (u : User.t) :
  consistent w -> In u (users w) -> find (has_id (User.id u)) (users w) = Some u.
Proof.
  intros [Hid _] Hin.
  destruct (In_find (has_id (User.id u)) _ _ Hin (proj2 (has_id_eq _ _) eq_refl))
    as [v Hv].
  destruct (find_has_id _ _ Hv) as [Hvid Hvin].
  now rewrite (unique_key_same_row User.id _ _ _ Hid Hvin Hin Hvid) in Hv.
Qed.

Lemma consistent_find_email (w : World) (u : User.t) :
  consistent w -> In u (users w) ->
  find (has_email (User.email u)) (users w) = Some u.
Proof.
  intros [_ [Hem _]] Hin.
  destruct (In_find (has_email (User.email u)) _ _ Hin
              (proj2 (String.eqb_eq _ _) eq_refl)) as [v Hv].
  destruct (find_has_email _ _ _ Hv) as [Hvm Hvin].
  now rewrite (unique_key_same_row User.email _ _ _ Hem Hvin Hin Hvm) in Hv.
Qed.

(** ** The effect of one call *)

Lemma run_effect `{Bcrypt} `{Jwt} (config : Config) (o : Op) (e : Env) (w : World) :
  Effect w (run config o e w).
Proof.
  destruct o as [d | d | t | m | t p | rid tid]; simpl.
  - rewrite register_unfold.
    destruct (fails e UserFindOne); [constructor |].
    destruct (find _ (users w)) eqn:Em; [constructor |].
    destruct (fails e UserSave); [constructor |].
    destruct (existsb _ (users w)) eqn:Ei; [constructor |].
    simpl. now apply effect_insert_user.
  - rewrite login_unfold.
    destruct (fails e UserFindOne); [constructor |].
    destruct (find _ (users w)) as [u |]; [| constructor].
    destruct (bcrypt_compare _ _); [| constructor].
    destruct (fails e UserUpdate); [constructor |].
    apply effect_bind_refreshToken.
  - rewrite refreshTokens_unfold.
    destruct (jwt_decode _ t) as [c |]; [| constructor].
    destruct (Claims.exp c <=? now e / 1000); [constructor |].
    destruct (fails e UserFindOne); [constructor |].
    destruct (find _ (users w)) as [u |]; [| constructor].
    destruct (truthy _); [| constructor].
    destruct (bcrypt_compare _ _); [| constructor].
    destruct (fails e UserUpdate); [constructor |].
    apply effect_bind_refreshToken.
  - rewrite sendPasswordResetEmail_unfold.
    destruct (fails e UserFindOne); [constructor |].
    destruct (find _ (users w)) as [u |] eqn:Eu; [| constructor].
    destruct (fails e ResetSave); [constructor |].
    destruct (existsb _ (passwordResets w)) eqn:Ei; [constructor |].
    destruct (find_has_email _ _ _ Eu) as [_ Hin].
    cbv zeta. destruct (fails e MailSend); simpl.
    + replace (set_passwordResets (passwordResets w ++ [requested e u]) w)
        with (set_outbox (outbox w ++ [])
                (set_passwordResets (passwordResets w ++ [requested e u]) w))
        by (unfold set_outbox; simpl; now rewrite app_nil_r).
      now apply (@effect_insert_request w u (requested e u) []).
    + now apply (@effect_insert_request w u (requested e u) [reset_mail e u]).
  - rewrite resetPassword_unfold.
    destruct (fails e ResetFindOne); [constructor |].
    destruct (find _ (passwordResets w)) as [r |]; [| constructor].
    destruct (PasswordReset.expiresAt r <? now e); [constructor |].
    destruct (find _ (users w)) as [u |] eqn:Eu; [| constructor].
    destruct (fails e UserSave); [constructor |].
    destruct (find_has_id _ _ Eu) as [Hid _].
    cbv zeta. destruct (fails e ResetDelete); simpl.
    + replace (set_users (map (overwrite (with_password (bcrypt_hash (salt e) p 10) u))
                            (users w)) w)
        with (set_passwordResets (filter (fun _ => true) (passwordResets w))
                (set_users (map (overwrite (with_password (bcrypt_hash (salt e) p 10) u))
                              (users w)) w))
        by (unfold set_passwordResets; simpl; now rewrite filter_all).
      apply (@effect_overwrite w u
               (with_password (bcrypt_hash (salt e) p 10) u) (fun _ => true));
        simpl; [now rewrite Hid | reflexivity].
    + apply (@effect_overwrite w u
               (with_password (bcrypt_hash (salt e) p 10) u)
               (fun x => negb (has_reset_id (PasswordReset.id r) x)));
        simpl; [now rewrite Hid | reflexivity].
  - rewrite promoteToAdmin_unfold.
    destruct (fails e UserFindOne); [constructor |].
    destruct (find (has_id rid) (users w)) as [r |]; [| constructor].
    destruct (UserRole_eqb (User.role r) SUPER_ADMIN); [| constructor].
    destruct (find (has_id tid) (users w)) as [t |] eqn:Et; [| constructor].
    destruct (fails e UserSave); [constructor |].
    destruct (find_has_id _ _ Et) as [Hid _]. simpl.
    replace (set_users (map (overwrite (with_role ADMIN t)) (users w)) w)
      with (set_passwordResets (filter (fun _ => true) (passwordResets w))
              (set_users (map (overwrite (with_role ADMIN t)) (users w)) w))
      by (unfold set_passwordResets; simpl; now rewrite filter_all).
    apply (@effect_overwrite w t (with_role ADMIN t) (fun _ => true));
      simpl; [now rewrite Hid | reflexivity].
Qed.

(** ** Invariants of the tables *)

Lemma effect_consistent (w w' : World) :
  Effect w w' -> consistent w -> consistent w'.
Proof.
  intros Heff (Hid & Hem & Hrid & Hfk).
  destruct Heff as [| new Hfresh Hmail | i h | u r ms Hu Hr Hfresh | u u' keep Hf He];
    unfold consistent; simpl.
  - auto.
  - rewrite !map_app. simpl. repeat split.
    + apply NoDup_snoc; [exact Hid | now apply existsb_has_id].
    + apply NoDup_snoc; [exact Hem | now apply find_has_email_none].
    + exact Hrid.
    + intros r Hr. destruct (Hfk r Hr) as [u [Hu Hk]].
      exists u. split; [apply in_or_app; now left | exact Hk].
  - rewrite map_id_bind_refreshToken, map_email_bind_refreshToken. repeat split; auto.
    intros r Hr. destruct (Hfk r Hr) as [u [Hu Hk]].
    exists (bind_refreshToken i h u). split; [now apply in_map |].
    rewrite <- Hk. apply (bind_refreshToken_same_account i h u).
  - rewrite map_app. simpl. repeat split; auto.
    + apply NoDup_snoc; [exact Hrid | now apply existsb_has_reset_id].
    + intros x Hx. apply in_app_or in Hx. destruct Hx as [Hx | [<- | []]]; [auto |].
      exists u. auto.
  - rewrite map_id_overwrite, (map_email_overwrite u u' (users w) Hid Hf He). repeat split; auto.
    + now apply filter_keeps_keys_unique.
    + intros x Hx. apply filter_In in Hx. destruct Hx as [Hx _].
      destruct (Hfk x Hx) as [v [Hv Hk]].
      exists (overwrite u' v). split; [now apply in_map |].
      now rewrite overwrite_id.
Qed.

(** X1. Every call keeps the tables consistent, whatever its arguments and
    whichever way it ends: after any sequence of calls primary keys and
    emails still name one row each and every reset request still belongs to
    a stored user. *)
Theorem consistent_exec `{Bcrypt} `{Jwt} (config : Config)
  (tr : list (Env * Op)) (w : World) :
  consistent w -> consistent (exec config tr w).
Proof.
  revert w. induction tr as [| [e o] tr IH]; intros w Hw; simpl; [exact Hw |].
  apply IH. eapply effect_consistent; [apply run_effect | exact Hw].
Qed.

Lemma effect_ids (w w' : World) :
  Effect w w' -> exists extra, map User.id (users w') = map User.id (users w) ++ extra.
Proof.
  intros [| new _ _ | i h | u r ms _ _ _ | u u' keep _ _]; simpl.
  - exists []. now rewrite app_nil_r.
  - exists [User.id new]. now rewrite map_app.
  - exists []. now rewrite map_id_bind_refreshToken, app_nil_r.
  - exists []. now rewrite app_nil_r.
  - exists []. now rewrite map_id_overwrite, app_nil_r.
Qed.

(** X2. No call deletes a user or changes a primary key: after any sequence
    of calls the column of user keys is the original column, in the original
    order, followed by the keys of the users registered since. *)
Theorem users_never_deleted `{Bcrypt} `{Jwt} (config : Config)
  (tr : list (Env * Op)) (w : World) :
  exists extra,
    map User.id (users (exec config tr w)) = map User.id (users w) ++ extra.
Proof.
  revert w. induction tr as [| [e o] tr IH]; intros w; simpl.
  - exists []. now rewrite app_nil_r.
  - destruct (IH (run config o e w)) as [extra2 H2].
    destruct (effect_ids w (run config o e w) (run_effect config o e w)) as [extra1 H1].
    exists (extra1 ++ extra2). now rewrite H2, H1, app_assoc.
Qed.

Lemma effect_emails (w w' : World) :
  Effect w w' -> consistent w ->
  exists extra, map User.email (users w') = map User.email (users w) ++ extra.
Proof.
  intros Heff (Hid & _).
  destruct Heff as [| new _ _ | i h | u r ms _ _ _ | u u' keep Hf He]; simpl.
  - exists []. now rewrite app_nil_r.
  - exists [User.email new]. now rewrite map_app.
  - exists []. now rewrite map_email_bind_refreshToken, app_nil_r.
  - exists []. now rewrite app_nil_r.
  - exists []. now rewrite (map_email_overwrite u u' (users w) Hid Hf He), app_nil_r.
Qed.

Lemma exec_emails `{Bcrypt} `{Jwt} (config : Config)
  (tr : list (Env * Op)) (w : World) :
  consistent w ->
  exists extra,
    map User.email (users (exec config tr w)) = map User.email (users w) ++ extra.
Proof.
  revert w. induction tr as [| [e o] tr IH]; intros w Hw; simpl.
  - exists []. now rewrite app_nil_r.
  - destruct (IH (run config o e w)) as [extra2 H2].
    { eapply effect_consistent; [apply run_effect | exact Hw]. }
    destruct (effect_emails w (run config o e w) (run_effect config o e w) Hw) as [extra1 H1].
    exists (extra1 ++ extra2). now rewrite H2, H1, app_assoc.
Qed.

(** X3. An email, once registered, stays taken: after any sequence of calls
    on a consistent state, [register] with the email of a user of that state
    fails with [EmailAlreadyExists] and changes nothing. *)
Theorem email_stays_taken `{Bcrypt} `{Jwt} (config : Config)
  (tr : list (Env * Op)) (w : World) (u : User.t) (d : RegisterDto.t) (e : Env) :
  consistent w ->
  In u (users w) ->
  RegisterDto.email d = User.email u ->
  fails e UserFindOne = false ->
  AuthService.register d e (exec config tr w)
  = (Throw EmailAlreadyExists, exec config tr w).
Proof.
  intros Hw Hu Hd Hf. rewrite register_unfold, Hf.
  destruct (exec_emails config tr w Hw) as [extra Hm].
  destruct (find (has_email (RegisterDto.email d)) (users (exec config tr w)))
    eqn:Efind; [reflexivity |].
  exfalso. apply find_has_email_none in Efind. apply Efind.
  rewrite Hm, Hd. apply in_or_app. left. now apply in_map.
Qed.

(** X4. In a consistent state [resetPassword] never trips over a request
    without owner: with its collaborators going through, it either succeeds or
    fails with [InvalidOrExpiredResetToken]. *)
Theorem resetPassword_in_consistent_world `{Bcrypt}
  (token newPassword : string) (e : Env) (w : World) :
  consistent w ->
  reliable e ->
  fst (AuthService.resetPassword token newPassword e w) = Ok tt
  \/ fst (AuthService.resetPassword token newPassword e w)
     = Throw InvalidOrExpiredResetToken.
Proof.
  intros (_ & _ & _ & Hfk) He.
  rewrite resetPassword_unfold, (He ResetFindOne).
  destruct (find (has_token token) (passwordResets w)) as [r |] eqn:Er; [| now right].
  destruct (PasswordReset.expiresAt r <? now e); [now right |].
  apply find_some in Er. destruct Er as [Hr _].
  destruct (Hfk r Hr) as [u [Hu Hk]].
  destruct (In_find (has_id (PasswordReset.user r)) _ _ Hu
              (proj2 (has_id_eq _ _) Hk)) as [v ->].
  rewrite (He UserSave). cbv zeta. rewrite (He ResetDelete). now left.
Qed.

(** ** How the calls compose *)

(** X5. Whoever has just registered can log in: after a successful
    [register], [login] with the same email and password succeeds for the
    new account, provided the password verifies against its own digest; with
    a password that does not verify it fails with [InvalidCredentials]. *)
Theorem register_then_login `{Bcrypt} `{Jwt} (config : Config)
  (d : RegisterDto.t) (e : Env) (w : World) (s : SafeUser.t) (w1 : World) (e2 : Env) :
  AuthService.register d e w = (Ok s, w1) ->
  reliable e2 ->
  (bcrypt_compare (RegisterDto.password d)
     (bcrypt_hash (salt e) (RegisterDto.password d) 10) = true ->
   exists w2,
     AuthService.login config
       {| LogInDto.email := RegisterDto.email d;
          LogInDto.password := RegisterDto.password d |} e2 w1
     = (Ok (issued config e2 (SafeUser.id s) (SafeUser.email s)), w2))
  /\ (forall other,
        bcrypt_compare other (bcrypt_hash (salt e) (RegisterDto.password d) 10) = false ->
        AuthService.login config
          {| LogInDto.email := RegisterDto.email d; LogInDto.password := other |} e2 w1
        = (Throw InvalidCredentials, w1)).
Proof.
  rewrite register_unfold.
  destruct (fails e UserFindOne); [discriminate |].
  destruct (find (has_email (RegisterDto.email d)) (users w)) eqn:Em; [discriminate |].
  destruct (fails e UserSave); [discriminate |].
  destruct (existsb (has_id (uuid e)) (users w)); [discriminate |].
  intros [= <- <-] He2.
  assert (find (has_email (RegisterDto.email d))
            (users (set_users (users w ++ [registered e d]) w))
          = Some (registered e d)) as Hfound.
  { simpl. rewrite find_app_none by exact Em. simpl.
    unfold has_email. simpl. now rewrite String.eqb_refl. }
  split.
  - intros Hc. rewrite login_unfold, (He2 UserFindOne). cbn [LogInDto.email LogInDto.password].
    rewrite Hfound. cbn [User.password registered]. rewrite Hc, (He2 UserUpdate).
    eexists. reflexivity.
  - intros other Hc. rewrite login_unfold, (He2 UserFindOne).
    cbn [LogInDto.email LogInDto.password].
    rewrite Hfound. cbn [User.password registered]. now rewrite Hc.
Qed.

(** X6. The refresh token handed out by [login] is accepted by
    [refreshTokens] until its expiry and no longer: in a consistent state,
    when the issued token decodes to the claims it was signed with and
    verifies against its own non-empty digest, a refresh less than seven days
    of clock seconds after the login succeeds for the same user, and a
    refresh at or after that fails with [InvalidRefreshToken]. *)
Theorem login_then_refresh `{Bcrypt} `{Jwt} (config : Config)
  (d : LogInDto.t) (e : Env) (w : World) (u : User.t) (e2 : Env) :
  consistent w ->
  reliable e -> reliable e2 ->
  find (has_email (LogInDto.email d)) (users w) = Some u ->
  bcrypt_compare (LogInDto.password d) (User.password u) = true ->
  jwt_decode (JWT_REFRESH_SECRET config)
    (Tokens.refreshToken (issued config e (User.id u) (User.email u)))
  = Some {| Claims.sub := User.id u; Claims.email := User.email u;
            Claims.iat := now e / 1000;
            Claims.exp := now e / 1000 + 604800 |} ->
  bcrypt_compare (Tokens.refreshToken (issued config e (User.id u) (User.email u)))
    (bcrypt_hash (salt e)
       (Tokens.refreshToken (issued config e (User.id u) (User.email u))) 10) = true ->
  bcrypt_hash (salt e)
    (Tokens.refreshToken (issued config e (User.id u) (User.email u))) 10 <> "" ->
  exists w1,
    AuthService.login config d e w
    = (Ok (issued config e (User.id u) (User.email u)), w1)
    /\ (now e2 / 1000 < now e / 1000 + 604800 ->
        exists w2,
          AuthService.refreshTokens config
            (Tokens.refreshToken (issued config e (User.id u) (User.email u))) e2 w1
          = (Ok (issued config e2 (User.id u) (User.email u)), w2))
    /\ (now e / 1000 + 604800 <= now e2 / 1000 ->
        AuthService.refreshTokens config
          (Tokens.refreshToken (issued config e (User.id u) (User.email u))) e2 w1
        = (Throw InvalidRefreshToken, w1)).
Proof.
  intros Hw He He2 Hu Hpw Hdec Hcmp Hne.
  rewrite login_unfold, (He UserFindOne), Hu, Hpw, (He UserUpdate).
  eexists. split; [reflexivity |].
  destruct (find_has_email _ _ _ Hu) as [_ Hin].
  assert (find (has_id (User.id u))
            (users (rotated e (User.id u)
                      (issued config e (User.id u) (User.email u)) w))
          = Some {| User.id := User.id u; User.email := User.email u;
                    User.password := User.password u; User.role := User.role u;
                    User.refreshToken :=
                      Some (bcrypt_hash (salt e)
                              (Tokens.refreshToken
                                 (issued config e (User.id u) (User.email u))) 10) |})
    as Hfound.
  { simpl. rewrite find_map_stable by (intros v; apply bind_refreshToken_id).
    rewrite (consistent_find_id w u Hw Hin). simpl. now rewrite bind_refreshToken_own. }
  split.
  - intros Hlt. rewrite refreshTokens_unfold, Hdec. cbn [Claims.exp Claims.sub].
    assert ((now e / 1000 + 604800 <=? now e2 / 1000) = false) as ->
      by (apply Z.leb_gt; exact Hlt).
    rewrite (He2 UserFindOne), Hfound. cbn [User.refreshToken truthy].
    apply String.eqb_neq in Hne. rewrite Hne, Hcmp, (He2 UserUpdate).
    eexists. reflexivity.
  - intros Hge. rewrite refreshTokens_unfold, Hdec. cbn [Claims.exp].
    assert ((now e / 1000 + 604800 <=? now e2 / 1000) = true) as ->
      by (apply Z.leb_le; exact Hge).
    reflexivity.
Qed.

Lemma overwrite_has_id (x v : User.t) (j : string) :
  has_id j (overwrite x v) = has_id j v.
Proof. unfold has_id. now rewrite overwrite_id. Qed.

(** After the row found under a key has been overwritten by a row that
    differs from it in the password only, [refreshTokens] answers as
    before. *)
Lemma refreshTokens_after_overwrite `{Bcrypt} `{Jwt} (config : Config)
  (tok : string) (e2 : Env) (w : World) (u : User.t) (p : string)
  (rs : list PasswordReset.t) :
  find (has_id (User.id u)) (users w) = Some u ->
  fst (AuthService.refreshTokens config tok e2
         (set_passwordResets rs
            (set_users (map (overwrite (with_password p u)) (users w)) w)))
  = fst (AuthService.refreshTokens config tok e2 w).
Proof.
  intros Hu. rewrite !refreshTokens_unfold.
  destruct (jwt_decode _ tok) as [c |]; [| reflexivity].
  destruct (Claims.exp c <=? now e2 / 1000); [reflexivity |].
  destruct (fails e2 UserFindOne); [reflexivity |].
  cbn [users set_passwordResets set_users].
  rewrite find_map_stable by (intros v; apply overwrite_has_id).
  destruct (find (has_id (Claims.sub c)) (users w)) as [v |] eqn:Ev; [| reflexivity].
  cbn [option_map].
  assert (User.id (overwrite (with_password p u) v) = User.id v
          /\ User.email (overwrite (with_password p u) v) = User.email v
          /\ User.refreshToken (overwrite (with_password p u) v) = User.refreshToken v)
    as (-> & -> & ->).
  { unfold overwrite. destruct (has_id (User.id (with_password p u)) v) eqn:E; auto.
    apply has_id_eq in E. simpl in E.
    destruct (find_has_id _ _ Ev) as [Hv _].
    assert (v = u) as -> by (rewrite <- Hv, E in Ev; congruence).
    auto. }
  destruct (truthy (User.refreshToken v)); [| reflexivity].
  destruct (bcrypt_compare tok s); [| reflexivity].
  destruct (fails e2 UserUpdate); reflexivity.
Qed.

(** X7. A password reset does not end any session: whatever [resetPassword]
    is given and however it ends, [refreshTokens] gives afterwards the answer
    it would have given before, for every refresh token. *)
Theorem resetPassword_keeps_sessions `{Bcrypt} `{Jwt} (config : Config)
  (token newPassword : string) (e : Env) (w : World) (tok : string) (e2 : Env) :
  fst (AuthService.refreshTokens config tok e2
         (snd (AuthService.resetPassword token newPassword e w)))
  = fst (AuthService.refreshTokens config tok e2 w).
Proof.
  rewrite resetPassword_unfold.
  destruct (fails e ResetFindOne); [reflexivity |].
  destruct (find (has_token token) (passwordResets w)) as [r |]; [| reflexivity].
  destruct (PasswordReset.expiresAt r <? now e); [reflexivity |].
  destruct (find (has_id (PasswordReset.user r)) (users w)) as [u |] eqn:Eu;
    [| reflexivity].
  destruct (fails e UserSave); [reflexivity |].
  destruct (find_has_id _ _ Eu) as [Hid _]. rewrite <- Hid in Eu.
  cbv zeta. destruct (fails e ResetDelete); cbn [snd].
  - replace (set_users (map (overwrite (with_password (bcrypt_hash (salt e) newPassword 10) u))
                          (users w)) w)
      with (set_passwordResets (passwordResets w)
              (set_users (map (overwrite (with_password
                                            (bcrypt_hash (salt e) newPassword 10) u))
                            (users w)) w)) by reflexivity.
    now apply refreshTokens_after_overwrite.
  - now apply refreshTokens_after_overwrite.
Qed.

(** X8. After a successful [resetPassword] the new password logs in and the
    old one does not: in a consistent state, [login] with the owner's email
    succeeds with any password that verifies against the new digest and fails
    with [InvalidCredentials] with any password that does not. *)
Theorem resetPassword_then_login `{Bcrypt} `{Jwt} (config : Config)
  (token newPassword : string) (e : Env) (w : World)
  (r : PasswordReset.t) (u : User.t) (e2 : Env) :
  consistent w ->
  reliable e -> reliable e2 ->
  find (has_token token) (passwordResets w) = Some r ->
  now e <= PasswordReset.expiresAt r ->
  find (has_id (PasswordReset.user r)) (users w) = Some u ->
  exists w1,
    AuthService.resetPassword token newPassword e w = (Ok tt, w1)
    /\ (forall p,
          bcrypt_compare p (bcrypt_hash (salt e) newPassword 10) = true ->
          exists w2,
            AuthService.login config
              {| LogInDto.email := User.email u; LogInDto.password := p |} e2 w1
            = (Ok (issued config e2 (User.id u) (User.email u)), w2))
    /\ (forall p,
          bcrypt_compare p (bcrypt_hash (salt e) newPassword 10) = false ->
          AuthService.login config
            {| LogInDto.email := User.email u; LogInDto.password := p |} e2 w1
          = (Throw InvalidCredentials, w1)).
Proof.
  intros Hw He He2 Hr Ht Hu.
  rewrite (@resetPassword_success _ token newPassword e w r u He Hr Ht Hu).
  eexists. split; [reflexivity |].
  destruct (find_has_id _ _ Hu) as [Hid Hin].
  assert (find (has_email (User.email u))
            (map (overwrite (with_password (bcrypt_hash (salt e) newPassword 10) u))
                 (users w))
          = Some (with_password (bcrypt_hash (salt e) newPassword 10) u)) as Hfound.
  { apply find_overwrite with (t := u).
    - now apply consistent_find_email.
    - reflexivity.
    - unfold has_email. simpl. apply String.eqb_refl. }
  split; intros p Hp; rewrite login_unfold, (He2 UserFindOne);
    cbn [LogInDto.email LogInDto.password users set_passwordResets set_users];
    rewrite Hfound; cbn [User.password with_password]; rewrite Hp.
  - rewrite (He2 UserUpdate). eexists. reflexivity.
  - reflexivity.
Qed.

(** X9. Consuming one reset request leaves the other outstanding requests
    alone: in a consistent state, after a successful [resetPassword] a
    request with another token is still stored and, while unexpired, can
    still be consumed. *)
Theorem resetPassword_keeps_other_requests `{Bcrypt}
  (token newPassword : string) (e : Env) (w : World)
  (r : PasswordReset.t) (u : User.t)
  (token2 : string) (r2 : PasswordReset.t) (e2 : Env) (password2 : string) :
  consistent w ->
  reliable e -> reliable e2 ->
  find (has_token token) (passwordResets w) = Some r ->
  now e <= PasswordReset.expiresAt r ->
  find (has_id (PasswordReset.user r)) (users w) = Some u ->
  find (has_token token2) (passwordResets w) = Some r2 ->
  token2 <> token ->
  now e2 <= PasswordReset.expiresAt r2 ->
  exists w1,
    AuthService.resetPassword token newPassword e w = (Ok tt, w1)
    /\ find (has_token token2) (passwordResets w1) = Some r2
    /\ fst (AuthService.resetPassword token2 password2 e2 w1) = Ok tt.
Proof.
  intros Hw He He2 Hr Ht Hu Hr2 Hne Ht2.
  rewrite (@resetPassword_success _ token newPassword e w r u He Hr Ht Hu).
  eexists. split; [reflexivity |].
  destruct Hw as (Hid & Hem & Hrid & Hfk).
  pose proof (find_some _ _ Hr) as [Hin Htok].
  pose proof (find_some _ _ Hr2) as [Hin2 Htok2].
  apply has_token_eq in Htok. apply has_token_eq in Htok2.
  assert (find (has_token token2)
            (filter (fun x => negb (has_reset_id (PasswordReset.id r) x))
                    (passwordResets w)) = Some r2) as Hkept.
  { apply find_filter; [exact Hr2 |].
    destruct (has_reset_id (PasswordReset.id r) r2) eqn:E; [| reflexivity].
    apply has_reset_id_eq in E. exfalso. apply Hne.
    rewrite (unique_key_same_row PasswordReset.id _ r2 r Hrid Hin2 Hin E) in Htok2.
    congruence. }
  split; [exact Hkept |].
  destruct (Hfk r2 Hin2) as [o [Ho Hk]].
  destruct (In_find (has_id (PasswordReset.user r2)) _ _ Ho
              (proj2 (has_id_eq _ _) Hk)) as [o' Ho'].
  rewrite resetPassword_unfold, (He2 ResetFindOne).
  cbn [passwordResets users set_passwordResets set_users].
  rewrite Hkept.
  assert ((PasswordReset.expiresAt r2 <? now e2) = false) as ->
    by (apply Z.ltb_ge; lia).
  rewrite find_map_stable by (intros v; apply overwrite_has_id).
  rewrite Ho'. cbn [option_map]. rewrite (He2 UserSave). cbv zeta.
  now rewrite (He2 ResetDelete).
Qed.

(** X10. A reset request can be consumed from the moment it is issued until
    its expiry, fifteen minutes later, and not after: when
    [sendPasswordResetEmail] goes through for a known email, one mail goes to
    that address, the user table is untouched, and [resetPassword] with the
    issued token succeeds at any time up to [now + 900000] ms and fails with
    [InvalidOrExpiredResetToken] after it. *)
Theorem request_then_reset `{Bcrypt}
  (email : string) (e : Env) (w : World) (u : User.t) :
  reliable e ->
  find (has_email email) (users w) = Some u ->
  existsb (has_reset_id (uuid e)) (passwordResets w) = false ->
  find (has_token (randomBytes e)) (passwordResets w) = None ->
  exists w1,
    AuthService.sendPasswordResetEmail email e w = (Ok tt, w1)
    /\ users w1 = users w
    /\ outbox w1 = outbox w ++ [reset_mail e u]
    /\ Mail.to (reset_mail e u) = email
    /\ (forall e2 newPassword, reliable e2 ->
          (now e2 <= now e + 900000 ->
           fst (AuthService.resetPassword (randomBytes e) newPassword e2 w1) = Ok tt)
          /\ (now e + 900000 < now e2 ->
              AuthService.resetPassword (randomBytes e) newPassword e2 w1
              = (Throw InvalidOrExpiredResetToken, w1))).
Proof.
  intros He Hu Hfresh Htok.
  rewrite sendPasswordResetEmail_unfold, (He UserFindOne), Hu, (He ResetSave), Hfresh.
  cbv zeta. rewrite (He MailSend).
  eexists. split; [reflexivity |]. split; [reflexivity |]. split; [reflexivity |].
  destruct (find_has_email _ _ _ Hu) as [Hm Hin]. split; [exact Hm |].
  intros e2 newPassword He2.
  destruct (In_find (has_id (User.id u)) _ _ Hin (proj2 (has_id_eq _ _) eq_refl))
    as [owner Ho].
  assert (find (has_token (randomBytes e)) (passwordResets w ++ [requested e u])
          = Some (requested e u)) as Hfound.
  { rewrite find_app_none by exact Htok. simpl.
    unfold has_token. simpl. now rewrite String.eqb_refl. }
  split; intros Ht; rewrite resetPassword_unfold, (He2 ResetFindOne);
    cbn [passwordResets users set_passwordResets set_outbox];
    rewrite Hfound; cbn [PasswordReset.expiresAt PasswordReset.user requested];
    change minutes_15 with 900000.
  - assert ((now e + 900000 <? now e2) = false) as -> by (apply Z.ltb_ge; lia).
    rewrite Ho, (He2 UserSave). cbv zeta. now rewrite (He2 ResetDelete).
  - assert ((now e + 900000 <? now e2) = true) as -> by (apply Z.ltb_lt; lia).
    reflexivity.
Qed.

(** ** Promotion, again *)

Lemma overwrite_idem (x v : User.t) : overwrite x (overwrite x v) = overwrite x v.
Proof.
  unfold overwrite. destruct (has_id (User.id x) v) eqn:E.
  - now rewrite (proj2 (has_id_eq (User.id x) x) eq_refl).
  - now rewrite E.
Qed.

(** X11. Promotion is idempotent: repeating a successful [promoteToAdmin]
    with a requester other than the target succeeds again, returns the same
    user and leaves the state exactly as the first call left it. *)
Theorem promoteToAdmin_idempotent
  (rid tid : string) (e : Env) (w : World) (t : User.t) (w1 : World) (e2 : Env) :
  AuthService.promoteToAdmin rid tid e w = (Ok t, w1) ->
  rid <> tid ->
  fails e2 UserFindOne = false ->
  fails e2 UserSave = false ->
  AuthService.promoteToAdmin rid tid e2 w1 = (Ok t, w1).
Proof.
  rewrite !promoteToAdmin_unfold. intros Hrun Hne Hf Hs. rewrite Hf, Hs.
  destruct (fails e UserFindOne); [discriminate |].
  destruct (find (has_id rid) (users w)) as [r |] eqn:Er; [| discriminate].
  destruct (UserRole_eqb (User.role r) SUPER_ADMIN) eqn:Hr; [| discriminate].
  destruct (find (has_id tid) (users w)) as [t0 |] eqn:Et; [| discriminate].
  destruct (fails e UserSave); [discriminate |].
  injection Hrun as <- <-. cbn [users set_users].
  destruct (find_has_id _ _ Et) as [Hid _].
  destruct (find_has_id _ _ Er) as [Hrid _].
  rewrite find_map_stable by (intros v; apply overwrite_has_id).
  rewrite Er. cbn [option_map].
  assert (overwrite (with_role ADMIN t0) r = r) as ->.
  { unfold overwrite. destruct (has_id (User.id (with_role ADMIN t0)) r) eqn:E;
      [| reflexivity].
    apply has_id_eq in E. simpl in E. congruence. }
  rewrite Hr.
  rewrite (@find_overwrite (has_id tid) (with_role ADMIN t0) t0 (users w) Et eq_refl)
    by (now apply has_id_eq).
  f_equal. unfold set_users. simpl. f_equal.
  rewrite map_map. apply map_ext. intros v.
  change (with_role ADMIN (with_role ADMIN t0)) with (with_role ADMIN t0).
  apply overwrite_idem.
Qed.

(** X12. A super admin who promotes themselves loses the right to promote:
    after a successful [promoteToAdmin] whose target is the requester, every
    later [promoteToAdmin] by that requester fails with [Unauthorized]. *)
Theorem self_promotion_locks_out
  (rid : string) (e : Env) (w : World) (t : User.t) (w1 : World)
  (e2 : Env) (target : string) :
  AuthService.promoteToAdmin rid rid e w = (Ok t, w1) ->
  fails e2 UserFindOne = false ->
  AuthService.promoteToAdmin rid target e2 w1 = (Throw Unauthorized, w1).
Proof.
  rewrite !promoteToAdmin_unfold. intros Hrun Hf. rewrite Hf.
  destruct (fails e UserFindOne); [discriminate |].
  destruct (find (has_id rid) (users w)) as [r |] eqn:Er; [| discriminate].
  destruct (UserRole_eqb (User.role r) SUPER_ADMIN); [| discriminate].
  destruct (fails e UserSave); [discriminate |].
  injection Hrun as <- <-. cbn [users set_users].
  rewrite (@find_overwrite (has_id rid) (with_role ADMIN r) r (users w) Er eq_refl)
    by (apply has_id_eq; simpl; now destruct (find_has_id _ _ Er)).
  reflexivity.
Qed.

(** ** What logging in and refreshing leave alone *)

Lemma same_account_rotated `{Bcrypt} (e : Env) (i : string) (t : Tokens.t) (w : World) :
  Forall2 (fun u u' => same_account u u' /\ (User.id u <> i -> u' = u))
    (users w) (users (rotated e i t w)).
Proof.
  simpl. induction (users w) as [| a l IH]; simpl; constructor; [| exact IH].
  split; [apply bind_refreshToken_same_account |].
  intros Hne. unfold bind_refreshToken.
  destruct (has_id i a) eqn:E; [| reflexivity].
  apply has_id_eq in E. contradiction.
Qed.

Lemma same_account_refl (l : list User.t) (i : string) :
  Forall2 (fun u u' => same_account u u' /\ (User.id u <> i -> u' = u)) l l.
Proof.
  induction l as [| a l IH]; constructor; [| exact IH].
  unfold same_account. auto.
Qed.

(** X13. [login] and [refreshTokens] write nothing but the refresh-token
    digest of the authenticated user: however they end, every row keeps its
    key, email, password and role, the reset requests and the outbox are as
    before, and after a successful call every row of another user is
    untouched. *)
Theorem sessions_touch_only_the_digest `{Bcrypt} `{Jwt} (config : Config)
  (e : Env) (w : World) :
  (forall d,
     let w' := snd (AuthService.login config d e w) in
     Forall2 same_account (users w) (users w')
     /\ passwordResets w' = passwordResets w /\ outbox w' = outbox w)
  /\ (forall refreshToken,
        let w' := snd (AuthService.refreshTokens config refreshToken e w) in
        Forall2 same_account (users w) (users w')
        /\ passwordResets w' = passwordResets w /\ outbox w' = outbox w)
  /\ (forall d tokens w',
        AuthService.login config d e w = (Ok tokens, w') ->
        exists u,
          find (has_email (LogInDto.email d)) (users w) = Some u
          /\ Forall2 (fun v v' => User.id v <> User.id u -> v' = v)
               (users w) (users w')).
Proof.
  assert (forall i t,
            Forall2 same_account (users w) (users (rotated e i t w))) as Hrot.
  { intros i t. eapply Forall2_impl; [| apply same_account_rotated].
    intros a b [Hs _]. exact Hs. }
  assert (Forall2 same_account (users w) (users w)) as Hrefl.
  { eapply Forall2_impl; [| apply (same_account_refl (users w) "")].
    intros a b [Hs _]. exact Hs. }
  split; [| split].
  - intros d. cbv zeta. rewrite login_unfold.
    destruct (fails e UserFindOne); [auto |].
    destruct (find _ (users w)) as [u |]; [| auto].
    destruct (bcrypt_compare _ _); [| auto].
    destruct (fails e UserUpdate); [auto |].
    split; [apply Hrot | auto].
  - intros tok. cbv zeta. rewrite refreshTokens_unfold.
    destruct (jwt_decode _ tok) as [c |]; [| auto].
    destruct (Claims.exp c <=? now e / 1000); [auto |].
    destruct (fails e UserFindOne); [auto |].
    destruct (find _ (users w)) as [u |]; [| auto].
    destruct (truthy _); [| auto].
    destruct (bcrypt_compare _ _); [| auto].
    destruct (fails e UserUpdate); [auto |].
    split; [apply Hrot | auto].
  - intros d tokens w'. rewrite login_unfold.
    destruct (fails e UserFindOne); [discriminate |].
    destruct (find _ (users w)) as [u |]; [| discriminate].
    destruct (bcrypt_compare _ _); [| discriminate].
    destruct (fails e UserUpdate); [discriminate |].
    intros [= <- <-]. exists u. split; [reflexivity |].
    eapply Forall2_impl; [| apply same_account_rotated].
    intros a b [_ Hs]. exact Hs.
Qed.

(* ================================================================== *)
(** * Portfolios *)

Local Open Scope portfolio_scope.

Lemma storage_eta (st : Storage) :
  {| world := world st; portfolios := portfolios st |} = st.
Proof. now destruct st. Qed.

Ltac unfold_portfolios :=
  unfold AuthServicePortfolios.createPortfolio, AuthServicePortfolios.updatePortfolio,
    AuthServicePortfolios.deletePortfolio, AuthServicePortfolios.getUserPortfolios,
    portfolioRepository.findOne, portfolioRepository.find_by_user,
    portfolioRepository.save_created, portfolioRepository.save,
    portfolioRepository.remove, lift, userRepository.findOne,
    bindP, awaitP, askP, resolve, reject, await.

Lemma createPortfolio_unfold (settings : PortfolioSettings) (userId : string)
  (dto : CreatePortfolioDto.t) (file : option UploadedFile.t)
  (s : Surroundings) (st : Storage) :
  AuthServicePortfolios.createPortfolio settings userId dto file s st =
  match file with
  | None => (Rejected (BadRequestException "File is required"), st)
  | Some f =>
      if negb (existsb (String.eqb (UploadedFile.mimetype f)) (allowedMimeTypes settings))
      then (Rejected InvalidFileType, st)
      else if maxFileSize settings <? UploadedFile.size f
      then (Rejected FileTooLarge, st)
      else if fails (env s) UserFindOne
      then (Rejected (QueryFailedError UserFindOne), st)
      else
        match find (has_id userId) (users (world st)) with
        | None => (Rejected (UnauthorizedException "User not found"), st)
        | Some _ =>
            if rejects s PortfolioSave then (RejectedByPortfolios PortfolioSave, st)
            else if existsb (has_portfolio_id (uuid (env s))) (portfolios st)
            then (RejectedByPortfolios PortfolioSave, st)
            else (Resolved (created s userId dto f),
                  {| world := world st;
                     portfolios := portfolios st ++ [created s userId dto f] |})
        end
  end.
Proof.
  unfold_portfolios. destruct file as [f |]; [| reflexivity].
  destruct (negb _); [reflexivity |].
  destruct (maxFileSize settings <? UploadedFile.size f); [reflexivity |].
  destruct (fails (env s) UserFindOne); [now rewrite storage_eta |].
  destruct (find (has_id userId) (users (world st))) as [u |] eqn:Eu;
    cbn [world portfolios]; [| now rewrite storage_eta].
  destruct (find_has_id _ _ Eu) as [Hid _].
  destruct (rejects s PortfolioSave); [now rewrite storage_eta |].
  destruct (existsb _ (portfolios st)); cbn [world portfolios];
    [now rewrite storage_eta |].
  unfold created. now rewrite Hid.
Qed.

Lemma findOne_portfolio_unfold (portfolioId : string) (s : Surroundings) (st : Storage) :
  portfolioRepository.findOne portfolioId s st =
  if rejects s PortfolioFindOne then (RejectedByPortfolios PortfolioFindOne, st)
  else (Resolved
          match find (has_portfolio_id portfolioId) (portfolios st) with
          | Some p => Some (p, find (has_id (Portfolio.user p)) (users (world st)))
          | None => None
          end, st).
Proof.
  unfold portfolioRepository.findOne, awaitP.
  destruct (rejects s PortfolioFindOne); [reflexivity |]. now rewrite storage_eta.
Qed.

Lemma updatePortfolio_unfold (settings : PortfolioSettings) (userId portfolioId : string)
  (dto : PartialPortfolioDto.t) (file : option UploadedFile.t)
  (s : Surroundings) (st : Storage) :
  AuthServicePortfolios.updatePortfolio settings userId portfolioId dto file s st =
  if rejects s PortfolioFindOne then (RejectedByPortfolios PortfolioFindOne, st) else
  match find (has_portfolio_id portfolioId) (portfolios st) with
  | None => (Rejected AccessDenied, st)
  | Some p =>
      match find (has_id (Portfolio.user p)) (users (world st)) with
      | None => (Rejected (TypeError "Cannot read properties of null (reading 'id')"), st)
      | Some o =>
          if negb (String.eqb (User.id o) userId) then (Rejected AccessDenied, st)
          else
            match file with
            | Some f =>
                if negb (existsb (String.eqb (UploadedFile.mimetype f))
                           (allowedMimeTypes settings))
                then (Rejected InvalidFileType, st)
                else if maxFileSize settings <? UploadedFile.size f
                then (Rejected FileTooLarge, st)
                else if rejects s PortfolioSave
                then (RejectedByPortfolios PortfolioSave, st)
                else (Resolved (updated dto file p),
                      {| world := world st;
                         portfolios :=
                           map (overwrite_portfolio (updated dto file p)) (portfolios st) |})
            | None =>
                if rejects s PortfolioSave
                then (RejectedByPortfolios PortfolioSave, st)
                else (Resolved (updated dto file p),
                      {| world := world st;
                         portfolios :=
                           map (overwrite_portfolio (updated dto file p)) (portfolios st) |})
            end
      end
  end.
Proof.
  unfold AuthServicePortfolios.updatePortfolio, bindP.
  rewrite findOne_portfolio_unfold.
  destruct (rejects s PortfolioFindOne); [reflexivity |].
  destruct (find (has_portfolio_id portfolioId) (portfolios st)) as [p |] eqn:Ep;
    [| reflexivity].
  destruct (find (has_id (Portfolio.user p)) (users (world st))) as [o |];
    [| reflexivity].
  destruct (negb (String.eqb (User.id o) userId)); [reflexivity |].
  assert (Hex : forall q,
            Portfolio.id q = Portfolio.id p ->
            existsb (has_portfolio_id (Portfolio.id q)) (portfolios st) = true).
  { intros q Hq. rewrite Hq. apply existsb_exists. exists p.
    apply find_some in Ep. destruct Ep as [Hin Hp]. split; [exact Hin |].
    unfold has_portfolio_id. apply String.eqb_refl. }
  assert (Hid : forall f, Portfolio.id (updated dto f p) = Portfolio.id p).
  { intros f. unfold updated, assign_if_truthy.
    destruct (truthy (PartialPortfolioDto.title dto)),
      (truthy (PartialPortfolioDto.description dto)), f; reflexivity. }
  destruct file as [f |].
  - destruct (negb _); [reflexivity |].
    destruct (maxFileSize settings <? UploadedFile.size f); [reflexivity |].
    unfold portfolioRepository.save, awaitP.
    destruct (rejects s PortfolioSave); [reflexivity |].
    change (with_fileUrl _ _) with (updated dto (Some f) p).
    now rewrite (Hex _ (Hid (Some f))).
  - unfold portfolioRepository.save, awaitP.
    destruct (rejects s PortfolioSave); [reflexivity |].
    change (assign_if_truthy (PartialPortfolioDto.description dto) _ _)
      with (updated dto None p).
    now rewrite (Hex _ (Hid None)).
Qed.

Lemma deletePortfolio_unfold (userId portfolioId : string)
  (s : Surroundings) (st : Storage) :
  AuthServicePortfolios.deletePortfolio userId portfolioId s st =
  if rejects s PortfolioFindOne then (RejectedByPortfolios PortfolioFindOne, st) else
  match find (has_portfolio_id portfolioId) (portfolios st) with
  | None => (Rejected AccessDenied, st)
  | Some p =>
      match find (has_id (Portfolio.user p)) (users (world st)) with
      | None => (Rejected (TypeError "Cannot read properties of null (reading 'id')"), st)
      | Some o =>
          if negb (String.eqb (User.id o) userId) then (Rejected AccessDenied, st)
          else if rejects s PortfolioRemove
          then (RejectedByPortfolios PortfolioRemove, st)
          else (Resolved tt,
                {| world := world st;
                   portfolios :=
                     filter (fun q => negb (has_portfolio_id portfolioId q))
                            (portfolios st) |})
      end
  end.
Proof.
  unfold AuthServicePortfolios.deletePortfolio, bindP.
  rewrite findOne_portfolio_unfold.
  destruct (rejects s PortfolioFindOne); [reflexivity |].
  destruct (find (has_portfolio_id portfolioId) (portfolios st)) as [p |] eqn:Ep;
    [| reflexivity].
  destruct (find (has_id (Portfolio.user p)) (users (world st))) as [o |];
    [| reflexivity].
  destruct (negb (String.eqb (User.id o) userId)); [reflexivity |].
  unfold portfolioRepository.remove, awaitP.
  destruct (rejects s PortfolioRemove); [reflexivity |].
  apply find_some in Ep. destruct Ep as [_ Hp].
  unfold has_portfolio_id in Hp. apply String.eqb_eq in Hp. now rewrite Hp.
Qed.

(** X14. [createPortfolio] stores a portfolio only when a file is given, its
    type is one of the allowed ones, its size does not exceed the limit and
    the user exists; the stored row then belongs to that user, and the tables
    of the core are untouched.  A call that ends any other way leaves every
    table as it was. *)
Theorem createPortfolio_guards (settings : PortfolioSettings) (userId : string)
  (dto : CreatePortfolioDto.t) (file : option UploadedFile.t)
  (s : Surroundings) (st : Storage) :
  match AuthServicePortfolios.createPortfolio settings userId dto file s st with
  | (Resolved p, st') =>
      exists f u,
        file = Some f
        /\ In (UploadedFile.mimetype f) (allowedMimeTypes settings)
        /\ UploadedFile.size f <= maxFileSize settings
        /\ find (has_id userId) (users (world st)) = Some u
        /\ p = created s userId dto f
        /\ Portfolio.user p = userId
        /\ portfolios st' = portfolios st ++ [p]
        /\ world st' = world st
  | (_, st') => st' = st
  end.
Proof.
  rewrite createPortfolio_unfold. destruct file as [f |]; [| reflexivity].
  destruct (existsb (String.eqb (UploadedFile.mimetype f)) (allowedMimeTypes settings))
    eqn:Em; [| reflexivity]. cbn [negb].
  destruct (maxFileSize settings <? UploadedFile.size f) eqn:Es; [reflexivity |].
  destruct (fails (env s) UserFindOne); [reflexivity |].
  destruct (find (has_id userId) (users (world st))) as [u |]; [| reflexivity].
  destruct (rejects s PortfolioSave); [reflexivity |].
  destruct (existsb _ (portfolios st)); [reflexivity |].
  exists f, u. repeat split; auto.
  - apply existsb_exists in Em. destruct Em as [m [Hin Hm]].
    apply String.eqb_eq in Hm. now rewrite Hm.
  - now apply Z.ltb_ge.
Qed.

(** X15. The checks of [createPortfolio] come in a fixed order, each with
    its own error: a missing file first, then a type that is not allowed,
    then a size above the limit (a file of exactly the limit passes), then an
    unknown user; when all pass and the generated key is free, the portfolio
    is stored. *)
Theorem createPortfolio_outcomes (settings : PortfolioSettings) (userId : string)
  (dto : CreatePortfolioDto.t) (s : Surroundings) (st : Storage) :
  fails (env s) UserFindOne = false ->
  rejects s PortfolioSave = false ->
  AuthServicePortfolios.createPortfolio settings userId dto None s st
  = (Rejected (BadRequestException "File is required"), st)
  /\ (forall f,
        ~ In (UploadedFile.mimetype f) (allowedMimeTypes settings) ->
        AuthServicePortfolios.createPortfolio settings userId dto (Some f) s st
        = (Rejected InvalidFileType, st))
  /\ (forall f,
        In (UploadedFile.mimetype f) (allowedMimeTypes settings) ->
        maxFileSize settings < UploadedFile.size f ->
        AuthServicePortfolios.createPortfolio settings userId dto (Some f) s st
        = (Rejected FileTooLarge, st))
  /\ (forall f,
        In (UploadedFile.mimetype f) (allowedMimeTypes settings) ->
        UploadedFile.size f <= maxFileSize settings ->
        find (has_id userId) (users (world st)) = None ->
        AuthServicePortfolios.createPortfolio settings userId dto (Some f) s st
        = (Rejected (UnauthorizedException "User not found"), st))
  /\ (forall f u,
        In (UploadedFile.mimetype f) (allowedMimeTypes settings) ->
        UploadedFile.size f <= maxFileSize settings ->
        find (has_id userId) (users (world st)) = Some u ->
        existsb (has_portfolio_id (uuid (env s))) (portfolios st) = false ->
        AuthServicePortfolios.createPortfolio settings userId dto (Some f) s st
        = (Resolved (created s userId dto f),
           {| world := world st;
              portfolios := portfolios st ++ [created s userId dto f] |})).
Proof.
  intros Hf Hs.
  assert (Hin : forall f, In (UploadedFile.mimetype f) (allowedMimeTypes settings) ->
                existsb (String.eqb (UploadedFile.mimetype f)) (allowedMimeTypes settings)
                = true).
  { intros f Hm. apply existsb_exists. exists (UploadedFile.mimetype f).
    split; [exact Hm | apply String.eqb_refl]. }
  split; [reflexivity |]. split; [| split; [| split]].
  - intros f Hm. rewrite createPortfolio_unfold.
    destruct (existsb _ (allowedMimeTypes settings)) eqn:E; [| reflexivity].
    exfalso. apply Hm. apply existsb_exists in E. destruct E as [m [Hi He]].
    apply String.eqb_eq in He. now rewrite He.
  - intros f Hm Hsz. rewrite createPortfolio_unfold, (Hin f Hm). cbn [negb].
    now rewrite (proj2 (Z.ltb_lt _ _) Hsz).
  - intros f Hm Hsz Hu. rewrite createPortfolio_unfold, (Hin f Hm). cbn [negb].
    now rewrite (proj2 (Z.ltb_ge _ _) Hsz), Hf, Hu.
  - intros f u Hm Hsz Hu Hk. rewrite createPortfolio_unfold, (Hin f Hm). cbn [negb].
    now rewrite (proj2 (Z.ltb_ge _ _) Hsz), Hf, Hu, Hs, Hk.
Qed.

(** *** File names in URLs *)









(** *** Ownership *)

(** X17. Only the owner can change or delete a portfolio: for a portfolio
    whose owner is another user, [updatePortfolio] and [deletePortfolio] are
    rejected with the error they give for a portfolio that does not exist,
    and nothing is written. *)
Theorem portfolio_access_denied (settings : PortfolioSettings)
  (userId portfolioId : string) (dto : PartialPortfolioDto.t)
  (file : option UploadedFile.t) (s : Surroundings) (st : Storage) :
  rejects s PortfolioFindOne = false ->
  (find (has_portfolio_id portfolioId) (portfolios st) = None
   \/ exists p o,
        find (has_portfolio_id portfolioId) (portfolios st) = Some p
        /\ find (has_id (Portfolio.user p)) (users (world st)) = Some o
        /\ User.id o <> userId) ->
  AuthServicePortfolios.updatePortfolio settings userId portfolioId dto file s st
  = (Rejected AccessDenied, st)
  /\ AuthServicePortfolios.deletePortfolio userId portfolioId s st
     = (Rejected AccessDenied, st).
Proof.
  intros Hf Hcase. rewrite updatePortfolio_unfold, deletePortfolio_unfold, Hf.
  destruct Hcase as [-> | [p [o [-> [-> Hne]]]]]; [split; reflexivity |].
  apply String.eqb_neq in Hne. rewrite Hne. split; reflexivity.
Qed.

Lemma updated_fixed_fields (dto : PartialPortfolioDto.t) (file : option UploadedFile.t)
  (p : Portfolio.t) :
  Portfolio.id (updated dto file p) = Portfolio.id p
  /\ Portfolio.user (updated dto file p) = Portfolio.user p
  /\ Portfolio.createdAt (updated dto file p) = Portfolio.createdAt p.
Proof.
  unfold updated, assign_if_truthy.
  destruct (truthy (PartialPortfolioDto.title dto)),
    (truthy (PartialPortfolioDto.description dto)), file; auto.
Qed.

(** X18. [updatePortfolio] succeeds only for the owner and never moves a
    portfolio: the row written back keeps its key, its owner and its
    creation time; a title or description that is missing or empty in the
    request leaves the stored one in place; the file URL changes only when a
    file is given.  A call that ends any other way leaves every table as it
    was, also when the file is refused after the new title was taken. *)
Theorem updatePortfolio_effect (settings : PortfolioSettings)
  (userId portfolioId : string) (dto : PartialPortfolioDto.t)
  (file : option UploadedFile.t) (s : Surroundings) (st : Storage) :
  match AuthServicePortfolios.updatePortfolio settings userId portfolioId dto file s st with
  | (Resolved p', st') =>
      exists p,
        find (has_portfolio_id portfolioId) (portfolios st) = Some p
        /\ Portfolio.user p = userId
        /\ Portfolio.id p' = Portfolio.id p
        /\ Portfolio.user p' = Portfolio.user p
        /\ Portfolio.createdAt p' = Portfolio.createdAt p
        /\ Portfolio.title p'
           = match truthy (PartialPortfolioDto.title dto) with
             | Some t => t
             | None => Portfolio.title p
             end
        /\ Portfolio.description p'
           = match truthy (PartialPortfolioDto.description dto) with
             | Some d => d
             | None => Portfolio.description p
             end
        /\ (file = None -> Portfolio.fileUrl p' = Portfolio.fileUrl p)
        /\ portfolios st' = map (overwrite_portfolio p') (portfolios st)
        /\ world st' = world st
  | (_, st') => st' = st
  end.
Proof.
  rewrite updatePortfolio_unfold.
  destruct (rejects s PortfolioFindOne); [reflexivity |].
  destruct (find (has_portfolio_id portfolioId) (portfolios st)) as [p |]; [| reflexivity].
  destruct (find (has_id (Portfolio.user p)) (users (world st))) as [o |] eqn:Eo;
    [| reflexivity].
  destruct (String.eqb (User.id o) userId) eqn:Ei; [| reflexivity]. cbn [negb].
  apply String.eqb_eq in Ei. destruct (find_has_id _ _ Eo) as [Hid _].
  destruct (updated_fixed_fields dto file p) as (H1 & H2 & H3).
  assert (Hok : exists p0 : Portfolio.t,
             Some p = Some p0 /\ Portfolio.user p0 = userId
             /\ Portfolio.id (updated dto file p) = Portfolio.id p0
             /\ Portfolio.user (updated dto file p) = Portfolio.user p0
             /\ Portfolio.createdAt (updated dto file p) = Portfolio.createdAt p0
             /\ Portfolio.title (updated dto file p)
                = match truthy (PartialPortfolioDto.title dto) with
                  | Some t => t
                  | None => Portfolio.title p0
                  end
             /\ Portfolio.description (updated dto file p)
                = match truthy (PartialPortfolioDto.description dto) with
                  | Some d => d
                  | None => Portfolio.description p0
                  end
             /\ (file = None ->
                 Portfolio.fileUrl (updated dto file p) = Portfolio.fileUrl p0)).
  { exists p. repeat split; auto; try congruence.
    - unfold updated, assign_if_truthy.
      destruct (truthy (PartialPortfolioDto.title dto)),
        (truthy (PartialPortfolioDto.description dto)), file; reflexivity.
    - unfold updated, assign_if_truthy.
      destruct (truthy (PartialPortfolioDto.title dto)),
        (truthy (PartialPortfolioDto.description dto)), file; reflexivity.
    - intros ->. unfold updated, assign_if_truthy.
      destruct (truthy (PartialPortfolioDto.title dto)),
        (truthy (PartialPortfolioDto.description dto)); reflexivity. }
  destruct Hok as [p0 (Hp & Hrest)].
  destruct file as [f |].
  - destruct (negb _); [reflexivity |].
    destruct (maxFileSize settings <? UploadedFile.size f); [reflexivity |].
    destruct (rejects s PortfolioSave); [reflexivity |].
    exists p0. cbn [portfolios world]. tauto.
  - destruct (rejects s PortfolioSave); [reflexivity |].
    exists p0. cbn [portfolios world]. tauto.
Qed.

(** X19. A successful [deletePortfolio] removes the portfolio and nothing
    else: the rows with another key are all still there, the tables of the
    core are untouched, and any later [deletePortfolio] or [updatePortfolio]
    of the same key is rejected as for a portfolio that does not exist. *)
Theorem deletePortfolio_effect (settings : PortfolioSettings)
  (userId portfolioId : string) (s : Surroundings) (st st' : Storage) :
  AuthServicePortfolios.deletePortfolio userId portfolioId s st = (Resolved tt, st') ->
  (forall q, In q (portfolios st')
             <-> In q (portfolios st) /\ Portfolio.id q <> portfolioId)
  /\ world st' = world st
  /\ (forall s2 anyone dto file,
        rejects s2 PortfolioFindOne = false ->
        AuthServicePortfolios.deletePortfolio anyone portfolioId s2 st'
        = (Rejected AccessDenied, st')
        /\ AuthServicePortfolios.updatePortfolio settings anyone portfolioId dto file s2 st'
           = (Rejected AccessDenied, st')).
Proof.
  rewrite deletePortfolio_unfold.
  destruct (rejects s PortfolioFindOne); [discriminate |].
  destruct (find (has_portfolio_id portfolioId) (portfolios st)) as [p |]; [| discriminate].
  destruct (find (has_id (Portfolio.user p)) (users (world st))) as [o |]; [| discriminate].
  destruct (negb (String.eqb (User.id o) userId)); [discriminate |].
  destruct (rejects s PortfolioRemove); [discriminate |].
  intros [= <-]. cbn [portfolios world].
  assert (Hq : forall q, In q (filter (fun q => negb (has_portfolio_id portfolioId q))
                                (portfolios st))
                         <-> In q (portfolios st) /\ Portfolio.id q <> portfolioId).
  { intros q. rewrite filter_In. unfold has_portfolio_id.
    destruct (String.eqb (Portfolio.id q) portfolioId) eqn:E; cbn [negb].
    - apply String.eqb_eq in E. split; [intros [_ Hd]; discriminate | tauto].
    - apply String.eqb_neq in E. tauto. }
  split; [exact Hq |]. split; [reflexivity |].
  intros s2 anyone dto file Hf.
  rewrite deletePortfolio_unfold, updatePortfolio_unfold, Hf. cbn [portfolios].
  destruct (find (has_portfolio_id portfolioId)
              (filter (fun q => negb (has_portfolio_id portfolioId q)) (portfolios st)))
    as [x |] eqn:Ex; [| split; reflexivity].
  exfalso. apply find_some in Ex. destruct Ex as [Hin Hx].
  apply Hq in Hin. destruct Hin as [_ Hne]. apply Hne.
  unfold has_portfolio_id in Hx. now apply String.eqb_eq.
Qed.

(** *** Listing *)

Lemma insert_newest_first_perm (p : Portfolio.t) (l : list Portfolio.t) :
  Permutation (insert_newest_first p l) (p :: l).
Proof.
  induction l as [| q l IH]; simpl; [reflexivity |].
  destruct (Portfolio.createdAt q <=? Portfolio.createdAt p); [reflexivity |].
  rewrite IH. apply perm_swap.
Qed.

Lemma newest_first_perm (l : list Portfolio.t) : Permutation (newest_first l) l.
Proof.
  induction l as [| p l IH]; simpl; [reflexivity |].
  rewrite insert_newest_first_perm. now constructor.
Qed.

Lemma insert_newest_first_sorted (p : Portfolio.t) (l : list Portfolio.t) :
  Sorted not_older l -> Sorted not_older (insert_newest_first p l).
Proof.
  induction l as [| q l IH]; simpl; intros Hs; [repeat constructor |].
  destruct (Portfolio.createdAt q <=? Portfolio.createdAt p) eqn:E.
  - apply Z.leb_le in E. constructor; [exact Hs |]. constructor. exact E.
  - apply Z.leb_gt in E. inversion Hs as [| a b Hl Hh]; subst.
    assert (Hqp : not_older q p) by (unfold not_older; lia).
    constructor; [now apply IH |].
    destruct l as [| r l]; simpl.
    + constructor. exact Hqp.
    + destruct (Portfolio.createdAt r <=? Portfolio.createdAt p);
        constructor; [exact Hqp |]. now inversion Hh.
Qed.

Lemma newest_first_sorted (l : list Portfolio.t) : Sorted not_older (newest_first l).
Proof.
  induction l as [| p l IH]; simpl; [constructor |].
  now apply insert_newest_first_sorted.
Qed.

Lemma not_older_trans : Relations_1.Transitive not_older.
Proof. intros a b c. unfold not_older. lia. Qed.

Lemma newest_first_owned (userId : string) (ps : list Portfolio.t) (p : Portfolio.t) :
  In p (newest_first (filter (owned_by userId) ps))
  <-> In p ps /\ Portfolio.user p = userId.
Proof.
  split.
  - intros Hin. apply (Permutation_in _ (newest_first_perm _)) in Hin.
    apply filter_In in Hin. destruct Hin as [Hin Ho]. split; [exact Hin |].
    now apply String.eqb_eq.
  - intros [Hin Ho].
    apply (Permutation_in _ (Permutation_sym (newest_first_perm _))).
    apply filter_In. split; [exact Hin |]. now apply String.eqb_eq.
Qed.

(** X20. [getUserPortfolios] lists exactly the portfolios of the user, each
    as often as it is stored, newest first, and reads only: every portfolio
    listed is at least as new as all that follow it, and no table changes. *)
Theorem getUserPortfolios_lists_own (userId : string) (s : Surroundings) (st : Storage) :
  rejects s PortfolioFind = false ->
  exists l,
    AuthServicePortfolios.getUserPortfolios userId s st = (Resolved l, st)
    /\ Permutation l (filter (owned_by userId) (portfolios st))
    /\ (forall p, In p l <-> In p (portfolios st) /\ Portfolio.user p = userId)
    /\ StronglySorted not_older l.
Proof.
  intros Hf. unfold_portfolios. rewrite Hf, storage_eta.
  eexists. split; [reflexivity |]. split; [apply newest_first_perm |]. split.
  - intros p. apply newest_first_owned.
  - apply Sorted_StronglySorted; [apply not_older_trans | apply newest_first_sorted].
Qed.

(** X21. A portfolio just created shows up in the list of its creator and in
    nobody else's: after a successful [createPortfolio], [getUserPortfolios]
    of the creator contains the new portfolio, and for every other user it
    answers as before. *)
Theorem createPortfolio_then_list (settings : PortfolioSettings) (userId : string)
  (dto : CreatePortfolioDto.t) (file : option UploadedFile.t)
  (s : Surroundings) (st : Storage) (p : Portfolio.t) (st' : Storage)
  (s2 : Surroundings) :
  AuthServicePortfolios.createPortfolio settings userId dto file s st = (Resolved p, st') ->
  rejects s2 PortfolioFind = false ->
  (exists l,
     AuthServicePortfolios.getUserPortfolios userId s2 st' = (Resolved l, st')
     /\ In p l)
  /\ (forall other,
        other <> userId ->
        fst (AuthServicePortfolios.getUserPortfolios other s2 st')
        = fst (AuthServicePortfolios.getUserPortfolios other s2 st)).
Proof.
  rewrite createPortfolio_unfold. intros Hrun Hf.
  destruct file as [f |]; [| discriminate].
  destruct (negb _); [discriminate |].
  destruct (maxFileSize settings <? UploadedFile.size f); [discriminate |].
  destruct (fails (env s) UserFindOne); [discriminate |].
  destruct (find (has_id userId) (users (world st))); [| discriminate].
  destruct (rejects s PortfolioSave); [discriminate |].
  destruct (existsb _ (portfolios st)); [discriminate |].
  injection Hrun as <- <-. unfold_portfolios. rewrite Hf. cbn [portfolios world fst].
  split.
  - eexists. split; [reflexivity |]. apply newest_first_owned.
    split; [apply in_or_app; right; now left | reflexivity].
  - intros other Hne. rewrite filter_app. cbn [filter]. unfold owned_by at 2.
    cbn [Portfolio.user created].
    apply not_eq_sym in Hne. apply String.eqb_neq in Hne. rewrite Hne.
    now rewrite app_nil_r.
Qed.

(** *** Keys *)

Lemma overwrite_portfolio_id (p q : Portfolio.t) :
  Portfolio.id (overwrite_portfolio p q) = Portfolio.id q.
Proof.
  unfold overwrite_portfolio, has_portfolio_id.
  destruct (String.eqb (Portfolio.id q) (Portfolio.id p)) eqn:E; [| reflexivity].
  apply String.eqb_eq in E. congruence.
Qed.

(** X27. Portfolio keys stay unique: when every key names one portfolio,
    it still does after [createPortfolio], [updatePortfolio] or
    [deletePortfolio], whatever they are given and however they end. *)
Theorem portfolio_keys_stay_unique (settings : PortfolioSettings)
  (s : Surroundings) (st : Storage) :
  portfolio_keys_unique st ->
  (forall userId dto file,
     portfolio_keys_unique
       (snd (AuthServicePortfolios.createPortfolio settings userId dto file s st)))
  /\ (forall userId portfolioId dto file,
        portfolio_keys_unique
          (snd (AuthServicePortfolios.updatePortfolio settings userId portfolioId
                  dto file s st)))
  /\ (forall userId portfolioId,
        portfolio_keys_unique
          (snd (AuthServicePortfolios.deletePortfolio userId portfolioId s st))).
Proof.
  unfold portfolio_keys_unique. intros Hst. split; [| split].
  - intros userId dto file. rewrite createPortfolio_unfold.
    destruct file as [f |]; [| exact Hst].
    destruct (negb _); [exact Hst |].
    destruct (maxFileSize settings <? UploadedFile.size f); [exact Hst |].
    destruct (fails (env s) UserFindOne); [exact Hst |].
    destruct (find (has_id userId) (users (world st))); [| exact Hst].
    destruct (rejects s PortfolioSave); [exact Hst |].
    destruct (existsb (has_portfolio_id (uuid (env s))) (portfolios st)) eqn:Ek;
      [exact Hst |].
    cbn [snd portfolios]. rewrite map_app. apply NoDup_snoc; [exact Hst |].
    cbn [Portfolio.id created]. intros Hin. apply in_map_iff in Hin.
    destruct Hin as [q [Hq Hin]].
    assert (existsb (has_portfolio_id (uuid (env s))) (portfolios st) = true) as Ht.
    { apply existsb_exists. exists q. split; [exact Hin |].
      unfold has_portfolio_id. now apply String.eqb_eq. }
    congruence.
  - intros userId portfolioId dto file. rewrite updatePortfolio_unfold.
    assert (forall p', NoDup (map Portfolio.id
                                (map (overwrite_portfolio p') (portfolios st)))) as Hmap.
    { intros p'. rewrite map_map.
      rewrite (map_ext _ Portfolio.id (overwrite_portfolio_id p')). exact Hst. }
    destruct (rejects s PortfolioFindOne); [exact Hst |].
    destruct (find (has_portfolio_id portfolioId) (portfolios st)) as [p |]; [| exact Hst].
    destruct (find (has_id (Portfolio.user p)) (users (world st))); [| exact Hst].
    destruct (negb _); [exact Hst |].
    destruct file as [f |].
    + destruct (negb _); [exact Hst |].
      destruct (maxFileSize settings <? UploadedFile.size f); [exact Hst |].
      destruct (rejects s PortfolioSave); [exact Hst | apply Hmap].
    + destruct (rejects s PortfolioSave); [exact Hst | apply Hmap].
  - intros userId portfolioId. rewrite deletePortfolio_unfold.
    destruct (rejects s PortfolioFindOne); [exact Hst |].
    destruct (find (has_portfolio_id portfolioId) (portfolios st)) as [p |]; [| exact Hst].
    destruct (find (has_id (Portfolio.user p)) (users (world st))); [| exact Hst].
    destruct (negb _); [exact Hst |].
    destruct (rejects s PortfolioRemove); [exact Hst |].
    cbn [snd portfolios]. now apply filter_keeps_keys_unique.
Qed.

(* ================================================================== *)
(** * Module wiring *)

Lemma truthy_some (v : option string) (s : string) :
  truthy v = Some s <-> v = Some s /\ s <> "".
Proof.
  destruct v as [x |]; simpl.
  - destruct (String.eqb x "") eqn:E.
    + apply String.eqb_eq in E. split; [discriminate |]. intros [[= ->] Hne]. contradiction.
    + apply String.eqb_neq in E. split.
      * intros [= ->]. auto.
      * intros [[= ->] _]. reflexivity.
  - split; [discriminate | intros [Hd _]; discriminate].
Qed.

(** X22. The factory of the JWT module refuses to start the module unless
    both secrets are set and non-empty; it names [JWT_SECRET] when that one
    is missing, whatever the other is, and [JWT_REFRESH_SECRET] otherwise;
    when it succeeds the module signs with [JWT_SECRET] for fifteen
    minutes. *)
Theorem useFactory_requires_both_secrets (get : string -> option string) :
  (forall o,
     AuthModule.useFactory get = Ok o
     <-> exists s r,
           get "JWT_SECRET" = Some s /\ s <> ""
           /\ get "JWT_REFRESH_SECRET" = Some r /\ r <> ""
           /\ o = {| JwtModuleOptions.secret := s; JwtModuleOptions.expiresIn := "15m" |})
  /\ (truthy (get "JWT_SECRET") = None ->
      AuthModule.useFactory get
      = Throw (Error "JWT_SECRET environment variable is required"))
  /\ (truthy (get "JWT_SECRET") <> None ->
      truthy (get "JWT_REFRESH_SECRET") = None ->
      AuthModule.useFactory get
      = Throw (Error "JWT_REFRESH_SECRET environment variable is required")).
Proof.
  unfold AuthModule.useFactory. split; [| split].
  - intros o. split.
    + destruct (truthy (get "JWT_SECRET")) as [s |] eqn:Es; [| discriminate].
      destruct (truthy (get "JWT_REFRESH_SECRET")) as [r |] eqn:Er; [| discriminate].
      intros [= <-]. apply truthy_some in Es. apply truthy_some in Er.
      exists s, r. tauto.
    + intros (s & r & Hs & Hsn & Hr & Hrn & ->).
      rewrite (proj2 (truthy_some _ s) (conj Hs Hsn)).
      now rewrite (proj2 (truthy_some _ r) (conj Hr Hrn)).
  - intros ->. reflexivity.
  - intros Hs ->. destruct (truthy (get "JWT_SECRET")); [reflexivity | contradiction].
Qed.

(* ================================================================== *)
(** * Scheduled backups *)

Section BackupTaskProperties.

Variable BackupType : Type.
Variable FULL : BackupType.

Ltac unfold_tasks :=
  unfold BackupTask.handleDailyBackup, BackupTask.handleWeeklyBackup,
    BackupTask.handleBackupCleanup, BackupTask.handleHealthCheck,
    BackupTask.executeBackup, BackupTask.createBackup, BackupTask.cleanupOldBackups,
    BackupTask.getBackupHealth, BackupTask.configService_get, BackupTask.write,
    BackupTask.try_catchT, BackupTask.bindT, BackupTask.retT, BackupTask.throwT.

(** What [executeBackup] returns and leaves behind, case by case. *)
Lemma executeBackup_unfold (days : Z) (kind : string) (a : BackupTask.Around) (t : BackupTask.Trace BackupType) :
  BackupTask.executeBackup FULL days kind a t =
  (inr tt,
   let start := {| BackupTask.level := BackupTask.LOG;
                   BackupTask.message := ("Starting " ++ kind ++ " backup...")%string;
                   BackupTask.detail := None |} in
   let failed x := {| BackupTask.level := BackupTask.ERROR;
                      BackupTask.message := (kind ++ " backup failed:")%string;
                      BackupTask.detail := Some (BackupTask.Caught x) |} in
   match truthy (BackupTask.get a "DB_NAME") with
   | None =>
       {| BackupTask.logs :=
            (BackupTask.logs t ++ [start])
            ++ [failed (BackupTask.JsError "DB_NAME environment variable is not set")];
          BackupTask.requested := BackupTask.requested t;
          BackupTask.cleanups := BackupTask.cleanups t |}
   | Some db =>
       let warned :=
         if BackupTask.aws_configured a then BackupTask.logs t ++ [start]
         else (BackupTask.logs t ++ [start])
              ++ [{| BackupTask.level := BackupTask.WARN;
                     BackupTask.message :=
                       "AWS credentials not configured, cross-region backup may fail";
                     BackupTask.detail := None |}] in
       {| BackupTask.logs :=
            warned
            ++ [match BackupTask.createBackup_ends a with
                | None =>
                    {| BackupTask.level := BackupTask.LOG;
                       BackupTask.message := (kind ++ " backup initiated successfully")%string;
                       BackupTask.detail := None |}
                | Some x => failed x
                end];
          BackupTask.requested :=
            BackupTask.requested t ++ [BackupTask.full_backup FULL db days];
          BackupTask.cleanups := BackupTask.cleanups t |}
   end).
Proof.
  unfold_tasks. unfold BackupTask.aws_configured, BackupTask.full_backup. cbn.
  destruct (truthy (BackupTask.get a "DB_NAME")) as [db |]; [| reflexivity].
  destruct (truthy (BackupTask.get a "AWS_ACCESS_KEY_ID")),
    (truthy (BackupTask.get a "AWS_SECRET_ACCESS_KEY")),
    (truthy (BackupTask.get a "AWS_BACKUP_BUCKET")),
    (BackupTask.createBackup_ends a); reflexivity.
Qed.

(** X23. No scheduled task ever rejects: whatever the configuration holds
    and however the backup service answers, the four handlers resolve. *)
Theorem handlers_never_reject (a : BackupTask.Around) (t : BackupTask.Trace BackupType) :
  fst (BackupTask.handleDailyBackup FULL a t) = inr tt
  /\ fst (BackupTask.handleWeeklyBackup FULL a t) = inr tt
  /\ fst (BackupTask.handleBackupCleanup a t) = inr tt
  /\ fst (BackupTask.handleHealthCheck a t) = inr tt.
Proof.
  unfold BackupTask.handleDailyBackup, BackupTask.handleWeeklyBackup.
  rewrite !executeBackup_unfold. repeat split.
  - unfold_tasks. cbn. destruct (BackupTask.cleanupOldBackups_ends a); reflexivity.
  - unfold_tasks. cbn. destruct (BackupTask.getBackupHealth_ends a) as [x | h];
      [reflexivity |].
    destruct (String.eqb (BackupTask.status h) "warning"); reflexivity.
Qed.

(** X24. A run asks the backup service for a backup exactly when [DB_NAME]
    is set and non-empty, and then for one only: a full, compressed,
    cross-region backup of that database, kept 7 days by the daily task and
    30 days by the weekly one, whether or not the AWS settings are there.  No
    clean-up is asked for. *)
Theorem backup_requested_iff_database (a : BackupTask.Around) (t : BackupTask.Trace BackupType) :
  BackupTask.requested (snd (BackupTask.handleDailyBackup FULL a t))
  = BackupTask.requested t
    ++ match truthy (BackupTask.get a "DB_NAME") with
       | Some db => [BackupTask.full_backup FULL db 7]
       | None => []
       end
  /\ BackupTask.requested (snd (BackupTask.handleWeeklyBackup FULL a t))
     = BackupTask.requested t
       ++ match truthy (BackupTask.get a "DB_NAME") with
          | Some db => [BackupTask.full_backup FULL db 30]
          | None => []
          end
  /\ BackupTask.cleanups (snd (BackupTask.handleDailyBackup FULL a t))
     = BackupTask.cleanups t
  /\ BackupTask.cleanups (snd (BackupTask.handleWeeklyBackup FULL a t))
     = BackupTask.cleanups t.
Proof.
  unfold BackupTask.handleDailyBackup, BackupTask.handleWeeklyBackup.
  rewrite !executeBackup_unfold. cbn [snd].
  destruct (truthy (BackupTask.get a "DB_NAME")); cbn; rewrite ?app_nil_r; auto.
Qed.

(** X25. The log of a backup run ends with an error entry exactly when the
    run did not get its backup started: when [DB_NAME] is missing or empty
    the entry carries the error of the task, when the service rejects it
    carries that rejection; otherwise the last entry reports success.  The
    first entry written is always the start message. *)
Theorem backup_log (days : Z) (kind : string) (a : BackupTask.Around) (t : BackupTask.Trace BackupType) :
  exists middle last,
    BackupTask.logs (snd (BackupTask.executeBackup FULL days kind a t))
    = BackupTask.logs t
      ++ {| BackupTask.level := BackupTask.LOG;
            BackupTask.message := ("Starting " ++ kind ++ " backup...")%string;
            BackupTask.detail := None |} :: middle ++ [last]
    /\ (forall m, In m middle -> BackupTask.level m = BackupTask.WARN)
    /\ (middle = [] <->
        truthy (BackupTask.get a "DB_NAME") = None \/ BackupTask.aws_configured a = true)
    /\ last
       = match truthy (BackupTask.get a "DB_NAME"), BackupTask.createBackup_ends a with
         | None, _ =>
             {| BackupTask.level := BackupTask.ERROR;
                BackupTask.message := (kind ++ " backup failed:")%string;
                BackupTask.detail :=
                  Some (BackupTask.Caught
                          (BackupTask.JsError "DB_NAME environment variable is not set")) |}
         | Some _, Some x =>
             {| BackupTask.level := BackupTask.ERROR;
                BackupTask.message := (kind ++ " backup failed:")%string;
                BackupTask.detail := Some (BackupTask.Caught x) |}
         | Some _, None =>
             {| BackupTask.level := BackupTask.LOG;
                BackupTask.message := (kind ++ " backup initiated successfully")%string;
                BackupTask.detail := None |}
         end.
Proof.
  rewrite executeBackup_unfold. cbn [snd]. cbv zeta.
  destruct (truthy (BackupTask.get a "DB_NAME")) as [db |].
  - destruct (BackupTask.aws_configured a) eqn:Ea;
      destruct (BackupTask.createBackup_ends a) as [x |]; cbn [BackupTask.logs].
    + eexists [], _. split; [rewrite <- app_assoc; reflexivity |].
      split; [intros m [] |]. split; [tauto | reflexivity].
    + eexists [], _. split; [rewrite <- app_assoc; reflexivity |].
      split; [intros m [] |]. split; [tauto | reflexivity].
    + eexists [_], _. split; [rewrite <- !app_assoc; reflexivity |].
      split; [intros m [<- | []]; reflexivity |].
      split; [split; [discriminate | intros [Hd | Hd]; discriminate] | reflexivity].
    + eexists [_], _. split; [rewrite <- !app_assoc; reflexivity |].
      split; [intros m [<- | []]; reflexivity |].
      split; [split; [discriminate | intros [Hd | Hd]; discriminate] | reflexivity].
  - eexists [], _. cbn [BackupTask.logs]. split; [rewrite <- app_assoc; reflexivity |].
    split; [intros m [] |]. split; [tauto | reflexivity].
Qed.

(** X26. The hourly health check writes a warning exactly when the service
    reports the status [warning], an error exactly when the service rejects,
    and nothing at all for any other status; it asks for no backup and no
    clean-up. *)
Theorem health_check_log (a : BackupTask.Around) (t : BackupTask.Trace BackupType) :
  BackupTask.logs (snd (BackupTask.handleHealthCheck a t))
  = BackupTask.logs t
    ++ match BackupTask.getBackupHealth_ends a with
       | inl x =>
           [{| BackupTask.level := BackupTask.ERROR;
               BackupTask.message := "Backup health check failed:";
               BackupTask.detail := Some (BackupTask.Caught x) |}]
       | inr h =>
           if String.eqb (BackupTask.status h) "warning"
           then [{| BackupTask.level := BackupTask.WARN;
                    BackupTask.message := "Backup system health warning:";
                    BackupTask.detail := Some (BackupTask.Report h) |}]
           else []
       end
  /\ BackupTask.requested (snd (BackupTask.handleHealthCheck a t)) = BackupTask.requested t
  /\ BackupTask.cleanups (snd (BackupTask.handleHealthCheck a t)) = BackupTask.cleanups t
  /\ (forall h, BackupTask.getBackupHealth_ends a = inr h ->
                BackupTask.status h <> "warning" ->
                snd (BackupTask.handleHealthCheck a t) = t).
Proof.
  unfold_tasks. destruct (BackupTask.getBackupHealth_ends a) as [x | h]; cbn.
  - repeat split. intros h [=].
  - destruct (String.eqb (BackupTask.status h) "warning") eqn:E; cbn.
    + repeat split. intros h0 [= <-] Hne. apply String.eqb_eq in E. contradiction.
    + rewrite app_nil_r. repeat split.
Qed.

End BackupTaskProperties.

Set Implicit Arguments.

(* ================================================================== *)
(** * The service on concrete inputs *)

Import Demo.

Lemma reliable_env (t : Z) (key random : string) : reliable (env t key random).
Proof. intros c. reflexivity. Defined.

Lemma promoteToAdmin_outcomes_witness :
  reliable (env 1000 "k" "r")
  /\ AuthService.promoteToAdmin "u-nobody" "u-alice" (env 1000 "k" "r") world
     = (Throw Unauthorized, world)
  /\ AuthService.promoteToAdmin "u-alice" "u-root" (env 1000 "k" "r") world
     = (Throw Unauthorized, world)
  /\ AuthService.promoteToAdmin "u-root" "u-nobody" (env 1000 "k" "r") world
     = (Throw TargetNotFound, world)
  /\ exists w',
       AuthService.promoteToAdmin "u-root" "u-alice" (env 1000 "k" "r") world
       = (Ok (with_role ADMIN alice), w')
       /\ find (has_id "u-alice") (users w') = Some (with_role ADMIN alice)
       /\ User.role (with_role ADMIN alice) = ADMIN.
Proof.
  pose (e := env 1000 "k" "r").
  assert (He : reliable e) by apply reliable_env.
  split; [exact He |].
  split.
  { apply (proj1 (promoteToAdmin_outcomes world "u-nobody" "u-alice" He)).
    reflexivity. }
  split.
  { apply (proj1 (proj2 (promoteToAdmin_outcomes world "u-alice" "u-root" He)))
      with (r := alice); [reflexivity | discriminate]. }
  split.
  { apply (proj1 (proj2 (proj2 (promoteToAdmin_outcomes world "u-root" "u-nobody" He))))
      with (r := root); reflexivity. }
  apply (proj2 (proj2 (proj2 (proj2
           (promoteToAdmin_outcomes world "u-root" "u-alice" He)))))
    with (r := root); reflexivity.
Defined.

(** C2, as stated, fails: a [SUPER_ADMIN] target is lowered to [ADMIN], and a
    [SUPER_ADMIN] who names themselves as target lowers their own role. *)
Lemma promoteToAdmin_lowers_super_admin :
  (exists w',
     AuthService.promoteToAdmin "u-root" "u-chief" (env 1000 "k" "r") world
     = (Ok (with_role ADMIN chief), w')
     /\ find (has_id "u-chief") (users world) = Some chief
     /\ find (has_id "u-chief") (users w') = Some (with_role ADMIN chief)
     /\ ~ role_le (User.role chief) (User.role (with_role ADMIN chief)))
  /\ (exists w',
     AuthService.promoteToAdmin "u-root" "u-root" (env 1000 "k" "r") world
     = (Ok (with_role ADMIN root), w')
     /\ find (has_id "u-root") (users world) = Some root
     /\ find (has_id "u-root") (users w') = Some (with_role ADMIN root)
     /\ User.role root = SUPER_ADMIN
     /\ User.role (with_role ADMIN root) = ADMIN).
Proof.
  split; eexists; (split; [vm_compute; reflexivity |]).
  - repeat split. unfold role_le. simpl. lia.
  - repeat split.
Qed.

(** C1, as stated, fails: on an empty table, a sequence made of a single
    [register] call, with no promotion in it, ends with an [ADMIN] user; and
    [register] returns an identity whose role is [ADMIN], or [SUPER_ADMIN],
    when the request asks for it. *)
Lemma register_yields_admin :
  (forall u, In u (users emptyWorld) -> User.role u <> ADMIN)
  /\ is_admin_in (exec config [(env 1000 "u-eve" "r", Register eve_admin)] emptyWorld)
       "u-eve"
  /\ (forall w i, ~ promoted_by_super_admin (Register eve_admin) w i)
  /\ (exists s w',
        AuthService.register eve_admin (env 1000 "u-eve" "r") emptyWorld = (Ok s, w')
        /\ SafeUser.role s = ADMIN)
  /\ (exists s w',
        AuthService.register eve_super_admin (env 1000 "u-eve" "r") emptyWorld
        = (Ok s, w')
        /\ SafeUser.role s = SUPER_ADMIN).
Proof.
  split; [intros u [] |].
  split; [eexists; simpl; split; [left; reflexivity | split; reflexivity] |].
  split; [intros w i [] |].
  split; do 2 eexists; (split; [vm_compute; reflexivity | reflexivity]).
Qed.

Lemma admin_only_by_promotion_or_registration_witness :
  (exists pre e o post,
     [(env 1000 "k" "r", PromoteToAdmin "u-root" "u-alice")] = pre ++ (e, o) :: post
     /\ (promoted_by_super_admin o (exec config pre world) "u-alice"
         \/ registered_as_admin o e "u-alice"))
  /\ SafeUser.role
       {| SafeUser.id := "u-eve"; SafeUser.email := "eve@x.com";
          SafeUser.role := ADMIN; SafeUser.refreshToken := None |}
     = RegisterDto.role eve_admin
  /\ (exists u, In u (users world) /\ User.id u = "u-alice" /\ User.role u = USER)
  /\ (exists u',
        find (has_id "u-alice") (users (run config (Login alice_login) (env 1000 "k" "r") world))
        = Some u'
        /\ User.role u' = USER).
Proof.
  assert (Hnone : forall u, In u (users world) -> User.role u <> ADMIN).
  { intros u [<- | [<- | [<- | []]]]; discriminate. }
  destruct (@admin_only_by_promotion_or_registration bcrypt jwt config
              [(env 1000 "k" "r", PromoteToAdmin "u-root" "u-alice")]
              world "u-alice" Hnone) as (Htrace & Hreg & Hback & Hforth).
  split; [| split; [| split]].
  - apply Htrace. exists (with_role ADMIN alice). simpl. auto.
  - eapply (proj1 (Hreg eve_admin (env 1000 "u-eve" "r") emptyWorld _ _ eq_refl)).
  - destruct (Hback (Login alice_login) (env 1000 "k" "r") world
                (bind_refreshToken "u-alice"
                   (bcrypt_hash "salt" alice_refresh_token 10) alice))
      as [Hkept | [[Hadmin _] | [d [Hop _]]]].
    + vm_compute. left. reflexivity.
    + exact Hkept.
    + vm_compute in Hadmin. discriminate Hadmin.
    + discriminate Hop.
  - destruct (Hforth (Login alice_login) (env 1000 "k" "r") world "u-alice" alice eq_refl)
      as [u' [Hfound [Hrole | [_ []]]]].
    exists u'. split; [exact Hfound | exact Hrole].
Defined.

(** C3, as stated, fails: with alice registered and the mail service
    rejecting, the caller of [sendPasswordResetEmail] receives the rejection
    instead of a success. *)
Lemma mail_failure_reaches_caller :
  find (has_email "alice@x.com") (users world) = Some alice
  /\ fails (env_mail_down 1000 "pr-1" "c0ffee") MailSend = true
  /\ fst (AuthService.sendPasswordResetEmail "alice@x.com"
            (env_mail_down 1000 "pr-1" "c0ffee") world)
     = Throw DeliveryError
  /\ fst (AuthService.sendPasswordResetEmail "alice@x.com"
            (env_mail_down 1000 "pr-1" "c0ffee") world)
     <> Ok tt.
Proof.
  repeat split; try reflexivity. vm_compute. discriminate.
Qed.



Lemma sendPasswordResetEmail_mail_failure_witness :
  AuthService.sendPasswordResetEmail "alice@x.com"
    (env_mail_down 1000 "pr-1" "c0ffee") world
  = (Throw DeliveryError,
     set_passwordResets
       (passwordResets world ++ [requested (env_mail_down 1000 "pr-1" "c0ffee") alice])
       world)
  /\ fst (AuthService.resetPassword "c0ffee" "pw2" (env 600000 "k" "r")
            (set_passwordResets
               (passwordResets world
                ++ [requested (env_mail_down 1000 "pr-1" "c0ffee") alice])
               world))
     = Ok tt.
Proof.
  destruct (@sendPasswordResetEmail_mail_failure bcrypt "alice@x.com"
              (env_mail_down 1000 "pr-1" "c0ffee") world alice
              eq_refl eq_refl eq_refl eq_refl eq_refl eq_refl)
    as [Hsend [_ Hvalid]].
  split; [exact Hsend |].
  apply Hvalid; [apply reliable_env | vm_compute; discriminate].
Defined.

(** C4.  The code at two failing inputs.  Alice logs in at 1000 ms and
    refreshes at 1500 ms: signed within the same second, the new refresh
    token is the old one, which is accepted once more at 1900 ms.  Carol logs
    in at 1000 ms and refreshes at 2500 ms: the new refresh token differs
    from the old one and its digest is the one stored, but the two tokens
    differ only after the 72 bytes the digest depends on, and the old token
    is accepted again at 4000 ms. *)
Lemma refresh_token_survives_rotation :
  (exists tokens w2,
     AuthService.login config alice_login (env 1000 "k" "r") world
     = (Ok tokens, world_logged_in)
     /\ Tokens.refreshToken tokens = alice_refresh_token
     /\ AuthService.refreshTokens config alice_refresh_token (env 1500 "k" "r")
          world_logged_in
        = (Ok tokens, w2)
     /\ fst (AuthService.refreshTokens config alice_refresh_token (env 1900 "k" "r") w2)
        = Ok tokens
     /\ fst (AuthService.refreshTokens config alice_refresh_token (env 1900 "k" "r") w2)
        <> Throw InvalidRefreshToken)
  /\ (exists tokens tokens' w2,
        AuthService.login config carol_login (env 1000 "k" "r") world_carol
        = (Ok tokens, world_carol_logged_in)
        /\ Tokens.refreshToken tokens = carol_refresh_token
        /\ AuthService.refreshTokens config carol_refresh_token (env 2500 "k" "r")
             world_carol_logged_in
           = (Ok tokens', w2)
        /\ Tokens.refreshToken tokens' <> carol_refresh_token
        /\ option_map User.refreshToken (find (has_id (User.id carol)) (users w2))
           = Some (Some (bcrypt_hash "salt" (Tokens.refreshToken tokens') 10))
        /\ fst (AuthService.refreshTokens config carol_refresh_token (env 4000 "k" "r") w2)
           = Ok (issued config (env 4000 "k" "r") (User.id carol) (User.email carol))
        /\ fst (AuthService.refreshTokens config carol_refresh_token (env 4000 "k" "r") w2)
           <> Throw InvalidRefreshToken).
Proof.
  split.
  - do 2 eexists.
    split; [vm_compute; reflexivity |].
    split; [reflexivity |].
    split; [vm_compute; reflexivity |].
    split; [vm_compute; reflexivity | vm_compute; discriminate].
  - do 3 eexists.
    split; [vm_compute; reflexivity |].
    split; [reflexivity |].
    split; [vm_compute; reflexivity |].
    split; [vm_compute; discriminate |].
    split; [vm_compute; reflexivity |].
    split; [vm_compute; reflexivity | vm_compute; discriminate].
Qed.

Lemma register_outcomes_witness :
  AuthService.register alice_again (env 1000 "u-bob" "r") world
  = (Throw EmailAlreadyExists, world)
  /\ AuthService.register bob_user (env 1000 "u-bob" "r") world
     = (Ok {| SafeUser.id := "u-bob"; SafeUser.email := "bob@x.com";
              SafeUser.role := USER; SafeUser.refreshToken := None |},
        set_users (users world ++ [registered (env 1000 "u-bob" "r") bob_user]) world)
  /\ User.password (registered (env 1000 "u-bob" "r") bob_user)
     = "$10$salt$2retnuh".
Proof.
  pose proof (@register_outcomes bcrypt alice_again (env 1000 "u-bob" "r") world
                (reliable_env 1000 "u-bob" "r")) as [Htaken _].
  pose proof (@register_outcomes bcrypt bob_user (env 1000 "u-bob" "r") world
                (reliable_env 1000 "u-bob" "r")) as [_ Hnew].
  split; [apply (Htaken alice); reflexivity |].
  destruct (Hnew eq_refl eq_refl) as [Hrun Hpw].
  split; [exact Hrun | exact Hpw].
Defined.

Lemma login_outcomes_witness :
  AuthService.login config nobody_login (env 1000 "k" "r") world
  = (Throw InvalidCredentials, world)
  /\ AuthService.login config alice_wrong_password (env 1000 "k" "r") world
     = (Throw InvalidCredentials, world)
  /\ exists w',
       AuthService.login config alice_login (env 1000 "k" "r") world
       = (Ok (issued config (env 1000 "k" "r") "u-alice" "alice@x.com"), w')
       /\ find (has_email "alice@x.com") (users w')
          = Some {| User.id := "u-alice"; User.email := "alice@x.com";
                    User.password := "$10$salt$1wp"; User.role := USER;
                    User.refreshToken :=
                      Some (bcrypt_hash "salt"
                              (Tokens.refreshToken
                                 (issued config (env 1000 "k" "r")
                                    "u-alice" "alice@x.com")) 10) |}
       /\ passwordResets w' = passwordResets world.
Proof.
  pose proof (@login_outcomes bcrypt jwt config nobody_login (env 1000 "k" "r") world
                (reliable_env 1000 "k" "r")) as [Hunknown _].
  pose proof (@login_outcomes bcrypt jwt config alice_wrong_password
                (env 1000 "k" "r") world (reliable_env 1000 "k" "r"))
    as [_ [Hwrong _]].
  pose proof (@login_outcomes bcrypt jwt config alice_login (env 1000 "k" "r") world
                (reliable_env 1000 "k" "r")) as [_ [_ Hright]].
  split; [apply Hunknown; reflexivity |].
  split; [apply (Hwrong alice); reflexivity |].
  apply (Hright alice); reflexivity.
Defined.



Lemma refreshTokens_single_error_witness :
  (* a bad signature *)
  AuthService.refreshTokens config forged_refresh_token (env 1500 "k" "r") world_logged_in
  = (Throw InvalidRefreshToken, world_logged_in)
  (* an expired token *)
  /\ AuthService.refreshTokens config alice_refresh_token (env 604801000 "k" "r")
       world_logged_in
     = (Throw InvalidRefreshToken, world_logged_in)
  (* no stored digest: alice has not logged in *)
  /\ AuthService.refreshTokens config alice_refresh_token (env 1500 "k" "r") world
     = (Throw InvalidRefreshToken, world)
  (* a valid token, and the table rejecting the update *)
  /\ AuthService.refreshTokens config alice_refresh_token (env_update_down 1500)
       world_logged_in
     = (Throw InvalidRefreshToken, world_logged_in).
Proof.
  pose (claims := {| Claims.sub := "u-alice"; Claims.email := "alice@x.com";
                     Claims.iat := 1; Claims.exp := 604801 |}).
  split.
  { apply (proj1 (proj2 (@refreshTokens_single_error bcrypt jwt config
                           forged_refresh_token (env 1500 "k" "r") world_logged_in))).
    reflexivity. }
  split.
  { apply (proj2 (proj2 (@refreshTokens_single_error bcrypt jwt config
                           alice_refresh_token (env 604801000 "k" "r") world_logged_in))
             claims eq_refl).
    left. vm_compute. discriminate. }
  split.
  { apply (proj2 (proj2 (@refreshTokens_single_error bcrypt jwt config
                           alice_refresh_token (env 1500 "k" "r") world))
             claims eq_refl).
    right. right. right. left. exists alice. split; reflexivity. }
  apply (proj2 (proj2 (@refreshTokens_single_error bcrypt jwt config
                         alice_refresh_token (env_update_down 1500) world_logged_in))
           claims eq_refl).
  right. right. right. right. right. reflexivity.
Defined.

(* ================================================================== *)
(** * The further properties on concrete inputs *)

Import Scenario.

Ltac distinct := repeat constructor; cbn; intuition discriminate.

Lemma consistent_world : consistent world.
Proof.
  unfold consistent. cbn. split; [distinct |]. split; [distinct |].
  split; [constructor |]. intros r [].
Defined.

Lemma consistent_world_reset_requested : consistent world_reset_requested.
Proof.
  unfold consistent. cbn. split; [distinct |]. split; [distinct |].
  split; [distinct |]. intros r [<- | []]. exists alice. split; [now left | reflexivity].
Defined.

Lemma consistent_world_two_requests : consistent world_two_requests.
Proof.
  unfold consistent. cbn. split; [distinct |]. split; [distinct |].
  split; [distinct |].
  intros r [<- | [<- | []]]; exists alice; (split; [now left | reflexivity]).
Defined.

Lemma consistent_exec_witness : consistent (exec config day world).
Proof. apply (@consistent_exec bcrypt jwt config day world consistent_world). Defined.

Lemma email_stays_taken_witness :
  AuthService.register alice_again (env 9000 "u-new" "r") (exec config day world)
  = (Throw EmailAlreadyExists, exec config day world).
Proof.
  apply (@email_stays_taken bcrypt jwt config day world alice alice_again
           (env 9000 "u-new" "r") consistent_world).
  - now left.
  - reflexivity.
  - reflexivity.
Defined.

Lemma resetPassword_in_consistent_world_witness :
  fst (AuthService.resetPassword "c0ffee" "pw2" (env 600000 "k" "r") world_reset_requested)
  = Ok tt
  \/ fst (AuthService.resetPassword "c0ffee" "pw2" (env 600000 "k" "r")
            world_reset_requested)
     = Throw InvalidOrExpiredResetToken.
Proof.
  apply (@resetPassword_in_consistent_world bcrypt "c0ffee" "pw2" (env 600000 "k" "r")
           world_reset_requested consistent_world_reset_requested
           (reliable_env 600000 "k" "r")).
Defined.

Lemma register_then_login_witness :
  (exists w2,
     AuthService.login config
       {| LogInDto.email := "bob@x.com"; LogInDto.password := "hunter2" |}
       (env 2000 "k" "r")
       (snd (AuthService.register bob_user (env 1000 "u-bob" "r") world))
     = (Ok (issued config (env 2000 "k" "r") "u-bob" "bob@x.com"), w2))
  /\ AuthService.login config
       {| LogInDto.email := "bob@x.com"; LogInDto.password := "hunter3" |}
       (env 2000 "k" "r")
       (snd (AuthService.register bob_user (env 1000 "u-bob" "r") world))
     = (Throw InvalidCredentials,
        snd (AuthService.register bob_user (env 1000 "u-bob" "r") world)).
Proof.
  destruct (@register_then_login bcrypt jwt config bob_user (env 1000 "u-bob" "r") world
              (SafeUser.of_user (registered (env 1000 "u-bob" "r") bob_user))
              (snd (AuthService.register bob_user (env 1000 "u-bob" "r") world))
              (env 2000 "k" "r") eq_refl (reliable_env 2000 "k" "r"))
    as [Hright Hwrong].
  split.
  - apply Hright. vm_compute. reflexivity.
  - apply Hwrong. vm_compute. reflexivity.
Defined.

Lemma login_then_refresh_witness :
  exists w1,
    AuthService.login config alice_login (env 1000 "k" "r") world
    = (Ok (issued config (env 1000 "k" "r") "u-alice" "alice@x.com"), w1)
    /\ (exists w2,
          AuthService.refreshTokens config alice_refresh_token (env 604800999 "k" "r") w1
          = (Ok (issued config (env 604800999 "k" "r") "u-alice" "alice@x.com"), w2))
    /\ AuthService.refreshTokens config alice_refresh_token (env 604801000 "k" "r") w1
       = (Throw InvalidRefreshToken, w1).
Proof.
  destruct (@login_then_refresh bcrypt jwt config alice_login (env 1000 "k" "r") world
              alice (env 604800999 "k" "r") consistent_world
              (reliable_env 1000 "k" "r") (reliable_env 604800999 "k" "r")
              eq_refl eq_refl eq_refl eq_refl)
    as [w1 [Hlogin [Hin _]]].
  { vm_compute. discriminate. }
  destruct (@login_then_refresh bcrypt jwt config alice_login (env 1000 "k" "r") world
              alice (env 604801000 "k" "r") consistent_world
              (reliable_env 1000 "k" "r") (reliable_env 604801000 "k" "r")
              eq_refl eq_refl eq_refl eq_refl)
    as [w1' [Hlogin' [_ Hout]]].
  { vm_compute. discriminate. }
  assert (w1' = w1) as -> by congruence.
  exists w1. split; [exact Hlogin |]. split.
  - apply Hin. vm_compute. reflexivity.
  - apply Hout. vm_compute. discriminate.
Defined.

Lemma resetPassword_then_login_witness :
  exists w1,
    AuthService.resetPassword "c0ffee" "pw2" (env 600000 "k" "r") world_reset_requested
    = (Ok tt, w1)
    /\ (exists w2,
          AuthService.login config
            {| LogInDto.email := "alice@x.com"; LogInDto.password := "pw2" |}
            (env 700000 "k" "r") w1
          = (Ok (issued config (env 700000 "k" "r") "u-alice" "alice@x.com"), w2))
    /\ AuthService.login config alice_login (env 700000 "k" "r") w1
       = (Throw InvalidCredentials, w1).
Proof.
  destruct (@resetPassword_then_login bcrypt jwt config "c0ffee" "pw2"
              (env 600000 "k" "r") world_reset_requested alice_request alice
              (env 700000 "k" "r") consistent_world_reset_requested
              (reliable_env 600000 "k" "r") (reliable_env 700000 "k" "r") eq_refl)
    as [w1 [Hreset [Hnew Hold]]].
  { vm_compute. discriminate. }
  { reflexivity. }
  exists w1. split; [exact Hreset |]. split.
  - apply (Hnew "pw2"). vm_compute. reflexivity.
  - apply (Hold "pw1"). vm_compute. reflexivity.
Defined.

Lemma resetPassword_keeps_other_requests_witness :
  exists w1,
    AuthService.resetPassword "c0ffee" "pw2" (env 600000 "k" "r") world_two_requests
    = (Ok tt, w1)
    /\ find (has_token "decaf") (passwordResets w1) = Some alice_second_request
    /\ fst (AuthService.resetPassword "decaf" "pw3" (env 700000 "k" "r") w1) = Ok tt.
Proof.
  apply (@resetPassword_keeps_other_requests bcrypt "c0ffee" "pw2" (env 600000 "k" "r")
           world_two_requests alice_request alice "decaf" alice_second_request
           (env 700000 "k" "r") "pw3" consistent_world_two_requests
           (reliable_env 600000 "k" "r") (reliable_env 700000 "k" "r") eq_refl).
  - vm_compute. discriminate.
  - reflexivity.
  - reflexivity.
  - discriminate.
  - vm_compute. discriminate.
Defined.

Lemma request_then_reset_witness :
  exists w1,
    AuthService.sendPasswordResetEmail "alice@x.com" (env 1000 "pr-1" "c0ffee") world
    = (Ok tt, w1)
    /\ outbox w1 = [reset_mail (env 1000 "pr-1" "c0ffee") alice]
    /\ fst (AuthService.resetPassword "c0ffee" "pw2" (env 901000 "k" "r") w1) = Ok tt
    /\ AuthService.resetPassword "c0ffee" "pw2" (env 901001 "k" "r") w1
       = (Throw InvalidOrExpiredResetToken, w1).
Proof.
  destruct (@request_then_reset bcrypt "alice@x.com" (env 1000 "pr-1" "c0ffee") world alice
              (reliable_env 1000 "pr-1" "c0ffee") eq_refl eq_refl eq_refl)
    as [w1 [Hsend [_ [Hmail [_ Hreset]]]]].
  exists w1. split; [exact Hsend |]. split; [exact Hmail |].
  split.
  - apply (proj1 (Hreset (env 901000 "k" "r") "pw2" (reliable_env 901000 "k" "r"))).
    vm_compute. discriminate.
  - apply (proj2 (Hreset (env 901001 "k" "r") "pw2" (reliable_env 901001 "k" "r"))).
    vm_compute. reflexivity.
Defined.

Lemma promoteToAdmin_idempotent_witness :
  AuthService.promoteToAdmin "u-root" "u-alice" (env 2000 "k" "r")
    (snd (AuthService.promoteToAdmin "u-root" "u-alice" (env 1000 "k" "r") world))
  = (Ok (with_role ADMIN alice),
     snd (AuthService.promoteToAdmin "u-root" "u-alice" (env 1000 "k" "r") world)).
Proof.
  apply (promoteToAdmin_idempotent "u-root" "u-alice" (env 1000 "k" "r") world
           (with_role ADMIN alice)
           (snd (AuthService.promoteToAdmin "u-root" "u-alice" (env 1000 "k" "r") world))
           (env 2000 "k" "r") eq_refl).
  - discriminate.
  - reflexivity.
  - reflexivity.
Defined.

Lemma self_promotion_locks_out_witness :
  AuthService.promoteToAdmin "u-root" "u-alice" (env 2000 "k" "r")
    (snd (AuthService.promoteToAdmin "u-root" "u-root" (env 1000 "k" "r") world))
  = (Throw Unauthorized,
     snd (AuthService.promoteToAdmin "u-root" "u-root" (env 1000 "k" "r") world)).
Proof.
  apply (self_promotion_locks_out "u-root" (env 1000 "k" "r") world
           (with_role ADMIN root)
           (snd (AuthService.promoteToAdmin "u-root" "u-root" (env 1000 "k" "r") world))
           (env 2000 "k" "r") "u-alice" eq_refl eq_refl).
Defined.

Lemma sessions_touch_only_the_digest_witness :
  exists u,
    find (has_email "alice@x.com") (users world) = Some u
    /\ Forall2 (fun v v' => User.id v <> User.id u -> v' = v)
         (users world) (users world_logged_in).
Proof.
  apply (proj2 (proj2 (@sessions_touch_only_the_digest bcrypt jwt config
                         (env 1000 "k" "r") world))
           alice_login
           (issued config (env 1000 "k" "r") "u-alice" "alice@x.com")
           world_logged_in eq_refl).
Defined.

Lemma createPortfolio_outcomes_witness :
  AuthServicePortfolios.createPortfolio settings "u-alice" cv None (around 1000 "p-1") storage
  = (Rejected (BadRequestException "File is required"), storage)
  /\ AuthServicePortfolios.createPortfolio settings "u-alice" cv (Some page)
       (around 1000 "p-1") storage
     = (Rejected InvalidFileType, storage)
  /\ AuthServicePortfolios.createPortfolio settings "u-alice" cv (Some cv_file_too_large)
       (around 1000 "p-1") storage
     = (Rejected FileTooLarge, storage)
  /\ AuthServicePortfolios.createPortfolio settings "u-nobody" cv (Some cv_file)
       (around 1000 "p-1") storage
     = (Rejected (UnauthorizedException "User not found"), storage)
  /\ AuthServicePortfolios.createPortfolio settings "u-alice" cv (Some cv_file)
       (around 1000 "p-1") storage
     = (Resolved alice_cv, storage_with_cv).
Proof.
  destruct (createPortfolio_outcomes settings "u-alice" cv (around 1000 "p-1") storage
              eq_refl eq_refl) as (Hnone & Htype & Hsize & _ & Hok).
  destruct (createPortfolio_outcomes settings "u-nobody" cv (around 1000 "p-1") storage
              eq_refl eq_refl) as (_ & _ & _ & Huser & _).
  split; [exact Hnone |].
  split.
  { apply Htype. cbn. intuition discriminate. }
  split.
  { apply Hsize; [cbn; auto | vm_compute; reflexivity]. }
  split.
  { apply Huser; [cbn; auto | vm_compute; discriminate | reflexivity]. }
  apply (Hok cv_file alice); [cbn; auto | vm_compute; discriminate | reflexivity | reflexivity].
Defined.


Lemma portfolio_access_denied_witness :
  (AuthServicePortfolios.updatePortfolio settings "u-root" "p-1" rename None
     (around 3000 "k") storage_with_cv
   = (Rejected AccessDenied, storage_with_cv)
   /\ AuthServicePortfolios.deletePortfolio "u-root" "p-1" (around 3000 "k") storage_with_cv
      = (Rejected AccessDenied, storage_with_cv))
  /\ (AuthServicePortfolios.updatePortfolio settings "u-alice" "p-9" rename None
        (around 3000 "k") storage_with_cv
      = (Rejected AccessDenied, storage_with_cv)
      /\ AuthServicePortfolios.deletePortfolio "u-alice" "p-9" (around 3000 "k")
           storage_with_cv
         = (Rejected AccessDenied, storage_with_cv)).
Proof.
  split.
  - apply (portfolio_access_denied settings "u-root" "p-1" rename None
             (around 3000 "k") storage_with_cv eq_refl).
    right. exists alice_cv, alice. repeat split. discriminate.
  - apply (portfolio_access_denied settings "u-alice" "p-9" rename None
             (around 3000 "k") storage_with_cv eq_refl).
    left. reflexivity.
Defined.

Lemma updatePortfolio_effect_witness :
  AuthServicePortfolios.updatePortfolio settings "u-alice" "p-1" rename None
    (around 3000 "k") storage_with_cv
  = (Resolved (with_title "Curriculum" alice_cv),
     storage_renamed)
  /\ Portfolio.description (with_title "Curriculum" alice_cv) = "My CV"
  /\ Portfolio.fileUrl (with_title "Curriculum" alice_cv) = Portfolio.fileUrl alice_cv.
Proof.
  pose proof (updatePortfolio_effect settings "u-alice" "p-1" rename None
                (around 3000 "k") storage_with_cv) as Heff.
  assert (AuthServicePortfolios.updatePortfolio settings "u-alice" "p-1" rename None
            (around 3000 "k") storage_with_cv
          = (Resolved (with_title "Curriculum" alice_cv),
             storage_renamed))
    as Hrun by reflexivity.
  rewrite Hrun in Heff.
  destruct Heff as (p & Hp & _ & _ & _ & _ & _ & Hd & Hf & _).
  injection Hp as <-.
  split; [exact Hrun |]. split; [exact Hd | exact (Hf eq_refl)].
Defined.

Lemma deletePortfolio_effect_witness :
  AuthServicePortfolios.deletePortfolio "u-alice" "p-1" (around 3000 "k") storage_with_two
  = (Resolved tt, storage_with_logo)
  /\ In alice_logo (portfolios storage_with_logo)
  /\ AuthServicePortfolios.deletePortfolio "u-alice" "p-1" (around 4000 "k")
       storage_with_logo
     = (Rejected AccessDenied, storage_with_logo).
Proof.
  destruct (deletePortfolio_effect settings "u-alice" "p-1" (around 3000 "k")
              storage_with_two storage_with_logo eq_refl)
    as (Hrows & _ & Hagain).
  split; [reflexivity |]. split.
  - apply Hrows. split; [right; now left | discriminate].
  - apply (Hagain (around 4000 "k") "u-alice" rename None eq_refl).
Defined.

Lemma getUserPortfolios_lists_own_witness :
  exists l,
    AuthServicePortfolios.getUserPortfolios "u-alice" (around 3000 "k") storage_with_two
    = (Resolved l, storage_with_two)
    /\ Permutation l (filter (owned_by "u-alice") (portfolios storage_with_two))
    /\ (forall p, In p l <-> In p (portfolios storage_with_two)
                             /\ Portfolio.user p = "u-alice")
    /\ StronglySorted not_older l.
Proof.
  apply (getUserPortfolios_lists_own "u-alice" (around 3000 "k") storage_with_two eq_refl).
Defined.

Lemma createPortfolio_then_list_witness :
  (exists l,
     AuthServicePortfolios.getUserPortfolios "u-alice" (around 3000 "k") storage_with_two
     = (Resolved l, storage_with_two)
     /\ In alice_logo l)
  /\ fst (AuthServicePortfolios.getUserPortfolios "u-root" (around 3000 "k") storage_with_two)
     = fst (AuthServicePortfolios.getUserPortfolios "u-root" (around 3000 "k")
              storage_with_cv).
Proof.
  destruct (createPortfolio_then_list settings "u-alice" logo (Some logo_file)
              (around 2000 "p-2") storage_with_cv alice_logo storage_with_two
              (around 3000 "k") eq_refl eq_refl) as [Hown Hother].
  split; [exact Hown |]. apply Hother. discriminate.
Defined.

Lemma useFactory_requires_both_secrets_witness :
  AuthModule.useFactory (lookup env_example)
  = Throw (Error "JWT_REFRESH_SECRET environment variable is required")
  /\ AuthModule.useFactory (fun _ => None)
     = Throw (Error "JWT_SECRET environment variable is required")
  /\ AuthModule.useFactory
       (lookup [("JWT_SECRET", "s3cret"); ("JWT_REFRESH_SECRET", "r3fresh")])
     = Ok {| JwtModuleOptions.secret := "s3cret"; JwtModuleOptions.expiresIn := "15m" |}.
Proof.
  split; [| split].
  - apply (proj2 (proj2 (useFactory_requires_both_secrets (lookup env_example))));
      [vm_compute; discriminate | reflexivity].
  - apply (proj1 (proj2 (useFactory_requires_both_secrets (fun _ => None)))).
    reflexivity.
  - apply (proj1 (useFactory_requires_both_secrets
                    (lookup [("JWT_SECRET", "s3cret"); ("JWT_REFRESH_SECRET", "r3fresh")]))).
    exists "s3cret", "r3fresh". repeat split; discriminate.
Defined.

Lemma backup_log_witness :
  exists middle last,
    BackupTask.logs
      (snd (BackupTask.executeBackup tt 7 "Daily"
              (backup_around (Some (BackupTask.ServiceRejection "disk full"))
                 (inr {| BackupTask.status := "ok" |}))
              no_trace))
    = {| BackupTask.level := BackupTask.LOG;
         BackupTask.message := "Starting Daily backup...";
         BackupTask.detail := None |} :: middle ++ [last]
    /\ (In {| BackupTask.level := BackupTask.WARN;
              BackupTask.message :=
                "AWS credentials not configured, cross-region backup may fail";
              BackupTask.detail := None |} middle ->
        BackupTask.level
          {| BackupTask.level := BackupTask.WARN;
             BackupTask.message :=
               "AWS credentials not configured, cross-region backup may fail";
             BackupTask.detail := None |} = BackupTask.WARN)
    /\ last
       = {| BackupTask.level := BackupTask.ERROR;
            BackupTask.message := "Daily backup failed:";
            BackupTask.detail :=
              Some (BackupTask.Caught (BackupTask.ServiceRejection "disk full")) |}.
Proof.
  destruct (backup_log unit tt 7 "Daily"
              (backup_around (Some (BackupTask.ServiceRejection "disk full"))
                 (inr {| BackupTask.status := "ok" |}))
              no_trace) as (middle & last & Hlogs & Hwarn & _ & Hlast).
  exists middle, last. split; [exact Hlogs |]. split; [apply Hwarn | exact Hlast].
Defined.

Lemma health_check_log_witness :
  snd (BackupTask.handleHealthCheck
         (backup_around None (inr {| BackupTask.status := "critical" |})) no_trace)
  = no_trace.
Proof.
  apply (proj2 (proj2 (proj2
           (health_check_log unit
              (backup_around None (inr {| BackupTask.status := "critical" |})) no_trace)))
           {| BackupTask.status := "critical" |} eq_refl).
  discriminate.
Defined.

Lemma portfolio_keys_stay_unique_witness :
  portfolio_keys_unique
    (snd (AuthServicePortfolios.createPortfolio settings "u-root" logo (Some logo_file)
            (around 5000 "p-3") storage_with_two))
  /\ portfolio_keys_unique
       (snd (AuthServicePortfolios.updatePortfolio settings "u-alice" "p-1" rename None
               (around 5000 "k") storage_with_two))
  /\ portfolio_keys_unique
       (snd (AuthServicePortfolios.deletePortfolio "u-alice" "p-2" (around 5000 "k")
               storage_with_two)).
Proof.
  assert (portfolio_keys_unique storage_with_two) as Hst.
  { unfold portfolio_keys_unique. cbn. distinct. }
  destruct (portfolio_keys_stay_unique settings (around 5000 "p-3") storage_with_two Hst)
    as (Hc & _ & _).
  destruct (portfolio_keys_stay_unique settings (around 5000 "k") storage_with_two Hst)
    as (_ & Hu & Hd).
  split; [apply Hc |]. split; [apply Hu | apply Hd].
Defined.
